(** * Fluent Bit output modules of plaso: a shallow embedding

    The development follows [plaso/output/shared_fluentbit.py],
    [plaso/output/fluentbit.py] and [plaso/output/fluentbit_ts.py].

    Conventions of the embedding:
    - a Python [str] is represented by the Rocq [string] holding its UTF-8
      encoding, a Python [bytes] by a [list byte];
    - a Python [dict] is an insertion-ordered association list ([PyDict]);
      a document handed to [WriteFieldValues] is such a value, the buffer
      holds the document as it is after the reserved keys were set;
    - the class-level list [_DEFAULT_FIELD_NAMES] lives in a store of list
      objects and instances hold a reference to it;
    - methods run in a state-and-exception monad over the instance and the
      world (store, logger, HTTP requests issued so far). *)

From Stdlib Require Import ssreflect ZArith NArith.
From Stdlib.Strings Require Import Ascii Byte.
From stdpp Require Import gmap strings list pretty.

Open Scope Z_scope.

Set Warnings "-register-all,-rewrite-rw,-clear-no-such-hyp".

(** ** Python values *)

(** The values an event attribute or an output field can hold, as far as
    the output module tells them apart with [isinstance] and [is None]. *)
Inductive value : Type :=
| VNone
| VBool (b : bool)
| VInt (z : Z)
| VStr (s : string)
| VBytes (bs : list byte)
| VList (l : list value)
| VIdentifier (n : Z)          (* containers_interface.AttributeContainerIdentifier *)
| VDateTimeValues (t : Z)      (* dfdatetime_interface.DateTimeValues *)
| VPathSpec (location : string). (* a dfVFS path specification *)

Definition is_None (v : value) : bool :=
  match v with VNone => true | _ => false end.

Definition is_bytes (v : value) : bool :=
  match v with VBytes _ => true | _ => false end.

Definition is_DateTimeValues (v : value) : bool :=
  match v with VDateTimeValues _ => true | _ => false end.

(** [isinstance(v, (AttributeContainerIdentifier, DateTimeValues))] *)
Definition is_identifier_or_datetime (v : value) : bool :=
  match v with VIdentifier _ | VDateTimeValues _ => true | _ => false end.

(** [isinstance(v, list) and v and isinstance(v[0], DateTimeValues)] *)
Definition is_datetime_list (v : value) : bool :=
  match v with
  | VList (x :: _) => is_DateTimeValues x
  | _ => false
  end.

(** Truth value of an optional string: [None] and [''] are false. *)
Definition truthy_str (o : option string) : bool :=
  match o with
  | Some (String _ _) => true
  | _ => false
  end.

(** Truth value of an optional integer: [None] and [0] are false. *)
Definition truthy_int (o : option Z) : bool :=
  match o with
  | Some z => negb (z =? 0)
  | None => false
  end.

(** ** Insertion-ordered dictionaries *)

Module PyDict.
Section dict.
Context {V : Type}.

Definition t : Type := list (string * V).

Definition empty : t := [].

(** [d.get(k)] *)
Fixpoint get (k : string) (d : t) : option V :=
  match d with
  | [] => None
  | (k', v) :: d' => if String.eqb k k' then Some v else get k d'
  end.

(** [k in d] *)
Definition mem (k : string) (d : t) : bool :=
  match get k d with Some _ => true | None => false end.

(** [d[k] = v]: an existing key keeps its position, a new key goes last. *)
Fixpoint set (k : string) (v : V) (d : t) : t :=
  match d with
  | [] => [(k, v)]
  | (k', v') :: d' =>
      if String.eqb k k' then (k, v) :: d' else (k', v') :: set k v d'
  end.

(** [list(d.keys())] *)
Definition keys (d : t) : list string := map fst d.

(** [d.items()] *)
Definition items (d : t) : list (string * V) := d.

(** [dict(pairs)] *)
Definition of_pairs (pairs : list (string * V)) : t :=
    fold_left (fun d kv => set (fst kv) (snd kv) d) pairs empty.
End dict.
Arguments t : clear implicits.
End PyDict.

(** A field document: output field values per name. *)
Definition document : Type := PyDict.t value.

(** ** What [json.dumps] can encode *)

(** [None], booleans, integers, texts and lists of such values are
    encoded; for a bytes value and for any other object the encoder raises
    [TypeError]. *)
Fixpoint json_encodable (v : value) : bool :=
  match v with
  | VNone | VBool _ | VInt _ | VStr _ => true
  | VList l => forallb json_encodable l
  | VBytes _ | VIdentifier _ | VDateTimeValues _ | VPathSpec _ => false
  end.

(** The keys of a document are texts, so it is encoded when its values
    are. *)
Definition document_encodable (d : document) : bool :=
  forallb (fun item => json_encodable (snd item)) d.

(** ** [bytes.decode('utf-8', 'replace')] *)

Module Utf8.
Definition chr (b : byte) : ascii := ascii_of_byte b.

(** U+FFFD REPLACEMENT CHARACTER, in UTF-8. *)
Definition replacement : string :=
  String (chr xef) (String (chr xbf) (String (chr xbd) "")).

Definition is_continuation (b : byte) : bool :=
  (N.land (Byte.to_N b) 0xC0 =? 0x80)%N.

(** Second byte of a three-byte sequence that makes it overlong
    (E0 80..9F) or a surrogate (ED A0..BF). *)
Definition bad_second_of_3 (b1 b2 : byte) : bool :=
  negb (is_continuation b2)
  || (if (Byte.to_N b2 <? 0xA0)%N
      then (Byte.to_N b1 =? 0xE0)%N else (Byte.to_N b1 =? 0xED)%N).

(** Second byte of a four-byte sequence that makes it overlong
    (F0 80..8F) or larger than U+10FFFF (F4 90..BF). *)
Definition bad_second_of_4 (b1 b2 : byte) : bool :=
  negb (is_continuation b2)
  || (if (Byte.to_N b2 <? 0x90)%N
      then (Byte.to_N b1 =? 0xF0)%N else (Byte.to_N b1 =? 0xF4)%N).

(** The decoder of the interpreter with the [replace] error handler:
    well-formed sequences are kept, every maximal ill-formed part, and a
    truncated sequence at the end of the data, becomes one U+FFFD. *)
Fixpoint decode_replace (bs : list byte) : string :=
  match bs with
  | [] => ""
  | b1 :: r1 =>
      let c := Byte.to_N b1 in
      if (c <? 0x80)%N then String (chr b1) (decode_replace r1)
      else if (c <? 0xC2)%N then replacement +:+ decode_replace r1
      else if (c <? 0xE0)%N then
        match r1 with
        | [] => replacement
        | b2 :: r2 =>
            if is_continuation b2
            then String (chr b1) (String (chr b2) (decode_replace r2))
            else replacement +:+ decode_replace r1
        end
      else if (c <? 0xF0)%N then
        match r1 with
        | [] => replacement
        | b2 :: r2 =>
            if bad_second_of_3 b1 b2 then replacement +:+ decode_replace r1
            else
              match r2 with
              | [] => replacement
              | b3 :: r3 =>
                  if is_continuation b3
                  then String (chr b1) (String (chr b2) (String (chr b3)
                         (decode_replace r3)))
                  else replacement +:+ decode_replace r2
              end
        end
      else if (c <? 0xF5)%N then
        match r1 with
        | [] => replacement
        | b2 :: r2 =>
            if bad_second_of_4 b1 b2 then replacement +:+ decode_replace r1
            else
              match r2 with
              | [] => replacement
              | b3 :: r3 =>
                  if negb (is_continuation b3)
                  then replacement +:+ decode_replace r2
                  else
                    match r3 with
                    | [] => replacement
                    | b4 :: r4 =>
                        if is_continuation b4
                        then String (chr b1) (String (chr b2) (String (chr b3)
                               (String (chr b4) (decode_replace r4))))
                        else replacement +:+ decode_replace r3
                    end
              end
        end
      else replacement +:+ decode_replace r1
  end.

(** The bytes behind a text, [str.encode('utf-8')]. *)
Definition encode (s : string) : list byte := String.list_byte_of_string s.

(** Well-formed UTF-8: only shortest forms, no surrogates, nothing above
    U+10FFFF. *)
Fixpoint well_formed (bs : list byte) : bool :=
  match bs with
  | [] => true
  | b1 :: r1 =>
      let c := Byte.to_N b1 in
      if (c <? 0x80)%N then well_formed r1
      else if (c <? 0xC2)%N then false
      else if (c <? 0xE0)%N then
        match r1 with
        | b2 :: r2 => is_continuation b2 && well_formed r2
        | _ => false
        end
      else if (c <? 0xF0)%N then
        match r1 with
        | b2 :: b3 :: r3 =>
            negb (bad_second_of_3 b1 b2) && is_continuation b3
            && well_formed r3
        | _ => false
        end
      else if (c <? 0xF5)%N then
        match r1 with
        | b2 :: b3 :: b4 :: r4 =>
            negb (bad_second_of_4 b1 b2) && is_continuation b3
            && is_continuation b4 && well_formed r4
        | _ => false
        end
      else false
  end.
End Utf8.

(** ** What decoding with replacement means

    The [replace] error handler follows the practice the Unicode Standard
    recommends (section 3.9, substitution of maximal subparts): nothing
    is decoded to nothing, a well-formed sequence is decoded to the text
    it encodes, and of an ill-formed start the longest part that begins a
    well-formed sequence, or one byte where there is none, becomes one
    U+FFFD. *)

Module Utf8Spec.
(** The text that well-formed bytes encode. *)
Definition text_of (bs : list byte) : string := String.string_of_list_byte bs.

(** [part] is the beginning of some well-formed byte string. *)
Definition begins_well_formed (part : list byte) : Prop :=
  ∃ rest, Utf8.well_formed (part ++ rest) = true.

(** The data does not start with a well-formed sequence. *)
Definition ill_formed_start (bs : list byte) : Prop :=
  bs ≠ [] ∧ ∀ n, (1 ≤ n)%nat → Utf8.well_formed (take n bs) = false.

(** The first [k] bytes are the maximal subpart of the ill-formed start:
    the longest beginning of a well-formed sequence, or one byte. *)
Definition maximal_subpart (bs : list byte) (k : nat) : Prop :=
  (1 ≤ k ≤ length bs)%nat
  ∧ (k = 1%nat ∨ begins_well_formed (take k bs))
  ∧ ∀ j, (k < j ≤ length bs)%nat → ¬ begins_well_formed (take j bs).

Record decodes_with_replacement (decode : list byte → string) : Prop := {
  decodes_nothing : decode [] = "";
  decodes_well_formed : ∀ a b,
    Utf8.well_formed a = true → decode (a ++ b) = text_of a +:+ decode b;
  decodes_ill_formed : ∀ bs,
    ill_formed_start bs →
    ∃ k, maximal_subpart bs k
         ∧ decode bs = Utf8.replacement +:+ decode (drop k bs) }.
End Utf8Spec.

(** ** Exceptions, the world and the method monad *)

Inductive exn : Type :=
| TypeError
| AttributeError
| IndexError.

Inductive outcome (A : Type) : Type :=
| Return (a : A)
| Raise (e : exn).
Arguments Return {A} a.
Arguments Raise {A} e.

Inductive log_level : Type := DEBUG | INFO | WARNING.

Record log_record : Type := { levelname : log_level; msg : string }.

(** One call of [requests.post(url, json=..., timeout=...)]. *)
Record request : Type := {
  url : string;
  json : list document;
  timeout : Z }.

(** What the call gives back once the request is sent: a response, or a
    raised [requests.exceptions.RequestException]; these are the two
    outcomes [_FlushEvents] provides for. *)
Inductive post_result : Type :=
| Response (status_code : Z) (text : string)
| RequestException (description : string).

Abbreviation loc := positive.

(** Everything outside the instance: the store of list objects, the
    records handed to the logger, the POST requests issued so far, and the
    answer of the network to the n-th request. *)
Record world : Type := {
  lists : gmap loc (list string);
  logged : list log_record;
  posted : list request;
  network : nat -> post_result }.

(** A method of an instance of type [S]: it may change the instance and
    the world, and ends by returning or by raising; what was changed before
    an exception stays changed. *)
Definition M (S A : Type) : Type := S -> world -> outcome A * S * world.

#[global] Instance M_ret {S} : MRet (M S) :=
  fun A a s w => (Return a, s, w).

#[global] Instance M_bind {S} : MBind (M S) :=
  fun A B f m s w =>
    match m s w with
    | (Return a, s', w') => f a s' w'
    | (Raise e, s', w') => (Raise e, s', w')
    end.

Definition raise {S A} (e : exn) : M S A := fun s w => (Raise e, s, w).

Definition get_self {S} : M S S := fun s w => (Return s, s, w).

Definition put_self {S} (s' : S) : M S unit := fun _ w => (Return tt, s', w).

Definition get_world {S} : M S world := fun s w => (Return w, s, w).

Definition of_outcome {S A} (o : outcome A) : M S A := fun s w => (o, s, w).

(** Runs a method of an embedded instance on the embedding one. *)
Definition lift {S T A} (proj : T -> S) (inj : S -> T -> T) (m : M S A) : M T A :=
  fun t w =>
    match m (proj t) w with
    | (r, s', w') => (r, inj s' t, w')
    end.

(** [logger.debug], [logger.info], [logger.warning] *)
Definition log {S} (level : log_level) (message : string) : M S unit :=
  fun s w =>
    (Return tt, s,
     {| lists := lists w;
        logged := logged w ++ [{| levelname := level; msg := message |}];
        posted := posted w;
        network := network w |}).

(** [requests.post]: the payload is encoded first, and a document the
    encoder refuses makes the call raise [TypeError] before anything is
    sent; otherwise the request is recorded and the network answers. *)
Definition requests_post {S} (r : request) : M S post_result :=
  fun s w =>
    if forallb document_encodable (json r)
    then
      (Return (network w (length (posted w))), s,
       {| lists := lists w;
          logged := logged w;
          posted := posted w ++ [r];
          network := network w |})
    else (Raise TypeError, s, w).

(** [the_list.extend(names)] on the list object at [l]. *)
Definition list_extend {S} (l : loc) (names : list string) : M S unit :=
  fun s w =>
    (Return tt, s,
     {| lists := alter (fun old => old ++ names) l (lists w);
        logged := logged w;
        posted := posted w;
        network := network w |}).

(** The content of the list object at [l]. *)
Definition list_content (w : world) (l : loc) : list string :=
  default [] (lists w !! l).

(** [str(x)] of an optional string. *)
Definition str_of (o : option string) : string :=
  match o with Some s => s | None => "None" end.

Definition dquote : string := String (ascii_of_nat 34) "".

(** ** Records handed over by the caller *)

(** An event-data container: its data type and what [GetAttributes()]
    yields, in order. *)
Record EventData : Type := {
  data_type : string;
  attributes : list (string * value) }.

(** An event-data-stream container: what [GetAttributes()] yields. *)
Record EventDataStream : Type := {
  stream_attributes : list (string * value) }.

(** ** [SharedFluentBitOutputModule] *)

Module SharedFluentBit.

Definition _DEFAULT_FLUSH_INTERVAL : Z := 1000.

Definition _DEFAULT_REQUEST_TIMEOUT : Z := 300.

(** The class attribute [_DEFAULT_FIELD_NAMES] refers to one list object. *)
Definition _DEFAULT_FIELD_NAMES : loc := 1%positive.

(** That list object when the module is imported. *)
Definition default_field_names : list string :=
  ["datetime"; "display_name"; "message"; "source_long"; "source_short";
   "tag"; "timestamp"; "timestamp_desc"].

Record t : Type := {
  _custom_fields : PyDict.t value;
  _event_documents : list document;
  _field_names : loc;
  _flush_interval : Z;
  _host : option string;
  _index_name : option string;
  _number_of_buffered_events : Z;
  _port : option Z;
  _url_prefix : option string }.

Definition with_custom_fields (v : PyDict.t value) (s : t) : t :=
  {| _custom_fields := v;
     _event_documents := _event_documents s;
     _field_names := _field_names s;
     _flush_interval := _flush_interval s;
     _host := _host s;
     _index_name := _index_name s;
     _number_of_buffered_events := _number_of_buffered_events s;
     _port := _port s;
     _url_prefix := _url_prefix s |}.

Definition with_event_documents (v : list document) (s : t) : t :=
  {| _custom_fields := _custom_fields s;
     _event_documents := v;
     _field_names := _field_names s;
     _flush_interval := _flush_interval s;
     _host := _host s;
     _index_name := _index_name s;
     _number_of_buffered_events := _number_of_buffered_events s;
     _port := _port s;
     _url_prefix := _url_prefix s |}.

Definition with_flush_interval (v : Z) (s : t) : t :=
  {| _custom_fields := _custom_fields s;
     _event_documents := _event_documents s;
     _field_names := _field_names s;
     _flush_interval := v;
     _host := _host s;
     _index_name := _index_name s;
     _number_of_buffered_events := _number_of_buffered_events s;
     _port := _port s;
     _url_prefix := _url_prefix s |}.

Definition with_server (h : option string) (p : option Z) (s : t) : t :=
  {| _custom_fields := _custom_fields s;
     _event_documents := _event_documents s;
     _field_names := _field_names s;
     _flush_interval := _flush_interval s;
     _host := h;
     _index_name := _index_name s;
     _number_of_buffered_events := _number_of_buffered_events s;
     _port := p;
     _url_prefix := _url_prefix s |}.

Definition with_index_name (v : option string) (s : t) : t :=
  {| _custom_fields := _custom_fields s;
     _event_documents := _event_documents s;
     _field_names := _field_names s;
     _flush_interval := _flush_interval s;
     _host := _host s;
     _index_name := v;
     _number_of_buffered_events := _number_of_buffered_events s;
     _port := _port s;
     _url_prefix := _url_prefix s |}.

Definition with_number_of_buffered_events (v : Z) (s : t) : t :=
  {| _custom_fields := _custom_fields s;
     _event_documents := _event_documents s;
     _field_names := _field_names s;
     _flush_interval := _flush_interval s;
     _host := _host s;
     _index_name := _index_name s;
     _number_of_buffered_events := v;
     _port := _port s;
     _url_prefix := _url_prefix s |}.

Definition with_url_prefix (v : option string) (s : t) : t :=
  {| _custom_fields := _custom_fields s;
     _event_documents := _event_documents s;
     _field_names := _field_names s;
     _flush_interval := _flush_interval s;
     _host := _host s;
     _index_name := _index_name s;
     _number_of_buffered_events := _number_of_buffered_events s;
     _port := _port s;
     _url_prefix := v |}.

(** [__init__]: the field-name list is the class-level list itself, not
    a copy of it. *)
Definition __init__ : t :=
  {| _custom_fields := PyDict.empty;
     _event_documents := [];
     _field_names := _DEFAULT_FIELD_NAMES;
     _flush_interval := _DEFAULT_FLUSH_INTERVAL;
     _host := None;
     _index_name := None;
     _number_of_buffered_events := 0;
     _port := None;
     _url_prefix := None |}.

Definition _Connect : M t unit :=
  self ← get_self;
  match _host self, _port self with
  | Some host, Some port =>
      log DEBUG ("Configured Fluent Bit server: " +:+ host +:+ " port: "
                 +:+ pretty port)
  | _, _ => raise TypeError
  end.

Definition SetIndexName (index_name : string) : M t unit :=
  self ← get_self;
  put_self (with_index_name (Some index_name) self);;
  log DEBUG ("Fluent Bit index name: " +:+ index_name).

(** The URL a flush posts to. *)
Definition flush_url (self : t) (port : Z) : string :=
  let url := "http://" +:+ str_of (_host self) +:+ ":" +:+ pretty port in
  if truthy_str (_url_prefix self)
  then url +:+ "/" +:+ str_of (_url_prefix self)
  else url.

Definition _FlushEvents : M t unit :=
  self ← get_self;
  match _event_documents self with
  | [] => mret tt
  | _ :: _ =>
      port ← match _port self with
             | Some port => mret port
             | None => raise TypeError
             end;
      response ← requests_post
        {| url := flush_url self port;
           json := _event_documents self;
           timeout := _DEFAULT_REQUEST_TIMEOUT |};
      match response with
      | Response status_code text =>
          if negb ((status_code =? 200) || (status_code =? 201))
          then log WARNING
                 ("Unable to send events to Fluent Bit. Status code: "
                  +:+ pretty status_code +:+ ", Response: " +:+ text)
          else log DEBUG
                 ("Inserted " +:+ pretty (_number_of_buffered_events self)
                  +:+ " events into Fluent Bit")
      | RequestException description =>
          log WARNING ("Unable to send events with error: " +:+ description)
      end;;
      self ← get_self;
      put_self (with_event_documents [] self);;
      self ← get_self;
      put_self (with_number_of_buffered_events 0 self)
  end.

Definition _SanitizeField (data_type attribute_name : string) (field : value)
  : M t value :=
  match field with
  | VBytes bs =>
      let field := Utf8.decode_replace bs in
      log WARNING
        ("Found bytes value for attribute: " +:+ attribute_name
         +:+ " of data type: " +:+ data_type
         +:+ ". Value was converted to UTF-8: " +:+ dquote +:+ field +:+ dquote);;
      mret (VStr field)
  | _ => mret field
  end.

Definition Close : M t unit := _FlushEvents.

Definition SetAdditionalFields (field_names : list string) : M t unit :=
  self ← get_self;
  list_extend (_field_names self) field_names.

Definition SetCustomFields (field_names_and_values : list (string * value))
  : M t unit :=
  self ← get_self;
  put_self (with_custom_fields (PyDict.of_pairs field_names_and_values) self);;
  self ← get_self;
  list_extend (_field_names self) (PyDict.keys (_custom_fields self)).

Definition SetFlushInterval (flush_interval : Z) : M t unit :=
  self ← get_self;
  put_self (with_flush_interval flush_interval self);;
  log DEBUG ("Fluent Bit flush interval: " +:+ pretty flush_interval).

Definition SetServerInformation (server : string) (port : Z) : M t unit :=
  self ← get_self;
  put_self (with_server (Some server) (Some port) self);;
  log DEBUG ("Fluent Bit server: " +:+ server +:+ " port: " +:+ pretty port).

Definition SetURLPrefix (url_prefix : option string) : M t unit :=
  self ← get_self;
  put_self (with_url_prefix url_prefix self);;
  log DEBUG ("Fluent Bit URL prefix: " +:+ str_of url_prefix).

End SharedFluentBit.

(** ** [SharedFluentBitOutputModule.GetFieldValues] *)

Module Resolver.
Section get_field_values.
Import SharedFluentBit.

(** The collaborators of the resolver: the mediator, event and tag are
    only handed on to the formatting helper. *)
Context {OutputMediator EventObject EventTag : Type}.

(** [self._field_formatting_helper.GetFormattedField]: a formatted value
    or [None]. *)
Variable GetFormattedField :
  OutputMediator -> string -> EventObject -> option EventData ->
  option EventDataStream -> option EventTag -> value.

(** [JsonPathSpecSerializer.WriteSerialized]: the serialized form, or
    [None] when it raises [TypeError]. *)
Variable WriteSerialized : value -> option string.

(** The loop over [event_data.GetAttributes()]. *)
Fixpoint collect_event_data (attrs : list (string * value))
    (event_values : PyDict.t value) : outcome (PyDict.t value) :=
  match attrs with
  | [] => Return event_values
  | (attribute_name, attribute_value) :: rest =>
      if is_identifier_or_datetime attribute_value
      then collect_event_data rest event_values
      else if is_datetime_list attribute_value
      then collect_event_data rest event_values
      else
        match attribute_name with
        | EmptyString => Raise IndexError
        | String c _ =>
            if Ascii.eqb c "_" && negb (String.eqb attribute_name "_parser_chain")
            then collect_event_data rest event_values
            else
              let attribute_name :=
                if String.eqb attribute_name "_parser_chain"
                then "parser" else attribute_name in
              collect_event_data rest
                (PyDict.set attribute_name attribute_value event_values)
        end
  end.

(** The loop over [event_data_stream.GetAttributes()]. *)
Definition collect_stream (attrs : list (string * value))
    (event_values : PyDict.t value) : PyDict.t value :=
  fold_left (fun d kv => PyDict.set (fst kv) (snd kv) d) attrs event_values.

(** The loop over [self._field_names]. *)
Definition fill_missing (field_names : list string)
    (event_values : PyDict.t value) : PyDict.t value :=
  fold_left
    (fun d attribute_name =>
       if PyDict.mem attribute_name d then d
       else PyDict.set attribute_name VNone d)
    field_names event_values.

(** The value of a field before it is sanitized, given what the
    serializer or the formatting helper produced for it. *)
Definition substitute (custom_fields : PyDict.t value)
    (attribute_name : string) (field_value : value) : value :=
  let field_value :=
    if is_None field_value && PyDict.mem attribute_name custom_fields
    then default VNone (PyDict.get attribute_name custom_fields)
    else field_value in
  if is_None field_value then VStr "-" else field_value.

(** The loop over [event_values.items()]. *)
Fixpoint resolve_fields (output_mediator : OutputMediator)
    (event : EventObject) (event_data : option EventData)
    (event_data_stream : option EventDataStream) (event_tag : option EventTag)
    (items : list (string * value)) (field_values : document)
  : M t document :=
  match items with
  | [] => mret field_values
  | (attribute_name, attribute_value) :: rest =>
      let continue :=
        resolve_fields output_mediator event event_data event_data_stream
          event_tag rest in
      let store (field_value : value) : M t document :=
        self ← get_self;
        let field_value :=
          substitute (_custom_fields self) attribute_name field_value in
        data_type ← match event_data with
                    | Some event_data => mret (data_type event_data)
                    | None => raise AttributeError
                    end;
        sanitized ← _SanitizeField data_type attribute_name field_value;
        continue (PyDict.set attribute_name sanitized field_values) in
      if String.eqb attribute_name "path_spec"
      then
        match WriteSerialized attribute_value with
        | None => continue field_values
        | Some serialized => store (VStr serialized)
        end
      else
        store (GetFormattedField output_mediator attribute_name event
                 event_data event_data_stream event_tag)
  end.

(** The merged attribute map the last loop runs over, when the first loop
    does not raise. *)
Definition event_values_of (field_names : list string)
    (event_data : option EventData)
    (event_data_stream : option EventDataStream)
  : outcome (PyDict.t value) :=
  match
    match event_data with
    | Some event_data =>
        collect_event_data (attributes event_data) PyDict.empty
    | None => Return PyDict.empty
    end
  with
  | Raise e => Raise e
  | Return event_values =>
      let event_values :=
        match event_data_stream with
        | Some event_data_stream =>
            collect_stream (stream_attributes event_data_stream) event_values
        | None => event_values
        end in
      Return (fill_missing field_names event_values)
  end.

Definition GetFieldValues (output_mediator : OutputMediator)
    (event : EventObject) (event_data : option EventData)
    (event_data_stream : option EventDataStream) (event_tag : option EventTag)
  : M t document :=
  self ← get_self;
  w ← get_world;
  event_values ← of_outcome
    (event_values_of (list_content w (_field_names self))
       event_data event_data_stream);
  resolve_fields output_mediator event event_data event_data_stream
    event_tag (PyDict.items event_values) PyDict.empty.

End get_field_values.
End Resolver.

(** ** [FluentBitOutputModule] *)

Module FluentBit.
Import SharedFluentBit.

(** The class adds no attribute to the shared one. *)
Definition t : Type := SharedFluentBit.t.

Definition WriteFieldValues (field_values : document) : M t unit :=
  self ← get_self;
  let field_values :=
    if truthy_str (_index_name self)
    then PyDict.set "__ts_searchindex" (VStr (str_of (_index_name self)))
           field_values
    else field_values in
  put_self (with_event_documents (_event_documents self ++ [field_values]) self);;
  self ← get_self;
  put_self (with_number_of_buffered_events
              (_number_of_buffered_events self + 1) self);;
  self ← get_self;
  if _flush_interval self <? _number_of_buffered_events self
  then _FlushEvents
  else mret tt.

Definition WriteHeader : M t unit := _Connect.

End FluentBit.

(** ** [FluentBitTimesketchOutputModule] *)

Module FluentBitTimesketch.
Import SharedFluentBit.

Record t : Type := {
  shared : SharedFluentBit.t;
  _timeline_identifier : option Z }.

Definition with_shared (b : SharedFluentBit.t) (s : t) : t :=
  {| shared := b; _timeline_identifier := _timeline_identifier s |}.

Definition with_timeline_identifier (v : option Z) (s : t) : t :=
  {| shared := shared s; _timeline_identifier := v |}.

(** A method inherited from the shared class. *)
Definition inherited {A} (m : M SharedFluentBit.t A) : M t A :=
  lift shared with_shared m.

Definition __init__ : t :=
  {| shared := SharedFluentBit.__init__; _timeline_identifier := None |}.

(** The value stored under [__ts_timeline_id]. *)
Definition int_or_None (o : option Z) : value :=
  match o with Some z => VInt z | None => VNone end.

Definition WriteFieldValues (field_values : document) : M t unit :=
  self ← get_self;
  let field_values :=
    PyDict.set "__ts_timeline_id" (int_or_None (_timeline_identifier self))
      field_values in
  let field_values :=
    if truthy_str (_index_name (shared self))
    then PyDict.set "__ts_searchindex"
           (VStr (str_of (_index_name (shared self)))) field_values
    else field_values in
  put_self (with_shared
              (with_event_documents
                 (_event_documents (shared self) ++ [field_values])
                 (shared self)) self);;
  self ← get_self;
  put_self (with_shared
              (with_number_of_buffered_events
                 (_number_of_buffered_events (shared self) + 1)
                 (shared self)) self);;
  self ← get_self;
  if _flush_interval (shared self) <? _number_of_buffered_events (shared self)
  then inherited _FlushEvents
  else mret tt.

Definition GetMissingArguments : M t (list string) :=
  self ← get_self;
  if negb (truthy_int (_timeline_identifier self))
  then mret ["timeline_id"]
  else mret [].

Definition SetTimelineIdentifier (timeline_identifier : Z) : M t unit :=
  self ← get_self;
  put_self (with_timeline_identifier (Some timeline_identifier) self);;
  log INFO ("Timeline identifier: " +:+ pretty timeline_identifier).

Definition WriteHeader : M t unit := inherited _Connect.

End FluentBitTimesketch.

(** The world right after the modules are imported, for a given network. *)
Definition initial_world (net : nat -> post_result) : world :=
  {| lists := {[ SharedFluentBit._DEFAULT_FIELD_NAMES :=
                   SharedFluentBit.default_field_names ]};
     logged := [];
     posted := [];
     network := net |}.

(** ** Notions used to state the properties *)

Module Spec.
Import SharedFluentBit.

(** The instance after a flush that went through: empty buffer, counter 0. *)
Definition reset_buffer (s : SharedFluentBit.t) : SharedFluentBit.t :=
  with_number_of_buffered_events 0 (with_event_documents [] s).

(** The counter agrees with the buffer. *)
Definition coherent (s : SharedFluentBit.t) : Prop :=
  _number_of_buffered_events s = Z.of_nat (length (_event_documents s)).

(** The world after one more POST request and one more log record. *)
Definition after_post (w : world) (r : request) (entry : log_record) : world :=
  {| lists := lists w;
     logged := logged w ++ [entry];
     posted := posted w ++ [r];
     network := network w |}.

(** The world after more log records (and nothing else). *)
Definition after_logging (w : world) (entries : list log_record) : world :=
  {| lists := lists w;
     logged := logged w ++ entries;
     posted := posted w;
     network := network w |}.

(** Documents the JSON encoder takes, as documents of texts are. *)
Definition encodable (documents : list document) : Prop :=
  Forall (λ d, document_encodable d = true) documents.

(** The level at which the answer to a flush is logged. *)
Definition flush_level (answer : post_result) : log_level :=
  match answer with
  | Response status_code _ =>
      if (status_code =? 200) || (status_code =? 201) then DEBUG else WARNING
  | RequestException _ => WARNING
  end.

(** Every document the sink took so far, in order: those of the requests
    issued, then those still buffered. *)
Definition accepted (s : SharedFluentBit.t) (w : world) : list document :=
  concat (map json (posted w)) ++ _event_documents s.

(** The document [FluentBitOutputModule.WriteFieldValues] puts in the
    buffer for [field_values]. *)
Definition stamped (s : SharedFluentBit.t) (field_values : document) : document :=
  match _index_name s with
  | Some (String a r) =>
      PyDict.set "__ts_searchindex" (VStr (String a r)) field_values
  | _ => field_values
  end.

(** Consecutive calls of [WriteFieldValues], one per record. *)
Fixpoint write_all (records : list document) : M FluentBit.t unit :=
  match records with
  | [] => mret tt
  | field_values :: rest =>
      FluentBit.WriteFieldValues field_values;; write_all rest
  end.

(** The value [_SanitizeField] returns. *)
Definition sanitized (field : value) : value :=
  match field with
  | VBytes bs => VStr (Utf8.decode_replace bs)
  | _ => field
  end.

(** The name under which the first loop of [GetFieldValues] keeps an
    event-data attribute, if it keeps it. *)
Definition kept_as (attribute : string * value) : option string :=
  let (attribute_name, attribute_value) := attribute in
  if is_identifier_or_datetime attribute_value || is_datetime_list attribute_value
  then None
  else if String.eqb attribute_name "_parser_chain" then Some "parser"
  else
    match attribute_name with
    | String c _ => if Ascii.eqb c "_" then None else Some attribute_name
    | EmptyString => None
    end.

(** The attribute names a record brings into the document. *)
Definition record_names (event_data : EventData)
    (event_data_stream : option EventDataStream) : list string :=
  omap kept_as (attributes event_data)
  ++ match event_data_stream with
     | Some event_data_stream => map fst (stream_attributes event_data_stream)
     | None => []
     end.

End Spec.

(** What the last loop of [GetFieldValues] leaves in the document for one
    item of the merged attribute map, when event data is present. *)
Module ResolverSpec.
Section resolved.
Import SharedFluentBit Spec.
Context {OutputMediator EventObject EventTag : Type}.
Variable GetFormattedField :
  OutputMediator -> string -> EventObject -> option EventData ->
  option EventDataStream -> option EventTag -> value.
Variable WriteSerialized : value -> option string.

(** The value stored for an item, or [None] when the item is skipped. *)
Definition resolved_value (custom_fields : PyDict.t value)
    (output_mediator : OutputMediator) (event : EventObject)
    (event_data : option EventData) (event_data_stream : option EventDataStream)
    (event_tag : option EventTag) (item : string * value) : option value :=
  let (attribute_name, attribute_value) := item in
  if String.eqb attribute_name "path_spec"
  then
    match WriteSerialized attribute_value with
    | None => None
    | Some serialized =>
        Some (sanitized
                (Resolver.substitute custom_fields attribute_name
                   (VStr serialized)))
    end
  else
    Some (sanitized
            (Resolver.substitute custom_fields attribute_name
               (GetFormattedField output_mediator attribute_name event
                  event_data event_data_stream event_tag))).

(** One round of the last loop, on the document alone. *)
Definition resolve_step (custom_fields : PyDict.t value)
    (output_mediator : OutputMediator) (event : EventObject)
    (event_data : option EventData) (event_data_stream : option EventDataStream)
    (event_tag : option EventTag) (field_values : document)
    (item : string * value) : document :=
  match resolved_value custom_fields output_mediator event event_data
          event_data_stream event_tag item with
  | Some field_value => PyDict.set (fst item) field_value field_values
  | None => field_values
  end.

End resolved.
End ResolverSpec.

(** ** Sample inputs *)

Module Sample.
Import SharedFluentBit.

(** A network that accepts every request. *)
Definition accepting : nat -> post_result := fun _ => Response 200 "".

(** A network that is down. *)
Definition unreachable : nat -> post_result :=
  fun _ => RequestException "Connection refused".

(** A formatting helper that knows the message only. *)
Definition message_only (_ : unit) (field_name : string) (_ : unit)
    (_ : option EventData) (_ : option EventDataStream) (_ : option unit)
  : value :=
  if String.eqb field_name "message" then VStr "File stat" else VNone.

(** A serializer that takes path specifications only. *)
Definition path_specs_only (path_spec : value) : option string :=
  match path_spec with
  | VPathSpec location => Some ("{location: " +:+ location +:+ "}")
  | _ => None
  end.

(** A sink configured the way the command line helper does it. *)
Definition configured (flush_interval : Z) : SharedFluentBit.t :=
  with_flush_interval flush_interval
    (with_server (Some "localhost") (Some 9880) SharedFluentBit.__init__).

Definition file_stat : EventData :=
  {| data_type := "fs:stat";
     attributes :=
       [("_parser_chain", VStr "filestat");
        ("filename", VStr "/etc/passwd");
        ("_event_values_hash", VStr "0f0e");
        ("access_time", VDateTimeValues 1700000000)] |}.

Definition file_stream : EventDataStream :=
  {| stream_attributes := [("path_spec", VPathSpec "/etc/passwd")] |}.

Definition record1 : document := [("message", VStr "one")].
Definition record2 : document := [("message", VStr "two")].
Definition record3 : document := [("message", VStr "three")].

End Sample.

(** ** Sequences of calls on a sink *)

Module Session.
Import SharedFluentBit.

(** The public methods of [FluentBitOutputModule]. *)
Inductive call : Type :=
| CallSetIndexName (index_name : string)
| CallSetFlushInterval (flush_interval : Z)
| CallSetServerInformation (server : string) (port : Z)
| CallSetURLPrefix (url_prefix : option string)
| CallSetAdditionalFields (field_names : list string)
| CallSetCustomFields (field_names_and_values : list (string * value))
| CallWriteHeader
| CallWriteFieldValues (field_values : document)
| CallClose.

Definition perform (c : call) : M FluentBit.t unit :=
  match c with
  | CallSetIndexName index_name => SetIndexName index_name
  | CallSetFlushInterval flush_interval => SetFlushInterval flush_interval
  | CallSetServerInformation server port => SetServerInformation server port
  | CallSetURLPrefix url_prefix => SetURLPrefix url_prefix
  | CallSetAdditionalFields field_names => SetAdditionalFields field_names
  | CallSetCustomFields pairs => SetCustomFields pairs
  | CallWriteHeader => FluentBit.WriteHeader
  | CallWriteFieldValues field_values => FluentBit.WriteFieldValues field_values
  | CallClose => Close
  end.

(** One call after the other; the caller goes on after an exception. *)
Fixpoint perform_all (calls : list call) (s : FluentBit.t) (w : world)
  : FluentBit.t * world :=
  match calls with
  | [] => (s, w)
  | c :: rest =>
      match perform c s w with
      | (_, s', w') => perform_all rest s' w'
      end
  end.

(** The calls that hand a record to the sink. *)
Definition is_write (c : call) : bool :=
  match c with CallWriteFieldValues _ => true | _ => false end.

(** Consecutive calls of the Timesketch [WriteFieldValues]. *)
Fixpoint write_all_ts (records : list document)
  : M FluentBitTimesketch.t unit :=
  match records with
  | [] => mret tt
  | field_values :: rest =>
      FluentBitTimesketch.WriteFieldValues field_values;; write_all_ts rest
  end.

(** The document the Timesketch sink hands to the shared buffering. *)
Definition with_timeline (s : FluentBitTimesketch.t) (field_values : document)
  : document :=
  PyDict.set "__ts_timeline_id"
    (FluentBitTimesketch.int_or_None
       (FluentBitTimesketch._timeline_identifier s)) field_values.

End Session.

(** ** Sequences of calls on the Timesketch sink *)

Module TimesketchSession.
Import SharedFluentBit FluentBitTimesketch.

(** The public methods of [FluentBitTimesketchOutputModule]: those of the
    base class, inherited or, for [WriteFieldValues] and [WriteHeader],
    overridden, and the two of its own. *)
Inductive call : Type :=
| CallShared (c : Session.call)
| CallSetTimelineIdentifier (timeline_identifier : Z)
| CallGetMissingArguments.

Definition perform (c : call) : M FluentBitTimesketch.t unit :=
  match c with
  | CallShared (Session.CallWriteFieldValues field_values) =>
      WriteFieldValues field_values
  | CallShared Session.CallWriteHeader => WriteHeader
  | CallShared c => inherited (Session.perform c)
  | CallSetTimelineIdentifier timeline_identifier =>
      SetTimelineIdentifier timeline_identifier
  | CallGetMissingArguments => _ ← GetMissingArguments; mret tt
  end.

(** One call after the other; the caller goes on after an exception. *)
Fixpoint perform_all (calls : list call) (s : FluentBitTimesketch.t)
    (w : world) : FluentBitTimesketch.t * world :=
  match calls with
  | [] => (s, w)
  | c :: rest =>
      match perform c s w with
      | (_, s', w') => perform_all rest s' w'
      end
  end.

End TimesketchSession.

(** ** The command line helpers of the output modules

    [plaso/cli/helpers/fluentbit_output.py] and
    [plaso/cli/helpers/fluentbit_ts_output.py]. *)

Module ArgumentsHelper.
Import SharedFluentBit.

(** [plaso.lib.errors] as the helpers raise them, and an exception coming
    out of the output module. *)
Inductive config_error : Type :=
| BadConfigObject (message : string)
| BadConfigOption (message : string)
| OutputModuleError (e : exn).

Inductive result (A : Type) : Type :=
| Done (a : A)
| Failed (e : config_error).
Arguments Done {A} a.
Arguments Failed {A} e.

(** The output module handed to a helper, as [isinstance] tells it. *)
Inductive output_module : Type :=
| FluentBitOutputModule (sink : FluentBit.t)
| FluentBitTimesketchOutputModule (sink : FluentBitTimesketch.t)
| OtherOutputModule (name : string).

(** [isinstance(output_module, SharedFluentBitOutputModule)] *)
Definition is_shared_fluentbit (output_module : output_module) : bool :=
  match output_module with
  | FluentBitOutputModule _ | FluentBitTimesketchOutputModule _ => true
  | OtherOutputModule _ => false
  end.

(** [isinstance(output_module, FluentBitTimesketchOutputModule)] *)
Definition is_fluentbit_timesketch (output_module : output_module) : bool :=
  match output_module with
  | FluentBitTimesketchOutputModule _ => true
  | _ => false
  end.

(** The shared part of a Fluent Bit output module. *)
Definition shared_of (output_module : output_module)
  : option SharedFluentBit.t :=
  match output_module with
  | FluentBitOutputModule sink => Some sink
  | FluentBitTimesketchOutputModule sink =>
      Some (FluentBitTimesketch.shared sink)
  | OtherOutputModule _ => None
  end.

(** The timeline identifier of a Timesketch output module. *)
Definition timeline_identifier_of (output_module : output_module)
  : option Z :=
  match output_module with
  | FluentBitTimesketchOutputModule sink =>
      FluentBitTimesketch._timeline_identifier sink
  | _ => None
  end.

(** A class method of a helper: it works on the output module and the
    world. *)
Definition C (A : Type) : Type :=
  output_module -> world -> result A * output_module * world.

#[global] Instance C_ret : MRet C :=
  fun A a om w => (Done a, om, w).

#[global] Instance C_bind : MBind C :=
  fun A B f m om w =>
    match m om w with
    | (Done a, om', w') => f a om' w'
    | (Failed e, om', w') => (Failed e, om', w')
    end.

Definition fail {A} (e : config_error) : C A := fun om w => (Failed e, om, w).

Definition get_module : C output_module := fun om w => (Done om, om, w).

Definition of_result {A} (r : result A) : C A := fun om w => (r, om, w).

Definition of_outcome {A} (o : outcome A) : result A :=
  match o with
  | Return a => Done a
  | Raise e => Failed (OutputModuleError e)
  end.

(** A call of a method of the shared class on the output module. *)
Definition call_shared {A} (m : M SharedFluentBit.t A) : C A :=
  fun om w =>
    match om with
    | FluentBitOutputModule sink =>
        match m sink w with
        | (r, sink', w') => (of_outcome r, FluentBitOutputModule sink', w')
        end
    | FluentBitTimesketchOutputModule sink =>
        match FluentBitTimesketch.inherited m sink w with
        | (r, sink', w') =>
            (of_outcome r, FluentBitTimesketchOutputModule sink', w')
        end
    | OtherOutputModule _ => (Failed (OutputModuleError AttributeError), om, w)
    end.

(** A call of a method of the Timesketch class on the output module. *)
Definition call_timesketch {A} (m : M FluentBitTimesketch.t A) : C A :=
  fun om w =>
    match om with
    | FluentBitTimesketchOutputModule sink =>
        match m sink w with
        | (r, sink', w') =>
            (of_outcome r, FluentBitTimesketchOutputModule sink', w')
        end
    | _ => (Failed (OutputModuleError AttributeError), om, w)
    end.

Section helpers.

(** [argparse.Namespace] *)
Context {Options : Type}.

(** [ArgumentsHelper._ParseStringOption(options, argument_name)] and
    [_ParseNumericOption(options, argument_name)] of
    [plaso/cli/helpers/interface.py]: the value of the option, [None] when
    it is not set, or a raised [BadConfigOption]. *)
Variable _ParseStringOption : Options -> string -> result (option string).
Variable _ParseNumericOption : Options -> string -> result (option Z).

(** The same with [default_value=...]: the result is not [None] then. *)
Variable _ParseStringOption_default :
  Options -> string -> string -> result string.
Variable _ParseNumericOption_default : Options -> string -> Z -> result Z.

Definition _DEFAULT_FLUSH_INTERVAL : Z := 1000.
Definition _DEFAULT_PORT : Z := 9880.
Definition _DEFAULT_SERVER : string := "localhost".

(** [FluentBitOutputArgumentsHelper.ParseOptions] *)
Definition ParseOptions (options : Options) : C unit :=
  output_module ← get_module;
  if negb (is_shared_fluentbit output_module)
  then fail (BadConfigObject
               "Output module is not an instance of SharedFluentBitOutputModule")
  else
    index_name ← of_result (_ParseStringOption options "index_name");
    flush_interval ← of_result
      (_ParseNumericOption_default options "flush_interval"
         _DEFAULT_FLUSH_INTERVAL);
    fluentbit_url_prefix ← of_result
      (_ParseStringOption options "fluentbit_url_prefix");
    server ← of_result
      (_ParseStringOption_default options "server" _DEFAULT_SERVER);
    port ← of_result
      (_ParseNumericOption_default options "port" _DEFAULT_PORT);
    call_shared (SetServerInformation server port);;
    call_shared (SetFlushInterval flush_interval);;
    call_shared (SetURLPrefix fluentbit_url_prefix);;
    match index_name with
    | Some (String a r) => call_shared (SetIndexName (String a r))
    | _ => mret tt
    end.

(** [FluentBitTimesketchOutputArgumentsHelper.ParseOptions] *)
Definition ParseOptions_ts (options : Options) : C unit :=
  output_module ← get_module;
  if negb (is_fluentbit_timesketch output_module)
  then fail (BadConfigObject
               "Output module is not an instance of FluentBitTimesketchOutputModule")
  else
    ParseOptions options;;
    timeline_identifier ← of_result (_ParseNumericOption options "timeline_id");
    match timeline_identifier with
    | Some identifier =>
        if identifier =? 0 then mret tt
        else call_timesketch
               (FluentBitTimesketch.SetTimelineIdentifier identifier)
    | None => mret tt
    end.

End helpers.
End ArgumentsHelper.

(** ** Sample options *)

Module SampleOptions.
Import ArgumentsHelper.

(** An options object as a bag of attributes. *)
Definition Namespace : Type := PyDict.t value.

(** A helper that takes strings, and [None] as not set. *)
Definition parse_string (options : Namespace) (argument_name : string)
  : result (option string) :=
  match PyDict.get argument_name options with
  | None | Some VNone => Done None
  | Some (VStr s) => Done (Some s)
  | Some _ =>
      Failed (BadConfigOption
                ("Unsupported option: " +:+ argument_name
                 +:+ " string type required."))
  end.

(** A helper that takes integers, and [None] as not set. *)
Definition parse_numeric (options : Namespace) (argument_name : string)
  : result (option Z) :=
  match PyDict.get argument_name options with
  | None | Some VNone => Done None
  | Some (VInt z) => Done (Some z)
  | Some _ =>
      Failed (BadConfigOption
                ("Unsupported option: " +:+ argument_name
                 +:+ " integer type required."))
  end.

Definition parse_string_default (options : Namespace)
    (argument_name default_value : string) : result string :=
  match parse_string options argument_name with
  | Done (Some s) => Done s
  | Done None => Done default_value
  | Failed e => Failed e
  end.

Definition parse_numeric_default (options : Namespace)
    (argument_name : string) (default_value : Z) : result Z :=
  match parse_numeric options argument_name with
  | Done (Some z) => Done z
  | Done None => Done default_value
  | Failed e => Failed e
  end.

(** [--index_name caseA --flush_interval 2 --timeline_id 42] *)
Definition given : Namespace :=
  [("index_name", VStr "caseA"); ("flush_interval", VInt 2);
   ("server", VStr "localhost"); ("port", VInt 9880);
   ("fluentbit_url_prefix", VNone); ("timeline_id", VInt 42)].

(** The same with a timeline identifier that is not an integer. *)
Definition bad_timeline : Namespace :=
  [("index_name", VStr "caseA"); ("flush_interval", VInt 2);
   ("server", VStr "localhost"); ("port", VInt 9880);
   ("fluentbit_url_prefix", VNone); ("timeline_id", VStr "forty-two")].

(** The same with a port that is not an integer. *)
Definition bad_port : Namespace :=
  [("index_name", VStr "caseA"); ("flush_interval", VInt 2);
   ("server", VStr "localhost"); ("port", VStr "http");
   ("fluentbit_url_prefix", VNone); ("timeline_id", VInt 42)].

End SampleOptions.

(** * Properties *)

(** ** Dictionaries *)

Module PyDictFacts.
Section facts.
Context {V : Type}.
Implicit Types (d : PyDict.t V) (k : string) (v : V).

Lemma get_set_eq d k v : PyDict.get k (PyDict.set k v d) = Some v.
  Proof.
    induction d as [|[k' v'] d IH]; simpl.
    - by rewrite String.eqb_refl.
    - destruct (String.eqb k k') eqn:E; simpl; rewrite ?E ?String.eqb_refl //.
  Qed.

Lemma get_set_ne d k k' v :
    k ≠ k' → PyDict.get k' (PyDict.set k v d) = PyDict.get k' d.
  Proof.
    intros Hne. induction d as [|[k0 v0] d IH]; simpl.
    - destruct (String.eqb_spec k' k); congruence.
    - destruct (String.eqb_spec k k0) as [->|]; simpl.
      + destruct (String.eqb_spec k' k0); congruence.
      + destruct (String.eqb_spec k' k0); congruence.
  Qed.

Lemma get_None d k : PyDict.get k d = None ↔ k ∉ PyDict.keys d.
  Proof.
    induction d as [|[k' v'] d IH]; simpl.
    - split; [intros _; apply not_elem_of_nil | done].
    - rewrite not_elem_of_cons. destruct (String.eqb_spec k k'); naive_solver.
  Qed.

Lemma get_Some_keys d k : is_Some (PyDict.get k d) ↔ k ∈ PyDict.keys d.
  Proof.
    rewrite -not_eq_None_Some get_None.
    split; [|naive_solver].
    intros H. destruct (decide (k ∈ PyDict.keys d)); naive_solver.
  Qed.

Lemma mem_true d k : PyDict.mem k d = true ↔ k ∈ PyDict.keys d.
  Proof.
    rewrite -get_Some_keys /PyDict.mem.
    destruct (PyDict.get k d); split; intros H; try done; by destruct H.
  Qed.

Lemma mem_false d k : PyDict.mem k d = false ↔ k ∉ PyDict.keys d.
  Proof. rewrite -mem_true. destruct (PyDict.mem k d); naive_solver. Qed.

Lemma elem_of_keys_set d k k' v :
    k' ∈ PyDict.keys (PyDict.set k v d) ↔ k' = k ∨ k' ∈ PyDict.keys d.
  Proof.
    rewrite -!get_Some_keys.
    destruct (decide (k = k')) as [->|Hne].
    - rewrite get_set_eq. naive_solver.
    - rewrite get_set_ne //. naive_solver.
  Qed.

Lemma keys_set_new d k v :
    k ∉ PyDict.keys d → PyDict.set k v d = d ++ [(k, v)].
  Proof.
    induction d as [|[k' v'] d IH]; simpl; [done|].
    rewrite not_elem_of_cons. intros [Hne Hnin].
    destruct (String.eqb_spec k k'); [done|]. by rewrite IH.
  Qed.

Lemma keys_set_old d k v :
    k ∈ PyDict.keys d → PyDict.keys (PyDict.set k v d) = PyDict.keys d.
  Proof.
    induction d as [|[k' v'] d IH]; simpl.
    - by intros ?%elem_of_nil.
    - destruct (String.eqb_spec k k') as [->|Hne]; simpl; [done|].
      rewrite elem_of_cons. intros [?|Hin]; [done|]. by rewrite IH.
  Qed.

Lemma NoDup_keys_set d k v :
    NoDup (PyDict.keys d) → NoDup (PyDict.keys (PyDict.set k v d)).
  Proof.
    intros Hnd. destruct (decide (k ∈ PyDict.keys d)) as [Hin|Hnin].
    - by rewrite keys_set_old.
    - rewrite keys_set_new // /PyDict.keys map_app /=.
      apply NoDup_app. split_and!; [done| |apply NoDup_singleton].
      intros x Hx ->%list_elem_of_singleton. done.
  Qed.

Lemma get_of_NoDup d k v :
    NoDup (PyDict.keys d) → (k, v) ∈ d → PyDict.get k d = Some v.
  Proof.
    induction d as [|[k' v'] d IH]; simpl.
    - by intros _ ?%elem_of_nil.
    - rewrite NoDup_cons elem_of_cons. intros [Hnin Hnd] [[= -> ->]|Hin].
      + by rewrite String.eqb_refl.
      + destruct (String.eqb_spec k k') as [->|]; [|by apply IH].
        exfalso. apply Hnin. by apply (list_elem_of_fmap_2 fst _ (k', v)).
  Qed.

Lemma get_elem_of d k v : PyDict.get k d = Some v → (k, v) ∈ d.
  Proof.
    induction d as [|[k' v'] d IH]; simpl; [done|].
    destruct (String.eqb_spec k k') as [->|].
    - intros [= ->]. apply list_elem_of_here.
    - intros H. apply list_elem_of_further. by apply IH.
  Qed.
End facts.
End PyDictFacts.

(** ** Encodable documents *)

Module EncodableFacts.
Import SharedFluentBit Spec.

Lemma encodable_forallb (documents : list document) :
  encodable documents ↔ forallb document_encodable documents = true.
Proof.
  rewrite /encodable. induction documents as [|d ds IH]; simpl.
  - split; [done|constructor].
  - rewrite Forall_cons IH andb_true_iff. done.
Qed.

Lemma not_encodable_forallb (documents : list document) :
  ¬ encodable documents ↔ forallb document_encodable documents = false.
Proof.
  rewrite encodable_forallb. by destruct (forallb _ _).
Qed.

Lemma document_encodable_set (k : string) (v : value) (d : document) :
  json_encodable v = true →
  document_encodable d = true →
  document_encodable (PyDict.set k v d) = true.
Proof.
  intros Hv. rewrite /document_encodable.
  induction d as [|[k' v'] d IH]; simpl.
  - by rewrite Hv.
  - rewrite andb_true_iff. intros [Hv' Hd].
    destruct (String.eqb k k'); simpl.
    + by rewrite Hv Hd.
    + by rewrite Hv' IH.
Qed.

Lemma document_encodable_stamped (s : SharedFluentBit.t) (d : document) :
  document_encodable d = true → document_encodable (stamped s d) = true.
Proof.
  intros Hd. rewrite /stamped.
  destruct (_index_name s) as [[|a r]|]; try done.
  by apply document_encodable_set.
Qed.

Lemma encodable_snoc (documents : list document) (d : document) :
  encodable documents → document_encodable d = true →
  encodable (documents ++ [d]).
Proof.
  intros Hds Hd. apply Forall_app. split; [done|]. by constructor.
Qed.

End EncodableFacts.

(** ** The flush *)

Module FlushFacts.
Import SharedFluentBit Spec EncodableFacts.

(** The record a flush hands to the logger for an answer of the network. *)
Lemma _FlushEvents_run (s : SharedFluentBit.t) (w : world) (port : Z) :
  _port s = Some port →
  _event_documents s ≠ [] →
  encodable (_event_documents s) →
  ∃ entry,
    _FlushEvents s w =
      (Return tt, reset_buffer s,
       after_post w
         {| url := flush_url s port;
            json := _event_documents s;
            timeout := _DEFAULT_REQUEST_TIMEOUT |} entry)
    ∧ levelname entry = flush_level (network w (length (posted w)))
    ∧ (∀ description,
         network w (length (posted w)) = RequestException description →
         msg entry = "Unable to send events with error: " +:+ description).
Proof.
  intros Hport Hdocs Henc%encodable_forallb.
  rewrite /_FlushEvents /mbind /M_bind /get_self /=.
  destruct (_event_documents s) as [|d ds] eqn:Hd; [done|].
  rewrite Hport /= /requests_post. cbv beta iota.
  change (json {| url := flush_url s port; json := d :: ds;
                  timeout := _DEFAULT_REQUEST_TIMEOUT |}) with (d :: ds).
  rewrite Henc.
  destruct (network w (length (posted w))) as [code text|description] eqn:Hnet.
  - destruct ((code =? 200) || (code =? 201)) eqn:Hcode; simpl;
      eexists; (split; [reflexivity|]); rewrite /= ?Hcode; split; done.
  - eexists. split; [reflexivity|]. split; [done|]. by intros ? [= ->].
Qed.

Lemma _FlushEvents_empty (s : SharedFluentBit.t) (w : world) :
  _event_documents s = [] → _FlushEvents s w = (Return tt, s, w).
Proof.
  intros Hd. by rewrite /_FlushEvents /mbind /M_bind /get_self /= Hd.
Qed.

Lemma _FlushEvents_no_port (s : SharedFluentBit.t) (w : world) :
  _port s = None → _event_documents s ≠ [] →
  _FlushEvents s w = (Raise TypeError, s, w).
Proof.
  intros Hp Hd. rewrite /_FlushEvents /mbind /M_bind /get_self /=.
  destruct (_event_documents s); [done|]. by rewrite Hp.
Qed.

(** A document the encoder refuses: the exception leaves the method
    before the reset. *)
Lemma _FlushEvents_not_encodable (s : SharedFluentBit.t) (w : world) :
  _event_documents s ≠ [] →
  ¬ encodable (_event_documents s) →
  _FlushEvents s w = (Raise TypeError, s, w).
Proof.
  intros Hd Henc%not_encodable_forallb.
  rewrite /_FlushEvents /mbind /M_bind /get_self /=.
  destruct (_event_documents s) as [|d ds] eqn:Hdocs; [done|].
  destruct (_port s) as [port|]; [|done].
  rewrite /= /requests_post. cbv beta iota.
  change (json {| url := flush_url s port; json := d :: ds;
                  timeout := _DEFAULT_REQUEST_TIMEOUT |}) with (d :: ds).
  by rewrite Henc.
Qed.

(** Whether the encoder takes a buffer can be told. *)
Lemma encodable_dec (documents : list document) :
  encodable documents ∨ ¬ encodable documents.
Proof.
  rewrite not_encodable_forallb encodable_forallb.
  destruct (forallb _ _); by [left|right].
Qed.

(** C3: with the server information set, a flush of a non-empty buffer of
    documents the JSON encoder takes issues exactly one POST request, whose
    body is the whole buffer and whose URL is [http://host:port], or
    [http://host:port/prefix] when a URL prefix is set; the answer is
    logged at debug level for the status codes 200 and 201 and at warning
    level for any other status code and for a request exception; in every
    case the method returns normally, the buffer is empty and the counter
    is 0 afterwards. *)
Theorem flush_posts_once_and_resets
    (s : SharedFluentBit.t) (w : world) (host : string) (port : Z) :
  _host s = Some host →
  _port s = Some port →
  _event_documents s ≠ [] →
  Forall (λ d, document_encodable d = true) (_event_documents s) →
  ∃ entry,
    _FlushEvents s w =
      (Return tt, reset_buffer s,
       {| lists := lists w;
          logged := logged w ++ [entry];
          posted := posted w ++
            [{| url :=
                  match _url_prefix s with
                  | Some (String a r) =>
                      ("http://" +:+ host +:+ ":" +:+ pretty port)
                      +:+ "/" +:+ String a r
                  | _ => "http://" +:+ host +:+ ":" +:+ pretty port
                  end;
                json := _event_documents s;
                timeout := 300 |}];
          network := network w |})
    ∧ _event_documents (reset_buffer s) = []
    ∧ _number_of_buffered_events (reset_buffer s) = 0
    ∧ levelname entry =
        match network w (length (posted w)) with
        | Response status_code _ =>
            if (status_code =? 200) || (status_code =? 201)
            then DEBUG else WARNING
        | RequestException _ => WARNING
        end
    ∧ (∀ description,
         network w (length (posted w)) = RequestException description →
         msg entry = "Unable to send events with error: " +:+ description).
Proof.
  intros Hhost Hport Hdocs Henc.
  destruct (_FlushEvents_run s w port Hport Hdocs Henc)
    as (entry & Hrun & Hlevel & Hmsg).
  exists entry. split_and!; [|done|done|done|done].
  rewrite Hrun /after_post /flush_url Hhost /=.
  by destruct (_url_prefix s) as [[|a r]|].
Qed.

(** C9: [Close] is one flush: on an empty buffer it issues no request and
    leaves the instance and the world as they are; on a non-empty buffer
    of documents the JSON encoder takes (server information set) it issues
    one request with everything the buffer holds and empties the buffer. *)
Theorem Close_flushes_the_remainder (s : SharedFluentBit.t) (w : world) :
  Close = _FlushEvents
  ∧ (_event_documents s = [] → Close s w = (Return tt, s, w))
  ∧ (∀ port, _port s = Some port → _event_documents s ≠ [] →
       Forall (λ d, document_encodable d = true) (_event_documents s) →
       ∃ s' w' r,
         Close s w = (Return tt, s', w')
         ∧ posted w' = posted w ++ [r]
         ∧ json r = _event_documents s
         ∧ _event_documents s' = []
         ∧ _number_of_buffered_events s' = 0).
Proof.
  split; [done|]. split.
  - apply _FlushEvents_empty.
  - intros port Hport Hdocs Henc.
    destruct (_FlushEvents_run s w port Hport Hdocs Henc)
      as (entry & Hrun & _).
    rewrite /Close Hrun. by eexists _, _, _.
Qed.

End FlushFacts.

(** ** The decoder *)

Module Utf8Facts.
Import Utf8.

Local Arguments Byte.to_N : simpl never.
Local Arguments N.ltb : simpl never.
Local Arguments N.eqb : simpl never.
Local Arguments is_continuation : simpl never.
Local Arguments bad_second_of_3 : simpl never.
Local Arguments bad_second_of_4 : simpl never.

Lemma append_empty_r (s : string) : s +:+ "" = s.
Proof.
  induction s as [|a s IH]; [done|].
  change (String a s +:+ "") with (String a (s +:+ "")). by f_equal.
Qed.

Lemma encode_String (b : byte) (s : string) :
  encode (String (chr b) s) = b :: encode s.
Proof. by rewrite /encode /chr /String.list_byte_of_string /= byte_of_ascii_of_byte. Qed.

Lemma encode_replacement (s : string) :
  encode (replacement +:+ s) = xef :: xbf :: xbd :: encode s.
Proof. by rewrite /replacement /= !encode_String. Qed.

Lemma well_formed_replacement (bs : list byte) :
  well_formed (xef :: xbf :: xbd :: bs) = well_formed bs.
Proof. reflexivity. Qed.

(** Induction on byte strings where the hypothesis holds for every
    shorter string. *)
Lemma shorter_ind (P : list byte → Prop) :
  (∀ bs, (∀ bs', (length bs' < length bs)%nat → P bs') → P bs) →
  ∀ bs, P bs.
Proof.
  intros Hstep bs. remember (length bs) as n eqn:Hn. revert bs Hn.
  induction n as [n IH] using lt_wf_ind. intros bs ->.
  apply Hstep. intros bs' Hlt. by apply (IH (length bs')).
Qed.

Ltac shorter IH := apply IH; simpl; lia.

(** What the decoder returns is the encoding of a text. *)
Lemma decode_replace_well_formed (bs : list byte) :
  well_formed (encode (decode_replace bs)) = true.
Proof.
  induction bs as [bs IH] using shorter_ind.
  destruct bs as [|b1 r1]; [done|].
  assert (well_formed (encode (replacement +:+ decode_replace r1)) = true)
    as Hr1 by (rewrite encode_replacement well_formed_replacement; shorter IH).
  simpl decode_replace.
  destruct (Byte.to_N b1 <? 0x80)%N eqn:H80.
  { rewrite encode_String /= H80. shorter IH. }
  destruct (Byte.to_N b1 <? 0xC2)%N eqn:Hc2; [done|].
  destruct (Byte.to_N b1 <? 0xE0)%N eqn:He0.
  { destruct r1 as [|b2 r2]; [done|].
    destruct (is_continuation b2) eqn:Hb2; [|done].
    rewrite !encode_String /= H80 Hc2 He0 Hb2 /=. shorter IH. }
  destruct (Byte.to_N b1 <? 0xF0)%N eqn:Hf0.
  { destruct r1 as [|b2 r2]; [done|].
    destruct (bad_second_of_3 b1 b2) eqn:Hb2; [done|].
    destruct r2 as [|b3 r3]; [done|].
    assert (well_formed (encode (replacement +:+ decode_replace (b3 :: r3)))
            = true) as Hr2
      by (rewrite encode_replacement well_formed_replacement; shorter IH).
    destruct (is_continuation b3) eqn:Hb3; [|done].
    rewrite !encode_String /= H80 Hc2 He0 Hf0 Hb2 Hb3 /=. shorter IH. }
  destruct (Byte.to_N b1 <? 0xF5)%N eqn:Hf5; [|done].
  destruct r1 as [|b2 r2]; [done|].
  destruct (bad_second_of_4 b1 b2) eqn:Hb2; [done|].
  destruct r2 as [|b3 r3]; [done|].
  assert (well_formed (encode (replacement +:+ decode_replace (b3 :: r3)))
          = true) as Hr2
    by (rewrite encode_replacement well_formed_replacement; shorter IH).
  destruct (is_continuation b3) eqn:Hb3; [|done]. simpl negb. cbv iota.
  destruct r3 as [|b4 r4]; [done|].
  assert (well_formed (encode (replacement +:+ decode_replace (b4 :: r4)))
          = true) as Hr3
    by (rewrite encode_replacement well_formed_replacement; shorter IH).
  destruct (is_continuation b4) eqn:Hb4; [|done].
  rewrite !encode_String /= H80 Hc2 He0 Hf0 Hf5 Hb2 Hb3 Hb4 /=. shorter IH.
Qed.

(** Well-formed bytes are decoded to the text they encode. *)
Lemma decode_replace_of_well_formed (bs : list byte) :
  well_formed bs = true → encode (decode_replace bs) = bs.
Proof.
  induction bs as [bs IH] using shorter_ind.
  destruct bs as [|b1 r1]; [done|].
  simpl well_formed. simpl decode_replace.
  destruct (Byte.to_N b1 <? 0x80)%N.
  { intros Hwf. rewrite encode_String IH //=. lia. }
  destruct (Byte.to_N b1 <? 0xC2)%N; [done|].
  destruct (Byte.to_N b1 <? 0xE0)%N.
  { destruct r1 as [|b2 r2]; [done|].
    destruct (is_continuation b2); [|done]. simpl.
    intros Hwf. rewrite !encode_String IH //=. lia. }
  destruct (Byte.to_N b1 <? 0xF0)%N.
  { destruct r1 as [|b2 [|b3 r3]]; [done|done|].
    destruct (bad_second_of_3 b1 b2); [done|].
    destruct (is_continuation b3); [|done]. simpl.
    intros Hwf. rewrite !encode_String IH //=. lia. }
  destruct (Byte.to_N b1 <? 0xF5)%N; [|done].
  destruct r1 as [|b2 [|b3 [|b4 r4]]]; [done|done|done|].
  destruct (bad_second_of_4 b1 b2); [done|].
  destruct (is_continuation b3); [|done].
  destruct (is_continuation b4); [|done]. simpl.
  intros Hwf. rewrite !encode_String IH //=. lia.
Qed.

(** Decoding the encoding of a decoded text gives the same text. *)
Lemma decode_replace_idempotent (bs : list byte) :
  decode_replace (encode (decode_replace bs)) = decode_replace bs.
Proof.
  rewrite -(String.string_of_list_byte_of_string
              (decode_replace (encode (decode_replace bs)))).
  rewrite -{2}(String.string_of_list_byte_of_string (decode_replace bs)).
  f_equal. apply decode_replace_of_well_formed, decode_replace_well_formed.
Qed.

Import Utf8Spec.

Lemma decode_replace_app (a b : list byte) :
  well_formed a = true →
  decode_replace (a ++ b) = text_of a +:+ decode_replace b.
Proof.
  induction a as [a IH] using shorter_ind.
  destruct a as [|b1 r1]; [done|].
  rewrite -app_comm_cons. simpl well_formed. simpl decode_replace.
  destruct (Byte.to_N b1 <? 0x80)%N.
  { intros Hwf. rewrite IH //=. lia. }
  destruct (Byte.to_N b1 <? 0xC2)%N; [done|].
  destruct (Byte.to_N b1 <? 0xE0)%N.
  { destruct r1 as [|b2 r2]; [done|].
    rewrite -app_comm_cons.
    destruct (is_continuation b2); [|done]. simpl.
    intros Hwf. rewrite IH //=. lia. }
  destruct (Byte.to_N b1 <? 0xF0)%N.
  { destruct r1 as [|b2 [|b3 r3]]; [done|done|].
    rewrite -!app_comm_cons.
    destruct (bad_second_of_3 b1 b2); [done|].
    destruct (is_continuation b3); [|done]. simpl.
    intros Hwf. rewrite IH //=. lia. }
  destruct (Byte.to_N b1 <? 0xF5)%N; [|done].
  destruct r1 as [|b2 [|b3 [|b4 r4]]]; [done|done|done|].
  rewrite -!app_comm_cons.
  destruct (bad_second_of_4 b1 b2); [done|].
  destruct (is_continuation b3); [|done].
  destruct (is_continuation b4); [|done]. simpl.
  intros Hwf. rewrite IH //=. lia.
Qed.


Lemma is_continuation_x80 : is_continuation x80 = true.
Proof. reflexivity. Qed.

(** No byte string that starts with the given bytes is well formed. *)
Ltac no_well_formed_start :=
  let j := fresh "j" in let Hj := fresh "Hj" in
  let rest := fresh "rest" in let Hwf := fresh "Hwf" in
  intros j Hj [rest Hwf]; simpl in Hj;
  do 4 (try (destruct j as [|j]; [lia|]));
  simpl in Hwf;
  repeat match goal with
         | H : ?c = _ |- _ =>
             match type of Hwf with context [c] => rewrite H in Hwf end
         end;
  simpl in Hwf;
  repeat match type of Hwf with
         | context [match ?l with [] => _ | _ :: _ => _ end] =>
             destruct l; simpl in Hwf
         end;
  try discriminate.

Lemma decode_replace_ill_formed (bs : list byte) :
  ill_formed_start bs →
  ∃ k, maximal_subpart bs k
       ∧ decode_replace bs = replacement +:+ decode_replace (drop k bs).
Proof.
  intros [Hne Hill]. destruct bs as [|b1 r1]; [done|]. clear Hne.
  pose proof (Hill 1%nat ltac:(lia)) as H1.
  pose proof (Hill 2%nat ltac:(lia)) as H2.
  pose proof (Hill 3%nat ltac:(lia)) as H3.
  pose proof (Hill 4%nat ltac:(lia)) as H4. clear Hill.
  simpl in H1, H2, H3, H4. simpl decode_replace.
  destruct (Byte.to_N b1 <? 0x80)%N eqn:H80; [done|].
  destruct (Byte.to_N b1 <? 0xC2)%N eqn:Hc2.
  { exists 1%nat. split; [|done].
    split_and!; [simpl; lia|simpl; lia|by left|no_well_formed_start]. }
  destruct (Byte.to_N b1 <? 0xE0)%N eqn:He0.
  { destruct r1 as [|b2 r2].
    { exists 1%nat. split; [|done].
      split_and!; [simpl; lia|simpl; lia|by left|intros j Hj; simpl in Hj; lia]. }
    simpl in H2. destruct (is_continuation b2) eqn:Hb2; [done|].
    exists 1%nat. split; [|done].
    split_and!; [simpl; lia|simpl; lia|by left|no_well_formed_start]. }
  destruct (Byte.to_N b1 <? 0xF0)%N eqn:Hf0.
  { destruct r1 as [|b2 r2].
    { exists 1%nat. split; [|done].
      split_and!; [simpl; lia|simpl; lia|by left|intros j Hj; simpl in Hj; lia]. }
    destruct (bad_second_of_3 b1 b2) eqn:Hb2.
    { exists 1%nat. split; [|done].
      split_and!; [simpl; lia|simpl; lia|by left|no_well_formed_start]. }
    destruct r2 as [|b3 r3].
    { exists 2%nat. split; [|done].
      split_and!; [simpl; lia|simpl; lia| |intros j Hj; simpl in Hj; lia].
      right. exists [x80]. by rewrite /= H80 Hc2 He0 Hf0 Hb2 is_continuation_x80. }
    rewrite /= Hb2 /= in H3. destruct (is_continuation b3) eqn:Hb3; [done|].
    exists 2%nat. split; [|done].
    split_and!; [simpl; lia|simpl; lia| |no_well_formed_start].
    right. exists [x80]. by rewrite /= H80 Hc2 He0 Hf0 Hb2 is_continuation_x80. }
  destruct (Byte.to_N b1 <? 0xF5)%N eqn:Hf5.
  2:{ exists 1%nat. split; [|done].
      split_and!; [simpl; lia|simpl; lia|by left|no_well_formed_start]. }
  destruct r1 as [|b2 r2].
  { exists 1%nat. split; [|done].
    split_and!; [simpl; lia|simpl; lia|by left|intros j Hj; simpl in Hj; lia]. }
  destruct (bad_second_of_4 b1 b2) eqn:Hb2.
  { exists 1%nat. split; [|done].
    split_and!; [simpl; lia|simpl; lia|by left|no_well_formed_start]. }
  destruct r2 as [|b3 r3].
  { exists 2%nat. split; [|done].
    split_and!; [simpl; lia|simpl; lia| |intros j Hj; simpl in Hj; lia].
    right. exists [x80; x80].
    by rewrite /= H80 Hc2 He0 Hf0 Hf5 Hb2 is_continuation_x80. }
  destruct (is_continuation b3) eqn:Hb3; simpl negb; cbv iota.
  2:{ exists 2%nat. split; [|done].
      split_and!; [simpl; lia|simpl; lia| |no_well_formed_start].
      right. exists [x80; x80].
      by rewrite /= H80 Hc2 He0 Hf0 Hf5 Hb2 is_continuation_x80. }
  destruct r3 as [|b4 r4].
  { exists 3%nat. split; [|done].
    split_and!; [simpl; lia|simpl; lia| |intros j Hj; simpl in Hj; lia].
    right. exists [x80].
    by rewrite /= H80 Hc2 He0 Hf0 Hf5 Hb2 Hb3 is_continuation_x80. }
  rewrite /= Hb2 Hb3 /= in H4. destruct (is_continuation b4) eqn:Hb4; [done|].
  exists 3%nat. split; [|done].
  split_and!; [simpl; lia|simpl; lia| |no_well_formed_start].
  right. exists [x80].
  by rewrite /= H80 Hc2 He0 Hf0 Hf5 Hb2 Hb3 is_continuation_x80.
Qed.


(** The decoder replaces maximal subparts. *)
Lemma decode_replace_decodes_with_replacement :
  decodes_with_replacement decode_replace.
Proof.
  split; [done|apply decode_replace_app|apply decode_replace_ill_formed].
Qed.

Lemma maximal_subpart_unique (bs : list byte) (k k' : nat) :
  maximal_subpart bs k → maximal_subpart bs k' → k = k'.
Proof.
  intros (Hk & Hbegins & Hlast) (Hk' & Hbegins' & Hlast').
  destruct (Nat.lt_trichotomy k k') as [Hlt|[->|Hlt]]; [|done|].
  - destruct Hbegins' as [->|Hbegins']; [lia|].
    by destruct (Hlast k' ltac:(lia)).
  - destruct Hbegins as [->|Hbegins]; [lia|].
    by destruct (Hlast' k ltac:(lia)).
Qed.

(** A byte string starts with a well-formed sequence or with an
    ill-formed one. *)
Lemma well_formed_start_dec (bs : list byte) :
  bs ≠ [] →
  (∃ n, (1 ≤ n ≤ length bs)%nat ∧ well_formed (take n bs) = true)
  ∨ ill_formed_start bs.
Proof.
  intros Hne.
  destruct (decide (Exists (λ n, well_formed (take n bs) = true)
                      (seq 1 (length bs)))) as [Hex|Hno].
  - left. apply Exists_exists in Hex as (n & Hn & Hwf).
    apply elem_of_seq in Hn. exists n. split; [lia|done].
  - right. split; [done|]. intros n Hn.
    apply not_true_is_false. intros Hwf. apply Hno, Exists_exists.
    destruct (decide (n ≤ length bs)%nat) as [Hle|Hgt].
    + exists n. split; [apply elem_of_seq; lia|done].
    + exists (length bs). split.
      * apply elem_of_seq. destruct bs; [done|simpl; lia].
      * rewrite take_ge in Hwf; [lia|]. by rewrite firstn_all.
Qed.

(** Replacing maximal subparts determines the decoder. *)
Lemma decodes_with_replacement_unique (decode : list byte → string) :
  decodes_with_replacement decode → ∀ bs, decode bs = decode_replace bs.
Proof.
  intros [Hnil Hwf Hill] bs.
  induction bs as [bs IH] using shorter_ind.
  destruct bs as [|b1 r1]; [done|].
  destruct (well_formed_start_dec (b1 :: r1)) as [(n & Hn & Hstart)|Hstart];
    [done| |].
  - rewrite -(take_drop n (b1 :: r1)).
    rewrite (Hwf _ _ Hstart) (decode_replace_app _ _ Hstart). f_equal.
    apply IH. rewrite length_drop. simpl in *. lia.
  - destruct (Hill _ Hstart) as (k & Hk & ->).
    destruct (decode_replace_ill_formed _ Hstart) as (k' & Hk' & ->).
    rewrite (maximal_subpart_unique _ _ _ Hk Hk'). f_equal.
    apply IH. rewrite length_drop. destruct Hk' as [? _]. simpl in *. lia.
Qed.

End Utf8Facts.

(** ** The sanitizer *)

Module SanitizeFacts.
Import SharedFluentBit Spec.

Lemma _SanitizeField_run (dt name : string) (field : value)
    (s : SharedFluentBit.t) (w : world) :
  ∃ entries,
    _SanitizeField dt name field s w =
      (Return (sanitized field), s, after_logging w entries)
    ∧ (is_bytes field = false → entries = []).
Proof.
  destruct field; try (exists []; split; [|done];
    rewrite /= /mret /M_ret /after_logging app_nil_r; by destruct w).
  eexists [_]. split; [reflexivity|done].
Qed.

(** C5: [_SanitizeField] always returns: for a bytes value the UTF-8
    decoding with replacement (and one warning is logged), for any other
    value the value itself, with the instance and the world untouched; and
    sanitizing the returned value again returns it unchanged.  The decoding
    is pinned down: it is the one function that decodes nothing to
    nothing, a well-formed sequence to the text it encodes and the maximal
    subpart of an ill-formed start to one U+FFFD; so well-formed bytes
    come back as the text they encode, and the decoded text is always
    well formed. *)
Theorem sanitize_total_and_idempotent (dt name : string) (field : value)
    (s : SharedFluentBit.t) (w : world) :
  ∃ once w1,
    _SanitizeField dt name field s w = (Return once, s, w1)
    ∧ once = match field with
             | VBytes bs => VStr (Utf8.decode_replace bs)
             | _ => field
             end
    ∧ (∀ bs, field = VBytes bs →
         Utf8.well_formed (Utf8.encode (Utf8.decode_replace bs)) = true)
    ∧ (is_bytes field = false → w1 = w)
    ∧ (∀ text, field = VStr text → once = VStr text)
    ∧ _SanitizeField dt name once s w1 = (Return once, s, w1)
    ∧ Utf8Spec.decodes_with_replacement Utf8.decode_replace
    ∧ (∀ decode, Utf8Spec.decodes_with_replacement decode →
         ∀ bs, field = VBytes bs → once = VStr (decode bs))
    ∧ (∀ bs, field = VBytes bs → Utf8.well_formed bs = true →
         once = VStr (Utf8Spec.text_of bs)
         ∧ Utf8.encode (Utf8.decode_replace bs) = bs).
Proof.
  destruct field; eexists _, _;
    (split_and!;
     [reflexivity|done
     |intros ? _; apply Utf8Facts.decode_replace_well_formed|done|done|done
     |apply Utf8Facts.decode_replace_decodes_with_replacement
     |try done|try done]).
  - intros decode Hdecode bs' [= <-].
    by rewrite (Utf8Facts.decodes_with_replacement_unique decode Hdecode).
  - intros bs' [= <-] Hwf. split.
    + rewrite -{1}(app_nil_r bs) (Utf8Facts.decode_replace_app bs [] Hwf).
      change (Utf8.decode_replace []) with EmptyString.
      by rewrite Utf8Facts.append_empty_r.
    + by apply Utf8Facts.decode_replace_of_well_formed.
Qed.

End SanitizeFacts.

(** ** Buffering *)

Module BufferFacts.
Import SharedFluentBit Spec EncodableFacts FlushFacts.

Lemma stamped_eq (s : SharedFluentBit.t) (d : document) :
  (if truthy_str (_index_name s)
   then PyDict.set "__ts_searchindex" (VStr (str_of (_index_name s))) d
   else d) = stamped s d.
Proof. rewrite /stamped. by destruct (_index_name s) as [[|a r]|]. Qed.

(** The instance right after the append and the increment. *)
Lemma WriteFieldValues_below (s : SharedFluentBit.t) (w : world) (d : document) :
  _number_of_buffered_events s + 1 ≤ _flush_interval s →
  FluentBit.WriteFieldValues d s w =
    (Return tt,
     with_number_of_buffered_events (_number_of_buffered_events s + 1)
       (with_event_documents (_event_documents s ++ [stamped s d]) s),
     w).
Proof.
  intros Hle.
  rewrite /FluentBit.WriteFieldValues /mbind /M_bind /get_self /put_self /=.
  rewrite stamped_eq.
  destruct (Z.ltb_spec (_flush_interval s) (_number_of_buffered_events s + 1));
    [lia|done].
Qed.

Lemma WriteFieldValues_above (s : SharedFluentBit.t) (w : world) (d : document)
    (port : Z) :
  _port s = Some port →
  _flush_interval s < _number_of_buffered_events s + 1 →
  encodable (_event_documents s) →
  document_encodable d = true →
  ∃ entry,
    FluentBit.WriteFieldValues d s w =
      (Return tt, reset_buffer s,
       after_post w
         {| url := flush_url s port;
            json := _event_documents s ++ [stamped s d];
            timeout := _DEFAULT_REQUEST_TIMEOUT |} entry).
Proof.
  intros Hport Hlt Hbuf Hd.
  rewrite /FluentBit.WriteFieldValues /mbind /M_bind /get_self /put_self /=.
  rewrite stamped_eq.
  destruct (Z.ltb_spec (_flush_interval s) (_number_of_buffered_events s + 1));
    [|lia].
  set (s1 := with_number_of_buffered_events _ _).
  destruct (_FlushEvents_run s1 w port) as (entry & Hrun & _); [done| | |].
  { rewrite /s1 /=. by destruct (_event_documents s). }
  { rewrite /s1 /=. by apply encodable_snoc, document_encodable_stamped. }
  exists entry. by rewrite Hrun.
Qed.

(** The buffer law, from any coherent instance below the threshold. *)
Lemma write_all_run (N port : Z) (records : list document) :
  0 ≤ N →
  encodable records →
  ∀ (s : SharedFluentBit.t) (w : world),
    _flush_interval s = N →
    _port s = Some port →
    coherent s →
    Z.of_nat (length (_event_documents s)) ≤ N →
    encodable (_event_documents s) →
    ∃ s' w' batches,
      write_all records s w = (Return tt, s', w')
      ∧ _index_name s' = _index_name s
      ∧ coherent s'
      ∧ Z.of_nat (length (_event_documents s')) =
          (Z.of_nat (length (_event_documents s)) + Z.of_nat (length records))
          `mod` (N + 1)
      ∧ posted w' = posted w ++ batches
      ∧ Z.of_nat (length batches) =
          (Z.of_nat (length (_event_documents s)) + Z.of_nat (length records))
          `div` (N + 1)
      ∧ Forall (λ r, Z.of_nat (length (json r)) = N + 1) batches
      ∧ concat (map json batches) ++ _event_documents s' =
          _event_documents s ++ map (stamped s) records.
Proof.
  intros HN Hrecords.
  induction Hrecords as [|d rest Hd Hrest IH];
    intros s w Hint Hport Hcoh Hlen Hbuf.
  - exists s, w, []. rewrite /= !app_nil_r Z.add_0_r.
    rewrite Z.mod_small ?Z.div_small; [lia..|]. by split_and!.
  - simpl write_all. rewrite /mbind /M_bind.
    destruct (decide (_number_of_buffered_events s + 1 ≤ N)) as [Hle|Hgt].
    + rewrite WriteFieldValues_below; [lia|].
      set (s1 := with_number_of_buffered_events _ _).
      destruct (IH s1 w) as (s' & w' & batches & Hrun & Hidx & Hcoh' & Hmod
                             & Hposted & Hdiv & Hall & Hacc); try done.
      { rewrite /coherent /s1 /= length_app /=. rewrite Hcoh. lia. }
      { rewrite /s1 /= length_app /=. rewrite /coherent in Hcoh. lia. }
      { rewrite /s1 /=. by apply encodable_snoc, document_encodable_stamped. }
      exists s', w', batches. rewrite Hrun.
      revert Hmod Hdiv Hacc. rewrite /s1 /= length_app /= => Hmod Hdiv Hacc.
      split_and!; try done.
      * rewrite Hmod. f_equal. lia.
      * rewrite Hdiv. f_equal. lia.
      * rewrite Hacc -app_assoc /=. do 2 f_equal.
    + destruct (WriteFieldValues_above s w d port) as [entry Hw];
        [done|lia|done|done|].
      rewrite Hw.
      set (r := {| url := _ |}).
      destruct (IH (reset_buffer s) (after_post w r entry))
        as (s' & w' & batches & Hrun & Hidx & Hcoh' & Hmod
            & Hposted & Hdiv & Hall & Hacc); try done.
      { constructor. }
      exists s', w', (r :: batches). rewrite Hrun.
      rewrite /coherent in Hcoh.
      assert (Z.of_nat (length (_event_documents s)) = N) as HlenN by lia.
      assert (N + Z.of_nat (S (length rest))
              = Z.of_nat (length rest) + 1 * (N + 1)) as Hstep by lia.
      revert Hmod Hdiv Hacc Hposted.
      rewrite /= Z.add_0_l => Hmod Hdiv Hacc Hposted.
      split_and!; try done.
      * rewrite Hmod HlenN Hstep Z.mod_add; [lia|done].
      * by rewrite Hposted -app_assoc.
      * rewrite HlenN Hstep Z.div_add; [lia|].
        change (length (r :: batches)) with (S (length batches)).
        rewrite Nat2Z.inj_succ Hdiv. lia.
      * constructor; [|done]. rewrite /r /= length_app /=. lia.
      * rewrite -app_assoc Hacc /= -app_assoc /=. done.
Qed.

(** C1: with a flush interval [N >= 1] and the server information set,
    writing records the JSON encoder takes into an empty buffer never
    raises, whatever the network answers; after the k-th record the buffer
    holds [k mod (N+1)] documents, so at most [N] between calls and none
    right after record [N+1]; a request is issued exactly at every
    [(N+1)]-th record and its body has [N+1] documents, the largest size
    the buffer ever reaches; and the requests and the buffer together hold
    one document per record, in order. *)
Theorem flush_when_count_exceeds_interval
    (N port : Z) (records : list document) (s : SharedFluentBit.t) (w : world) :
  1 ≤ N →
  _flush_interval s = N →
  _port s = Some port →
  _event_documents s = [] →
  _number_of_buffered_events s = 0 →
  Forall (λ d, document_encodable d = true) records →
  ∃ s' w' batches,
    write_all records s w = (Return tt, s', w')
    ∧ Z.of_nat (length (_event_documents s')) =
        Z.of_nat (length records) `mod` (N + 1)
    ∧ _number_of_buffered_events s' = Z.of_nat (length (_event_documents s'))
    ∧ Z.of_nat (length (_event_documents s')) ≤ N
    ∧ (Z.of_nat (length records) = N + 1 → _event_documents s' = [])
    ∧ posted w' = posted w ++ batches
    ∧ Z.of_nat (length batches) = Z.of_nat (length records) `div` (N + 1)
    ∧ Forall (λ r, Z.of_nat (length (json r)) = N + 1) batches
    ∧ concat (map json batches) ++ _event_documents s' =
        map (stamped s) records.
Proof.
  intros HN Hint Hport Hdocs Hcount Hrecords.
  destruct (write_all_run N port records ltac:(lia) Hrecords s w)
    as (s' & w' & batches & Hrun & _ & Hcoh & Hmod & Hposted & Hdiv & Hall & Hacc);
    try done.
  { by rewrite /coherent Hdocs Hcount. }
  { rewrite Hdocs /=. lia. }
  { rewrite Hdocs. constructor. }
  rewrite Hdocs /= ?Z.add_0_l in Hmod Hdiv Hacc.
  exists s', w', batches.
  pose proof (Z.mod_pos_bound (Z.of_nat (length records)) (N + 1) ltac:(lia)).
  split_and!; try done.
  - lia.
  - intros Heq. rewrite Heq Z.mod_same in Hmod; [lia|].
    by destruct (_event_documents s').
Qed.

End BufferFacts.

(** ** The Timesketch variant *)

Module TimesketchFacts.
Import SharedFluentBit Spec FlushFacts.
Import FluentBitTimesketch.

Lemma accepted_after_post (s : SharedFluentBit.t) (w : world) (r : request)
    (entry : log_record) :
  accepted (reset_buffer s) (after_post w r entry) =
  concat (map json (posted w)) ++ json r.
Proof. by rewrite /accepted /= map_app concat_app /= !app_nil_r. Qed.

(** Whatever the threshold check and the flush do, the stamped document
    is the one more document the sink has taken. *)
Lemma WriteFieldValues_accepts (s : FluentBitTimesketch.t) (w : world)
    (d : document) :
  let d' :=
    let d1 :=
      PyDict.set "__ts_timeline_id" (int_or_None (_timeline_identifier s)) d in
    if truthy_str (_index_name (shared s))
    then PyDict.set "__ts_searchindex"
           (VStr (str_of (_index_name (shared s)))) d1
    else d1 in
  ∃ r s' w',
    WriteFieldValues d s w = (r, s', w')
    ∧ _timeline_identifier s' = _timeline_identifier s
    ∧ _index_name (shared s') = _index_name (shared s)
    ∧ accepted (shared s') w' = accepted (shared s) w ++ [d'].
Proof.
  intros d'.
  rewrite /WriteFieldValues /mbind /M_bind /get_self /put_self /=.
  fold d'.
  set (b1 := with_number_of_buffered_events _ _).
  assert (_event_documents b1 = _event_documents (shared s) ++ [d']) as Hb1
    by done.
  assert (_event_documents b1 ≠ []) as Hne.
  { rewrite Hb1. by destruct (_event_documents (shared s)). }
  destruct (_ <? _).
  - rewrite /inherited /lift /=.
    destruct (_port b1) as [port|] eqn:Hport.
    + destruct (encodable_dec (_event_documents b1)) as [Henc|Henc].
      * destruct (_FlushEvents_run b1 w port Hport Hne Henc)
          as (entry & Hrun & _).
        rewrite Hrun. eexists _, _, _. split; [done|]. split_and!; [done..|].
        rewrite /= accepted_after_post /= /accepted. by rewrite app_assoc.
      * rewrite _FlushEvents_not_encodable //.
        eexists _, _, _. split; [done|]. split_and!; [done..|].
        by rewrite /accepted /= app_assoc.
    + rewrite _FlushEvents_no_port //.
      eexists _, _, _. split; [done|]. split_and!; [done..|].
      by rewrite /accepted /= app_assoc.
  - eexists _, _, _. split; [done|]. split_and!; [done..|].
    by rewrite /accepted /= app_assoc.
Qed.

(** C7: the document the Timesketch sink takes in a call of
    [WriteFieldValues] carries the timeline identifier of the sink under
    [__ts_timeline_id] and, when the index name of the sink is a non-empty
    string, that name under [__ts_searchindex]; after
    [SetTimelineIdentifier(42)] and [SetIndexName("caseA")] these are 42
    and "caseA". *)
Theorem timesketch_stamps_every_document (s : FluentBitTimesketch.t)
    (w : world) (d : document) :
  (∃ r s' w' d',
     WriteFieldValues d s w = (r, s', w')
     ∧ accepted (shared s') w' = accepted (shared s) w ++ [d']
     ∧ PyDict.get "__ts_timeline_id" d' =
         Some (match _timeline_identifier s with
               | Some identifier => VInt identifier
               | None => VNone
               end)
     ∧ (∀ name, _index_name (shared s) = Some name → name ≠ "" →
          PyDict.get "__ts_searchindex" d' = Some (VStr name)))
  ∧ (∃ r s' w' d',
       (SetTimelineIdentifier 42;;
        (inherited (SetIndexName "caseA");;
         WriteFieldValues d)) s w = (r, s', w')
       ∧ accepted (shared s') w' = accepted (shared s) w ++ [d']
       ∧ PyDict.get "__ts_timeline_id" d' = Some (VInt 42)
       ∧ PyDict.get "__ts_searchindex" d' = Some (VStr "caseA")).
Proof.
  split.
  - destruct (WriteFieldValues_accepts s w d) as (r & s' & w' & Hrun & _ & _ & Hacc).
    eexists r, s', w', _. split; [done|]. split; [done|]. split.
    + destruct (truthy_str _).
      * rewrite PyDictFacts.get_set_ne // PyDictFacts.get_set_eq //.
      * by rewrite PyDictFacts.get_set_eq.
    + intros name Hname Hne. rewrite Hname.
      destruct name as [|a name]; [done|].
      by rewrite /= PyDictFacts.get_set_eq.
  - rewrite /mbind /M_bind /SetTimelineIdentifier /SetIndexName /inherited /lift
      /mbind /M_bind /get_self /put_self /log /=.
    set (s1 := with_shared _ _). set (w1 := {| lists := _ |}).
    destruct (WriteFieldValues_accepts s1 w1 d)
      as (r & s' & w' & Hrun & _ & _ & Hacc).
    eexists r, s', w', _. split; [done|]. split; [done|].
    by rewrite /= PyDictFacts.get_set_eq PyDictFacts.get_set_ne //
         PyDictFacts.get_set_eq.
Qed.

(** [GetMissingArguments] tests the truth value of the attribute: it
    returns [['timeline_id']] if and only if the timeline identifier of
    the sink is [None] or 0, and the empty list otherwise; it changes
    nothing. *)
Lemma GetMissingArguments_iff_identifier_falsy (s : FluentBitTimesketch.t)
    (w : world) :
  ∃ missing,
    GetMissingArguments s w = (Return missing, s, w)
    ∧ (missing = ["timeline_id"] ∨ missing = [])
    ∧ (missing = ["timeline_id"] ↔
         _timeline_identifier s = None ∨ _timeline_identifier s = Some 0).
Proof.
  rewrite /GetMissingArguments /mbind /M_bind /get_self /=.
  destruct (_timeline_identifier s) as [z|]; simpl.
  - destruct (Z.eqb_spec z 0) as [->|Hne]; simpl.
    + eexists. split; [done|]. split; [by left|]. naive_solver.
    + eexists. split; [done|]. split; [by right|].
      split; [done|]. intros [?|[= ?]]; done.
  - eexists. split; [done|]. split; [by left|]. naive_solver.
Qed.

End TimesketchFacts.

(** ** The pre-flight check of the Timesketch sink *)

Module TimesketchSessionFacts.
Import SharedFluentBit FluentBitTimesketch TimesketchSession.

Lemma inherited_timeline_identifier {A} (m : M SharedFluentBit.t A)
    (s : FluentBitTimesketch.t) (w : world) :
  ∃ r s' w',
    inherited m s w = (r, s', w')
    ∧ _timeline_identifier s' = _timeline_identifier s.
Proof.
  rewrite /inherited /lift. destruct (m (shared s) w) as [[r b] w'].
  by eexists _, _, _.
Qed.

(** Only [SetTimelineIdentifier] assigns the attribute. *)
Lemma perform_timeline_identifier (c : call) (s : FluentBitTimesketch.t)
    (w : world) :
  ∃ r s' w',
    perform c s w = (r, s', w')
    ∧ _timeline_identifier s' =
        match c with
        | CallSetTimelineIdentifier n => Some n
        | _ => _timeline_identifier s
        end.
Proof.
  destruct c as [c|n|].
  - destruct c; simpl perform;
      try apply inherited_timeline_identifier.
    destruct (TimesketchFacts.WriteFieldValues_accepts s w field_values)
      as (r & s' & w' & Hrun & Hid & _).
    by exists r, s', w'.
  - by eexists _, _, _.
  - simpl perform. rewrite /GetMissingArguments /mbind /M_bind /get_self /=.
    destruct (negb _); by eexists _, _, _.
Qed.

(** After a sequence of calls the attribute holds what the last
    [SetTimelineIdentifier] was given, or what it held before. *)
Lemma perform_all_timeline_identifier (calls : list call)
    (s : FluentBitTimesketch.t) (w : world) :
  ∃ s' w',
    perform_all calls s w = (s', w')
    ∧ (((∀ n, CallSetTimelineIdentifier n ∉ calls)
        ∧ _timeline_identifier s' = _timeline_identifier s)
       ∨ ∃ n, CallSetTimelineIdentifier n ∈ calls
              ∧ _timeline_identifier s' = Some n).
Proof.
  revert s w. induction calls as [|c rest IH]; intros s w.
  - exists s, w. split; [done|]. left. split; [|done].
    intros n Hn. by apply elem_of_nil in Hn.
  - destruct (perform_timeline_identifier c s w)
      as (r & s1 & w1 & Hrun & Hid1).
    destruct (IH s1 w1) as (s' & w' & Hall & Hid).
    exists s', w'. simpl perform_all. rewrite Hrun. split; [done|].
    destruct Hid as [[Hnone Hid]|(n & Hn & Hid)].
    + destruct c as [c|n|].
      * left. split; [|by rewrite Hid Hid1].
        intros n [Hn|Hn]%elem_of_cons; [done|by apply (Hnone n)].
      * right. exists n. split; [by left|by rewrite Hid Hid1].
      * left. split; [|by rewrite Hid Hid1].
        intros n [Hn|Hn]%elem_of_cons; [done|by apply (Hnone n)].
    + right. exists n. split; [by right|done].
Qed.

(** C8: on a Timesketch sink, after any sequence of calls of its public
    methods in which [SetTimelineIdentifier] is only given identifiers
    other than 0 (timeline identifiers are positive), [GetMissingArguments]
    returns [['timeline_id']] if and only if [SetTimelineIdentifier] was
    not called, and the empty list otherwise; it changes nothing. *)
Theorem GetMissingArguments_iff_identifier_not_set (calls : list call)
    (w : world) :
  (∀ n, CallSetTimelineIdentifier n ∈ calls → n ≠ 0) →
  ∃ s' w' missing,
    perform_all calls FluentBitTimesketch.__init__ w = (s', w')
    ∧ GetMissingArguments s' w' = (Return missing, s', w')
    ∧ (missing = ["timeline_id"] ↔
         ∀ n, CallSetTimelineIdentifier n ∉ calls)
    ∧ (missing = [] ↔ ∃ n, CallSetTimelineIdentifier n ∈ calls).
Proof.
  intros Hpositive.
  destruct (perform_all_timeline_identifier calls FluentBitTimesketch.__init__ w)
    as (s' & w' & Hall & Hid).
  exists s', w'.
  rewrite /GetMissingArguments /mbind /M_bind /get_self /=.
  destruct Hid as [[Hnone ->]|(n & Hn & ->)]; simpl.
  - exists ["timeline_id"]. split; [done|]. split; [done|]. split; [done|].
    split; [done|]. intros (n & Hn). by destruct (Hnone n).
  - pose proof (Hpositive n Hn) as Hne.
    destruct (Z.eqb_spec n 0) as [->|_]; [done|]. simpl.
    exists []. split; [done|]. split; [done|]. split.
    + split; [done|]. intros Hnone. by destruct (Hnone n).
    + split; [|done]. intros _. by exists n.
Qed.

End TimesketchSessionFacts.

(** ** The shared field-name list *)

Module AliasFacts.
Import SharedFluentBit Spec.

(** C10: every instance refers to the list object of the class attribute;
    [SetAdditionalFields] and [SetCustomFields] extend that object, so the
    names set on one instance are field names of an instance made
    afterwards, and a non-empty list of additional fields changes the
    class default. *)
Theorem field_names_alias_the_class_default (net : nat → post_result)
    (field_names : list string) (pairs : list (string * value)) :
  field_names ≠ [] →
  ∃ first w1 first' w2,
    SetAdditionalFields field_names __init__ (initial_world net)
      = (Return tt, first, w1)
    ∧ SetCustomFields pairs first w1 = (Return tt, first', w2)
    ∧ _field_names __init__ = _DEFAULT_FIELD_NAMES
    ∧ list_content (initial_world net) _DEFAULT_FIELD_NAMES = default_field_names
    ∧ list_content w1 _DEFAULT_FIELD_NAMES = default_field_names ++ field_names
    ∧ list_content w1 _DEFAULT_FIELD_NAMES ≠ default_field_names
    ∧ list_content w2 (_field_names __init__) =
        default_field_names ++ field_names ++ PyDict.keys (PyDict.of_pairs pairs)
    ∧ (∀ name, name ∈ field_names → name ∈ list_content w2 (_field_names __init__)).
Proof.
  intros Hne. eexists _, _, _, _.
  split; [reflexivity|]. split; [reflexivity|].
  rewrite /list_content /= /_DEFAULT_FIELD_NAMES.
  rewrite !lookup_alter_eq !lookup_singleton_eq /=.
  split_and!; try done.
  - intros Heq. apply Hne.
    apply (f_equal (drop 8)) in Heq. by rewrite /= in Heq.
  - intros name Hin. do 8 apply list_elem_of_further.
    apply elem_of_app. by left.
Qed.

End AliasFacts.

(** ** The field resolver *)

Module ResolverFacts.
Section facts.
Import SharedFluentBit Spec Resolver ResolverSpec SanitizeFacts.
Context {OutputMediator EventObject EventTag : Type}.
Variable GetFormattedField :
  OutputMediator -> string -> EventObject -> option EventData ->
  option EventDataStream -> option EventTag -> value.
Variable WriteSerialized : value -> option string.

Local Arguments String.eqb : simpl never.
Local Arguments Ascii.eqb : simpl never.
Local Arguments _SanitizeField : simpl never.
Local Arguments substitute : simpl never.
Local Arguments sanitized : simpl never.
Local Arguments resolved_value : simpl never.
Local Arguments resolve_step : simpl never.

Lemma collect_event_data_cons (name : string) (v : value)
    (rest : list (string * value)) (ev : PyDict.t value) :
  name ≠ "" →
  collect_event_data ((name, v) :: rest) ev =
  match kept_as (name, v) with
  | Some n => collect_event_data rest (PyDict.set n v ev)
  | None => collect_event_data rest ev
  end.
Proof.
  destruct name as [|c r]; [done|]. intros _. simpl.
  destruct (is_identifier_or_datetime v); [done|].
  destruct (is_datetime_list v); [done|]. simpl.
  destruct (String.eqb_spec (String c r) "_parser_chain") as [Heq|Hne].
  - by rewrite andb_false_r.
  - rewrite andb_true_r. by destruct (Ascii.eqb c "_").
Qed.

Lemma collect_event_data_run (attrs : list (string * value)) :
  Forall (λ kv, kv.1 ≠ "") attrs →
  ∀ ev : PyDict.t value,
    ∃ ev',
      collect_event_data attrs ev = Return ev'
      ∧ (NoDup (PyDict.keys ev) → NoDup (PyDict.keys ev'))
      ∧ ∀ k, k ∈ PyDict.keys ev' ↔ k ∈ PyDict.keys ev ∨ k ∈ omap kept_as attrs.
Proof.
  induction 1 as [|[name v] rest Hname _ IH]; intros ev.
  - exists ev. split; [done|]. split; [done|]. set_solver.
  - rewrite collect_event_data_cons //.
    change (omap kept_as ((name, v) :: rest))
      with (match kept_as (name, v) with
            | Some n => n :: omap kept_as rest
            | None => omap kept_as rest
            end).
    destruct (kept_as (name, v)) as [n|].
    + destruct (IH (PyDict.set n v ev)) as (ev' & Hrun & Hnd & Hkeys).
      exists ev'. split; [done|]. split.
      * intros ?. by apply Hnd, PyDictFacts.NoDup_keys_set.
      * intros k. rewrite Hkeys PyDictFacts.elem_of_keys_set elem_of_cons.
        naive_solver.
    + apply IH.
Qed.

Lemma collect_stream_keys (attrs : list (string * value)) :
  ∀ ev : PyDict.t value,
    (NoDup (PyDict.keys ev) → NoDup (PyDict.keys (collect_stream attrs ev)))
    ∧ ∀ k, k ∈ PyDict.keys (collect_stream attrs ev)
           ↔ k ∈ PyDict.keys ev ∨ k ∈ map fst attrs.
Proof.
  induction attrs as [|[name v] rest IH]; intros ev; simpl.
  - split; [done|]. set_solver.
  - destruct (IH (PyDict.set name v ev)) as [Hnd Hkeys]. split.
    + intros ?. by apply Hnd, PyDictFacts.NoDup_keys_set.
    + intros k. rewrite Hkeys PyDictFacts.elem_of_keys_set elem_of_cons.
      naive_solver.
Qed.

Lemma fill_missing_keys (names : list string) :
  ∀ ev : PyDict.t value,
    (NoDup (PyDict.keys ev) → NoDup (PyDict.keys (fill_missing names ev)))
    ∧ ∀ k, k ∈ PyDict.keys (fill_missing names ev)
           ↔ k ∈ PyDict.keys ev ∨ k ∈ names.
Proof.
  induction names as [|name rest IH]; intros ev; simpl.
  - split; [done|]. set_solver.
  - destruct (PyDict.mem name ev) eqn:Hmem.
    + destruct (IH ev) as [Hnd Hkeys]. split; [done|].
      intros k. rewrite Hkeys elem_of_cons.
      apply PyDictFacts.mem_true in Hmem. naive_solver.
    + destruct (IH (PyDict.set name VNone ev)) as [Hnd Hkeys]. split.
      * intros ?. by apply Hnd, PyDictFacts.NoDup_keys_set.
      * intros k. rewrite Hkeys PyDictFacts.elem_of_keys_set elem_of_cons.
        naive_solver.
Qed.

Lemma after_logging_nil (w : world) : after_logging w [] = w.
Proof. rewrite /after_logging app_nil_r. by destruct w. Qed.

Lemma after_logging_app (w : world) (l1 l2 : list log_record) :
  after_logging (after_logging w l1) l2 = after_logging w (l1 ++ l2).
Proof. by rewrite /after_logging /= app_assoc. Qed.

(** With event data at hand the last loop never raises, touches nothing
    but the logger, and builds the document one item at a time. *)
Lemma resolve_fields_run (om : OutputMediator) (event : EventObject)
    (ed : EventData) (eds : option EventDataStream) (tag : option EventTag)
    (s : SharedFluentBit.t) (items : list (string * value)) :
  ∀ (fv : document) (w : world),
    ∃ entries,
      resolve_fields GetFormattedField WriteSerialized om event (Some ed) eds
        tag items fv s w =
      (Return
         (fold_left
            (resolve_step GetFormattedField WriteSerialized (_custom_fields s)
               om event (Some ed) eds tag) items fv),
       s, after_logging w entries).
Proof.
  induction items as [|[name v] rest IH]; intros fv w.
  - exists []. by rewrite after_logging_nil.
  - simpl. rewrite /resolve_step /resolved_value. cbv beta iota.
    destruct (String.eqb name "path_spec").
    + destruct (WriteSerialized v) as [ser|]; [|apply IH].
      destruct (_SanitizeField_run (data_type ed) name
                  (substitute (_custom_fields s) name (VStr ser)) s w)
        as (e0 & Hsan & _).
      rewrite /mbind /M_bind /get_self /mret /M_ret. cbv beta iota.
      rewrite Hsan.
      destruct (IH (PyDict.set name
                      (sanitized (substitute (_custom_fields s) name (VStr ser)))
                      fv) (after_logging w e0)) as (e1 & ->).
      exists (e0 ++ e1). by rewrite after_logging_app.
    + destruct (_SanitizeField_run (data_type ed) name
                  (substitute (_custom_fields s) name
                     (GetFormattedField om name event (Some ed) eds tag)) s w)
        as (e0 & Hsan & _).
      rewrite /mbind /M_bind /get_self /mret /M_ret. cbv beta iota.
      rewrite Hsan.
      destruct (IH (PyDict.set name
                      (sanitized
                         (substitute (_custom_fields s) name
                            (GetFormattedField om name event (Some ed) eds tag)))
                      fv) (after_logging w e0)) as (e1 & ->).
      exists (e0 ++ e1). by rewrite after_logging_app.
Qed.

(** Without event data the last loop raises at the first item it has to
    store. *)
Lemma resolve_fields_no_event_data (om : OutputMediator) (event : EventObject)
    (eds : option EventDataStream) (tag : option EventTag)
    (s : SharedFluentBit.t) (w : world) (items : list (string * value)) :
  (∃ item, item ∈ items ∧ item.1 ≠ "path_spec") →
  ∀ fv : document,
    resolve_fields GetFormattedField WriteSerialized om event None eds
      tag items fv s w = (Raise AttributeError, s, w).
Proof.
  induction items as [|[name v] rest IH]; intros (item & Hin & Hne) fv.
  - by apply elem_of_nil in Hin.
  - simpl. destruct (String.eqb_spec name "path_spec") as [->|Hname].
    + destruct (WriteSerialized v); [done|].
      apply IH. exists item. split; [|done].
      apply elem_of_cons in Hin as [->|]; done.
    + done.
Qed.

(** What the document holds for a name, from the merged attribute map. *)
Lemma get_fold_resolve_step (custom : PyDict.t value) (om : OutputMediator)
    (event : EventObject) (ed : option EventData)
    (eds : option EventDataStream) (tag : option EventTag)
    (k : string) (items : list (string * value)) :
  NoDup (PyDict.keys items) →
  ∀ fv : document,
    PyDict.get k
      (fold_left
         (resolve_step GetFormattedField WriteSerialized custom om event ed
            eds tag) items fv) =
    match PyDict.get k items with
    | Some v =>
        match resolved_value GetFormattedField WriteSerialized custom om event
                ed eds tag (k, v) with
        | Some x => Some x
        | None => PyDict.get k fv
        end
    | None => PyDict.get k fv
    end.
Proof.
  induction items as [|[k0 v0] rest IH]; [done|].
  rewrite /PyDict.keys /= NoDup_cons. intros [Hnin Hnd] fv.
  rewrite IH //.
  destruct (String.eqb_spec k k0) as [->|Hne].
  - apply PyDictFacts.get_None in Hnin. rewrite Hnin.
    rewrite /resolve_step.
    destruct (resolved_value _ _ _ _ _ _ _ _ (k0, v0)); [|done].
    by rewrite /= PyDictFacts.get_set_eq.
  - assert (PyDict.get k
              (resolve_step GetFormattedField WriteSerialized custom om event ed
                 eds tag fv (k0, v0)) = PyDict.get k fv) as ->; [|done].
    rewrite /resolve_step.
    destruct (resolved_value _ _ _ _ _ _ _ _ (k0, v0)); [|done].
    by rewrite /= PyDictFacts.get_set_ne.
Qed.

(** The merged attribute map of a record with event data. *)
Lemma event_values_of_run (names : list string) (ed : EventData)
    (eds : option EventDataStream) :
  Forall (λ kv, kv.1 ≠ "") (attributes ed) →
  ∃ ev,
    event_values_of names (Some ed) eds = Return ev
    ∧ NoDup (PyDict.keys ev)
    ∧ ∀ k, k ∈ PyDict.keys ev ↔ k ∈ names ∨ k ∈ record_names ed eds.
Proof.
  intros Hnames. rewrite /event_values_of /record_names.
  destruct (collect_event_data_run (attributes ed) Hnames PyDict.empty)
    as (ev1 & -> & Hnd1 & Hk1).
  eexists. split; [done|].
  destruct eds as [eds|].
  - destruct (collect_stream_keys (stream_attributes eds) ev1) as [Hnd2 Hk2].
    destruct (fill_missing_keys names
                (collect_stream (stream_attributes eds) ev1)) as [Hnd3 Hk3].
    split.
    + apply Hnd3, Hnd2, Hnd1. constructor.
    + intros k. rewrite Hk3 Hk2 Hk1 elem_of_app. set_solver.
  - destruct (fill_missing_keys names ev1) as [Hnd3 Hk3]. split.
    + apply Hnd3, Hnd1. constructor.
    + intros k. rewrite Hk3 Hk1 elem_of_app. set_solver.
Qed.

(** [GetFieldValues] on a record with event data, in one equation. *)
Lemma GetFieldValues_run (om : OutputMediator) (event : EventObject)
    (ed : EventData) (eds : option EventDataStream) (tag : option EventTag)
    (s : SharedFluentBit.t) (w : world) :
  Forall (λ kv, kv.1 ≠ "") (attributes ed) →
  ∃ ev doc entries,
    event_values_of (list_content w (_field_names s)) (Some ed) eds = Return ev
    ∧ GetFieldValues GetFormattedField WriteSerialized om event (Some ed) eds
        tag s w = (Return doc, s, after_logging w entries)
    ∧ (∀ k, k ∈ PyDict.keys ev
            ↔ k ∈ list_content w (_field_names s) ∨ k ∈ record_names ed eds)
    ∧ (∀ k, PyDict.get k doc =
            match PyDict.get k ev with
            | Some v =>
                resolved_value GetFormattedField WriteSerialized
                  (_custom_fields s) om event (Some ed) eds tag (k, v)
            | None => None
            end).
Proof.
  intros Hnames.
  destruct (event_values_of_run (list_content w (_field_names s)) ed eds Hnames)
    as (ev & Hev & Hnd & Hkeys).
  destruct (resolve_fields_run om event ed eds tag s (PyDict.items ev)
              PyDict.empty w) as (entries & Hrun).
  eexists ev, _, entries. split; [done|]. split.
  - rewrite /GetFieldValues /mbind /M_bind /get_self /get_world /of_outcome /=.
    rewrite Hev. exact Hrun.
  - split; [done|]. intros k. rewrite get_fold_resolve_step //.
    rewrite /PyDict.items. destruct (PyDict.get k ev) as [v|]; [|done].
    by destruct (resolved_value _ _ _ _ _ _ _ _ (k, v)).
Qed.

(** Without event data [GetFieldValues] raises as soon as one name to
    resolve is not [path_spec]. *)
Lemma GetFieldValues_no_event_data (om : OutputMediator) (event : EventObject)
    (eds : option EventDataStream) (tag : option EventTag)
    (s : SharedFluentBit.t) (w : world) (name : string) :
  name ∈ list_content w (_field_names s) →
  name ≠ "path_spec" →
  GetFieldValues GetFormattedField WriteSerialized om event None eds tag s w
  = (Raise AttributeError, s, w).
Proof.
  intros Hin Hne.
  rewrite /GetFieldValues /mbind /M_bind /get_self /get_world /of_outcome /=.
  set (ev := fill_missing _ _).
  assert (name ∈ PyDict.keys ev) as Hkey.
  { rewrite /ev. apply fill_missing_keys. by right. }
  apply PyDictFacts.get_Some_keys in Hkey as [v Hv].
  apply resolve_fields_no_event_data.
  exists (name, v). split; [|done]. by apply PyDictFacts.get_elem_of.
Qed.

(** C2 (as the code has it): for a record with event data, the keys of
    the document are the configured field names together with the names of
    the attributes the record brings (event-data attributes that are kept,
    [_parser_chain] as [parser], and event-data-stream attributes), without
    [path_spec] when its serialization fails; so every configured name
    other than [path_spec] is a key, and the key set is exactly the
    configured one when the record brings no other name and [path_spec]
    serializes. *)
Theorem document_keys_are_fields_and_attributes (om : OutputMediator)
    (event : EventObject) (ed : EventData) (eds : option EventDataStream)
    (tag : option EventTag) (s : SharedFluentBit.t) (w : world) :
  Forall (λ kv, kv.1 ≠ "") (attributes ed) →
  ∃ ev doc entries,
    event_values_of (list_content w (_field_names s)) (Some ed) eds = Return ev
    ∧ GetFieldValues GetFormattedField WriteSerialized om event (Some ed) eds
        tag s w = (Return doc, s, after_logging w entries)
    ∧ (∀ k, k ∈ PyDict.keys doc ↔
            (k ∈ list_content w (_field_names s) ∨ k ∈ record_names ed eds)
            ∧ ¬ (k = "path_spec"
                 ∧ ∃ v, PyDict.get k ev = Some v ∧ WriteSerialized v = None))
    ∧ (∀ k, k ∈ list_content w (_field_names s) → k ≠ "path_spec" →
            k ∈ PyDict.keys doc)
    ∧ ((∀ k, k ∈ record_names ed eds → k ∈ list_content w (_field_names s)) →
       (∀ v, PyDict.get "path_spec" ev = Some v → WriteSerialized v ≠ None) →
       ∀ k, k ∈ PyDict.keys doc ↔ k ∈ list_content w (_field_names s)).
Proof.
  intros Hnames.
  destruct (GetFieldValues_run om event ed eds tag s w Hnames)
    as (ev & doc & entries & Hev & Hrun & Hkeys & Hget).
  exists ev, doc, entries. split; [done|]. split; [done|].
  assert (∀ k, k ∈ PyDict.keys doc ↔
            (k ∈ list_content w (_field_names s) ∨ k ∈ record_names ed eds)
            ∧ ¬ (k = "path_spec"
                 ∧ ∃ v, PyDict.get k ev = Some v ∧ WriteSerialized v = None))
    as Hdoc.
  { intros k. rewrite -Hkeys -!PyDictFacts.get_Some_keys Hget.
    destruct (PyDict.get k ev) as [v|] eqn:Hk.
    - rewrite /resolved_value.
      destruct (String.eqb_spec k "path_spec") as [->|Hne].
      + destruct (WriteSerialized v) as [ser|] eqn:Hser.
        * split; [|by eauto]. intros _. split; [by eauto|].
          intros (_ & v' & [= <-] & Hnone). congruence.
        * split; [by intros [? [=]]|]. intros [_ Hnot].
          exfalso. apply Hnot. eauto.
      + split; [|by eauto]. intros _. split; [by eauto|]. by intros [? _].
    - split; [by intros [? [=]]|]. by intros [[? [=]] _]. }
  split; [done|]. split.
  - intros k Hin Hne. apply Hdoc. split; [by left|]. by intros [? _].
  - intros Hsub Hser k. rewrite Hdoc. split.
    + intros [[?|?] _]; eauto.
    + intros Hin. split; [by left|].
      intros (-> & v & Hv & Hnone). by apply (Hser v).
Qed.

(** C4 (what the code does): on a record without event data, a sink
    straight from [__init__] raises [AttributeError] out of
    [GetFieldValues], whatever the other components of the record are. *)
Theorem GetFieldValues_raises_without_event_data (om : OutputMediator)
    (event : EventObject) (eds : option EventDataStream) (tag : option EventTag)
    (net : nat → post_result) :
  GetFieldValues GetFormattedField WriteSerialized om event None eds tag
    SharedFluentBit.__init__ (initial_world net)
  = (Raise AttributeError, SharedFluentBit.__init__, initial_world net).
Proof.
  apply (GetFieldValues_no_event_data om event eds tag _ _ "datetime"); [|done].
  rewrite /list_content /= lookup_singleton_eq /=. apply list_elem_of_here.
Qed.

(** C6: for a record with event data, every configured name is resolved,
    and for every name of the merged attribute map: [path_spec] is left
    out of the document when its serialization fails and holds the
    serialized text otherwise; any other name holds the sanitized form of
    what the formatting helper returns, or, when that is [None], of the
    custom literal of that name if there is one (and it is not [None]), or
    else of the sentinel ["-"]. *)
Theorem fields_resolve_to_custom_or_sentinel (om : OutputMediator)
    (event : EventObject) (ed : EventData) (eds : option EventDataStream)
    (tag : option EventTag) (s : SharedFluentBit.t) (w : world) :
  Forall (λ kv, kv.1 ≠ "") (attributes ed) →
  ∃ ev doc entries,
    event_values_of (list_content w (_field_names s)) (Some ed) eds = Return ev
    ∧ GetFieldValues GetFormattedField WriteSerialized om event (Some ed) eds
        tag s w = (Return doc, s, after_logging w entries)
    ∧ (∀ name, name ∈ list_content w (_field_names s) →
               is_Some (PyDict.get name ev))
    ∧ ∀ name v, PyDict.get name ev = Some v →
        if String.eqb name "path_spec"
        then
          match WriteSerialized v with
          | None => PyDict.get name doc = None
          | Some serialized => PyDict.get name doc = Some (VStr serialized)
          end
        else
          ∃ resolved,
            PyDict.get name doc = Some resolved
            ∧ (∀ w0, ∃ w1, _SanitizeField (data_type ed) name
                 match GetFormattedField om name event (Some ed) eds tag with
                 | VNone =>
                     match PyDict.get name (_custom_fields s) with
                     | Some VNone | None => VStr "-"
                     | Some literal => literal
                     end
                 | formatted => formatted
                 end s w0 = (Return resolved, s, w1)).
Proof.
  intros Hnames.
  destruct (GetFieldValues_run om event ed eds tag s w Hnames)
    as (ev & doc & entries & Hev & Hrun & Hkeys & Hget).
  exists ev, doc, entries. split; [done|]. split; [done|]. split.
  { intros name Hin. apply PyDictFacts.get_Some_keys, Hkeys. by left. }
  intros name v Hv. rewrite Hget Hv /resolved_value.
  destruct (String.eqb name "path_spec").
  - by destruct (WriteSerialized v).
  - eexists. split; [done|]. intros w0.
    set (field := match GetFormattedField om name event (Some ed) eds tag with
                  | VNone => _ | _ => _ end).
    destruct (_SanitizeField_run (data_type ed) name field s w0)
      as (e0 & Hsan & _).
    exists (after_logging w0 e0). rewrite Hsan. do 3 f_equal.
    rewrite /field /substitute /PyDict.mem.
    destruct (GetFormattedField om name event (Some ed) eds tag); try done.
    simpl. destruct (PyDict.get name (_custom_fields s)) as [[]|]; done.
Qed.

End facts.
End ResolverFacts.

(** ** The properties at sample inputs *)

Module SampleFacts.
Import SharedFluentBit Spec Sample.

Example decode_ff_fe :
  Utf8.decode_replace [xff; xfe] = Utf8.replacement +:+ Utf8.replacement.
Proof. reflexivity. Qed.

Example decode_truncated_euro :
  Utf8.decode_replace [x61; xe2; x82] = "a" +:+ Utf8.replacement.
Proof. reflexivity. Qed.

Example decode_well_formed :
  Utf8.decode_replace [x61; xe2; x82; xac; x62]
  = String (Utf8.chr x61) (String (Utf8.chr xe2) (String (Utf8.chr x82)
      (String (Utf8.chr xac) (String (Utf8.chr x62) "")))).
Proof. reflexivity. Qed.

(** Flush interval 2, three records, the network accepts: the buffer
    sizes are 1, 2 and, after the flush, 0. *)
Example three_records_one_flush :
  ∃ s1 s2 s3 w3,
    write_all [record1] (configured 2) (initial_world accepting)
      = (Return tt, s1, initial_world accepting)
    ∧ write_all [record1; record2] (configured 2) (initial_world accepting)
      = (Return tt, s2, initial_world accepting)
    ∧ write_all [record1; record2; record3] (configured 2)
        (initial_world accepting) = (Return tt, s3, w3)
    ∧ length (_event_documents s1) = 1%nat
    ∧ length (_event_documents s2) = 2%nat
    ∧ _event_documents s3 = []
    ∧ map json (posted w3) = [[record1; record2; record3]]
    ∧ map url (posted w3) = ["http://localhost:9880"].
Proof. eexists _, _, _, _. split_and!; reflexivity. Qed.

(** The same with the network down: the documents are gone all the same. *)
Example three_records_network_down :
  ∃ s3 w3,
    write_all [record1; record2; record3] (configured 2)
      (initial_world unreachable) = (Return tt, s3, w3)
    ∧ _event_documents s3 = []
    ∧ _number_of_buffered_events s3 = 0
    ∧ logged w3 =
        [{| levelname := WARNING;
            msg := "Unable to send events with error: Connection refused" |}].
Proof. eexists _, _. split_and!; reflexivity. Qed.

Lemma flush_when_count_exceeds_interval_witness :
  1 ≤ 2
  ∧ _flush_interval (configured 2) = 2
  ∧ _port (configured 2) = Some 9880
  ∧ _event_documents (configured 2) = []
  ∧ _number_of_buffered_events (configured 2) = 0
  ∧ Forall (λ d, document_encodable d = true) [record1; record2; record3]
  ∧ ∃ s' w' batches,
      write_all [record1; record2; record3] (configured 2)
        (initial_world unreachable) = (Return tt, s', w')
      ∧ _event_documents s' = []
      ∧ posted w' = posted (initial_world unreachable) ++ batches
      ∧ Z.of_nat (length batches) = 3 `div` (2 + 1).
Proof.
  assert (Forall (λ d, document_encodable d = true)
            [record1; record2; record3]) as Henc
    by (repeat constructor).
  split; [lia|]. do 4 (split; [reflexivity|]). split; [exact Henc|].
  destruct (BufferFacts.flush_when_count_exceeds_interval 2 9880
              [record1; record2; record3] (configured 2)
              (initial_world unreachable))
    as (s' & w' & batches & Hrun & _ & _ & _ & Hempty & Hposted & Hdiv & _);
    [lia|reflexivity|reflexivity|reflexivity|reflexivity|exact Henc|].
  exists s', w', batches. split; [exact Hrun|].
  split; [apply Hempty; reflexivity|]. split; [exact Hposted|exact Hdiv].
Defined.

Lemma flush_posts_once_and_resets_witness :
  _host (with_event_documents [record1] (configured 2)) = Some "localhost"
  ∧ _port (with_event_documents [record1] (configured 2)) = Some 9880
  ∧ _event_documents (with_event_documents [record1] (configured 2)) ≠ []
  ∧ Forall (λ d, document_encodable d = true)
      (_event_documents (with_event_documents [record1] (configured 2)))
  ∧ ∃ entry,
      _FlushEvents (with_event_documents [record1] (configured 2))
        (initial_world unreachable)
      = (Return tt,
         reset_buffer (with_event_documents [record1] (configured 2)),
         {| lists := lists (initial_world unreachable);
            logged := [entry];
            posted := [{| url := "http://localhost:9880";
                          json := [record1];
                          timeout := 300 |}];
            network := unreachable |})
      ∧ levelname entry = WARNING.
Proof.
  assert (Forall (λ d, document_encodable d = true)
            (_event_documents (with_event_documents [record1] (configured 2))))
    as Henc by (repeat constructor).
  split; [reflexivity|]. split; [reflexivity|]. split; [discriminate|].
  split; [exact Henc|].
  destruct (FlushFacts.flush_posts_once_and_resets
              (with_event_documents [record1] (configured 2))
              (initial_world unreachable) "localhost" 9880)
    as (entry & Hrun & _ & _ & Hlevel & _);
    [reflexivity|reflexivity|discriminate|exact Henc|].
  exists entry. split; [exact Hrun|exact Hlevel].
Defined.

Lemma Close_flushes_the_remainder_witness :
  Close (configured 2) (initial_world accepting)
    = (Return tt, configured 2, initial_world accepting)
  ∧ ∃ s' w' r,
      Close (with_event_documents [record1; record2] (configured 2))
        (initial_world accepting) = (Return tt, s', w')
      ∧ posted w' = [r]
      ∧ json r = [record1; record2]
      ∧ _event_documents s' = [].
Proof.
  split.
  - apply (FlushFacts.Close_flushes_the_remainder (configured 2)
             (initial_world accepting)). reflexivity.
  - destruct (FlushFacts.Close_flushes_the_remainder
                (with_event_documents [record1; record2] (configured 2))
                (initial_world accepting)) as (_ & _ & Hflush).
    destruct (Hflush 9880) as (s' & w' & r & Hrun & Hposted & Hjson & Hdocs & _);
      [reflexivity|discriminate|repeat constructor|].
    exists s', w', r. split; [exact Hrun|].
    split; [exact Hposted|]. split; [exact Hjson|exact Hdocs].
Defined.

Lemma field_names_alias_the_class_default_witness :
  ["hostname"] ≠ []
  ∧ ∃ first w1 first' w2,
      SetAdditionalFields ["hostname"] SharedFluentBit.__init__
        (initial_world accepting) = (Return tt, first, w1)
      ∧ SetCustomFields [("case", VStr "42")] first w1 = (Return tt, first', w2)
      ∧ list_content w1 _DEFAULT_FIELD_NAMES ≠ default_field_names
      ∧ list_content w2 (_field_names SharedFluentBit.__init__) =
          default_field_names ++ ["hostname"; "case"].
Proof.
  split; [discriminate|].
  destruct (AliasFacts.field_names_alias_the_class_default accepting
              ["hostname"] [("case", VStr "42")])
    as (first & w1 & first' & w2 & H1 & H2 & _ & _ & _ & Hne & Hall & _);
    [discriminate|].
  exists first, w1, first', w2.
  split; [exact H1|]. split; [exact H2|]. split; [exact Hne|exact Hall].
Defined.

Lemma GetMissingArguments_iff_identifier_not_set_witness :
  (∀ n, TimesketchSession.CallSetTimelineIdentifier n
          ∈ [TimesketchSession.CallShared
               (Session.CallSetServerInformation "localhost" 9880);
             TimesketchSession.CallSetTimelineIdentifier 42;
             TimesketchSession.CallGetMissingArguments;
             TimesketchSession.CallShared
               (Session.CallWriteFieldValues record1)] →
        n ≠ 0)
  ∧ ∃ s w,
      TimesketchSession.perform_all
        [TimesketchSession.CallShared
           (Session.CallSetServerInformation "localhost" 9880);
         TimesketchSession.CallSetTimelineIdentifier 42;
         TimesketchSession.CallGetMissingArguments;
         TimesketchSession.CallShared (Session.CallWriteFieldValues record1)]
        FluentBitTimesketch.__init__ (initial_world accepting) = (s, w)
      ∧ FluentBitTimesketch.GetMissingArguments s w = (Return [], s, w).
Proof.
  assert (∀ n, TimesketchSession.CallSetTimelineIdentifier n
                 ∈ [TimesketchSession.CallShared
                      (Session.CallSetServerInformation "localhost" 9880);
                    TimesketchSession.CallSetTimelineIdentifier 42;
                    TimesketchSession.CallGetMissingArguments;
                    TimesketchSession.CallShared
                      (Session.CallWriteFieldValues record1)] →
               n ≠ 0) as Hidentifiers.
  { intros n Hn.
    repeat (apply elem_of_cons in Hn as [Hn|Hn];
            [first [discriminate Hn|injection Hn as ->; discriminate]|]).
    by apply elem_of_nil in Hn. }
  split; [exact Hidentifiers|].
  destruct (TimesketchSessionFacts.GetMissingArguments_iff_identifier_not_set
              _ (initial_world accepting) Hidentifiers)
    as (s & w & missing & Hall & Hrun & _ & Hset).
  exists s, w. split; [exact Hall|].
  assert (missing = []) as <-; [|exact Hrun].
  apply Hset. exists 42. apply elem_of_cons. right. apply elem_of_cons. by left.
Defined.

(** The condition on the identifiers is needed: after
    [SetTimelineIdentifier(0)] the identifier is set, and it is still
    reported as missing. *)
Lemma GetMissingArguments_reports_identifier_zero :
  ∃ s w,
    FluentBitTimesketch.SetTimelineIdentifier 0 FluentBitTimesketch.__init__
      (initial_world accepting) = (Return tt, s, w)
    ∧ FluentBitTimesketch._timeline_identifier s = Some 0
    ∧ FluentBitTimesketch._timeline_identifier s ≠ None
    ∧ FluentBitTimesketch.GetMissingArguments s w
      = (Return ["timeline_id"], s, w).
Proof. eexists _, _. split_and!; [reflexivity|reflexivity|discriminate|reflexivity]. Qed.

(** The document of a file-stat record on a sink with the default field
    names. *)
Example file_stat_document :
  Resolver.GetFieldValues message_only path_specs_only tt tt (Some file_stat)
    (Some file_stream) None SharedFluentBit.__init__ (initial_world accepting)
  = (Return
       [("parser", VStr "-"); ("filename", VStr "-");
        ("path_spec", VStr "{location: /etc/passwd}");
        ("datetime", VStr "-"); ("display_name", VStr "-");
        ("message", VStr "File stat"); ("source_long", VStr "-");
        ("source_short", VStr "-"); ("tag", VStr "-");
        ("timestamp", VStr "-"); ("timestamp_desc", VStr "-")],
     SharedFluentBit.__init__, initial_world accepting).
Proof. reflexivity. Qed.

(** The record has an attribute [filename], the configured field names do
    not, and the document has the key. *)
Lemma document_has_key_outside_field_names :
  ∃ doc w',
    Resolver.GetFieldValues message_only path_specs_only tt tt (Some file_stat)
      None None SharedFluentBit.__init__ (initial_world accepting)
    = (Return doc, SharedFluentBit.__init__, w')
    ∧ "filename" ∈ PyDict.keys doc
    ∧ ("filename" ∉ list_content (initial_world accepting)
                      (_field_names SharedFluentBit.__init__))
    ∧ ¬ (∀ k, k ∈ PyDict.keys doc ↔
              k ∈ list_content (initial_world accepting)
                    (_field_names SharedFluentBit.__init__)).
Proof.
  eexists _, _. split; [vm_compute; reflexivity|].
  assert ("filename" ∉ list_content (initial_world accepting)
                         (_field_names SharedFluentBit.__init__)) as Hnot.
  { rewrite /list_content /= lookup_singleton_eq /= /default_field_names.
    rewrite !not_elem_of_cons. split_and!; try done. apply not_elem_of_nil. }
  assert ("filename" ∈ PyDict.keys
            [("parser", VStr "-"); ("filename", VStr "-");
             ("datetime", VStr "-"); ("display_name", VStr "-");
             ("message", VStr "File stat"); ("source_long", VStr "-");
             ("source_short", VStr "-"); ("tag", VStr "-");
             ("timestamp", VStr "-"); ("timestamp_desc", VStr "-")]) as Hin.
  { apply list_elem_of_further, list_elem_of_here. }
  split; [exact Hin|]. split; [exact Hnot|].
  intros Hall. apply Hnot, Hall, Hin.
Qed.

(** A configured [path_spec] that does not serialize is missing from the
    document. *)
Example unserializable_path_spec_is_missing :
  ∃ s w doc w',
    SetAdditionalFields ["path_spec"] SharedFluentBit.__init__
      (initial_world accepting) = (Return tt, s, w)
    ∧ list_content w (_field_names s) = default_field_names ++ ["path_spec"]
    ∧ Resolver.GetFieldValues message_only path_specs_only tt tt
        (Some file_stat) None None s w = (Return doc, s, w')
    ∧ PyDict.get "path_spec" doc = None.
Proof. eexists _, _, _, _. split_and!; vm_compute; reflexivity. Qed.

Lemma document_keys_are_fields_and_attributes_witness :
  Forall (λ kv, kv.1 ≠ "") (attributes file_stat)
  ∧ ∃ doc w',
      Resolver.GetFieldValues message_only path_specs_only tt tt
        (Some file_stat) (Some file_stream) None SharedFluentBit.__init__
        (initial_world accepting) = (Return doc, SharedFluentBit.__init__, w')
      ∧ ∀ k, k ∈ list_content (initial_world accepting)
                   (_field_names SharedFluentBit.__init__) →
             k ≠ "path_spec" → k ∈ PyDict.keys doc.
Proof.
  assert (Forall (λ kv : string * value, kv.1 ≠ "") (attributes file_stat))
    as Hnames by (repeat constructor; discriminate).
  split; [exact Hnames|].
  destruct (ResolverFacts.document_keys_are_fields_and_attributes
              message_only path_specs_only tt tt file_stat (Some file_stream)
              None SharedFluentBit.__init__ (initial_world accepting) Hnames)
    as (ev & doc & entries & _ & Hrun & _ & Hall & _).
  exists doc, (after_logging (initial_world accepting) entries).
  split; [exact Hrun|exact Hall].
Defined.

Lemma fields_resolve_to_custom_or_sentinel_witness :
  Forall (λ kv, kv.1 ≠ "") (attributes file_stat)
  ∧ ∃ ev doc w',
      Resolver.event_values_of
        (list_content (initial_world accepting)
           (_field_names SharedFluentBit.__init__))
        (Some file_stat) (Some file_stream) = Return ev
      ∧ Resolver.GetFieldValues message_only path_specs_only tt tt
          (Some file_stat) (Some file_stream) None SharedFluentBit.__init__
          (initial_world accepting) = (Return doc, SharedFluentBit.__init__, w')
      ∧ ∀ name, name ∈ list_content (initial_world accepting)
                         (_field_names SharedFluentBit.__init__) →
                is_Some (PyDict.get name ev).
Proof.
  assert (Forall (λ kv : string * value, kv.1 ≠ "") (attributes file_stat))
    as Hnames by (repeat constructor; discriminate).
  split; [exact Hnames|].
  destruct (ResolverFacts.fields_resolve_to_custom_or_sentinel
              message_only path_specs_only tt tt file_stat (Some file_stream)
              None SharedFluentBit.__init__ (initial_world accepting) Hnames)
    as (ev & doc & entries & Hev & Hrun & Hall & _).
  exists ev, doc, (after_logging (initial_world accepting) entries).
  split; [exact Hev|]. split; [exact Hrun|exact Hall].
Defined.

(** A custom field takes its literal, a bytes literal is decoded. *)
Example custom_field_literal :
  ∃ s w doc w',
    SetCustomFields [("case", VStr "42"); ("note", VBytes [xff; x21])]
      SharedFluentBit.__init__ (initial_world accepting) = (Return tt, s, w)
    ∧ Resolver.GetFieldValues message_only path_specs_only tt tt
        (Some file_stat) None None s w = (Return doc, s, w')
    ∧ PyDict.get "case" doc = Some (VStr "42")
    ∧ PyDict.get "note" doc = Some (VStr (Utf8.replacement +:+ "!"))
    ∧ PyDict.get "tag" doc = Some (VStr "-")
    ∧ PyDict.get "message" doc = Some (VStr "File stat")
    ∧ map levelname (logged w') = [WARNING].
Proof. eexists _, _, _, _. split_and!; vm_compute; reflexivity. Qed.

(** The Timesketch sink after [SetTimelineIdentifier(42)] and
    [SetIndexName("caseA")]. *)
Example timesketch_document :
  ∃ s w,
    (FluentBitTimesketch.SetTimelineIdentifier 42;;
     (FluentBitTimesketch.inherited (SetIndexName "caseA");;
      FluentBitTimesketch.WriteFieldValues record1))
      FluentBitTimesketch.__init__ (initial_world accepting)
    = (Return tt, s, w)
    ∧ _event_documents (FluentBitTimesketch.shared s) =
        [[("message", VStr "one"); ("__ts_timeline_id", VInt 42);
          ("__ts_searchindex", VStr "caseA")]].
Proof. eexists _, _. split; vm_compute; reflexivity. Qed.

(** An empty index name is not stamped. *)
Example empty_index_name_is_not_stamped :
  ∃ s w,
    (SetIndexName "";; FluentBit.WriteFieldValues record1)
      (configured 2) (initial_world accepting) = (Return tt, s, w)
    ∧ _event_documents s = [record1].
Proof. eexists _, _. split; vm_compute; reflexivity. Qed.

(** A flush before the server information is set raises. *)
Example flush_without_port_raises :
  ∃ s,
    write_all [record1] (with_flush_interval 0 SharedFluentBit.__init__)
      (initial_world accepting) = (Raise TypeError, s, initial_world accepting)
    ∧ _event_documents s = [record1].
Proof. eexists. split; vm_compute; reflexivity. Qed.

End SampleFacts.


(** ** More on buffering: any order of calls *)

Module SessionFacts.
Import SharedFluentBit Spec EncodableFacts FlushFacts BufferFacts Session.

(** What a flush does to the books, whatever its outcome. *)
Lemma _FlushEvents_books (s : SharedFluentBit.t) (w : world) :
  ∃ r s' w' new,
    _FlushEvents s w = (r, s', w')
    ∧ (coherent s → coherent s')
    ∧ accepted s' w' = accepted s w
    ∧ posted w' = posted w ++ new
    ∧ Forall (λ q, json q ≠ []) new
    ∧ lists w' = lists w
    ∧ _field_names s' = _field_names s.
Proof.
  destruct (_event_documents s) as [|d ds] eqn:Hdocs.
  - rewrite _FlushEvents_empty //. exists (Return tt), s, w, [].
    rewrite app_nil_r. by split_and!.
  - assert (_event_documents s ≠ []) as Hne by (by rewrite Hdocs).
    destruct (_port s) as [port|] eqn:Hport.
    + destruct (encodable_dec (_event_documents s)) as [Henc|Henc].
      * destruct (_FlushEvents_run s w port Hport Hne Henc)
          as (entry & Hrun & _).
        rewrite Hrun. eexists _, _, _, [_]. split; [done|].
        split_and!; try done.
        -- by rewrite /accepted /= map_app concat_app /= !app_nil_r.
        -- constructor; [|done]. by rewrite /= Hdocs.
      * rewrite _FlushEvents_not_encodable //.
        exists (Raise TypeError), s, w, []. rewrite app_nil_r. by split_and!.
    + rewrite _FlushEvents_no_port //.
      exists (Raise TypeError), s, w, []. rewrite app_nil_r. by split_and!.
Qed.

(** What a call of [WriteFieldValues] does to the books. *)
Lemma WriteFieldValues_books (s : SharedFluentBit.t) (w : world) (d : document) :
  ∃ r s' w' new,
    FluentBit.WriteFieldValues d s w = (r, s', w')
    ∧ (coherent s → coherent s')
    ∧ accepted s' w' = accepted s w ++ [stamped s d]
    ∧ posted w' = posted w ++ new
    ∧ Forall (λ q, json q ≠ []) new
    ∧ lists w' = lists w
    ∧ _field_names s' = _field_names s.
Proof.
  rewrite /FluentBit.WriteFieldValues /mbind /M_bind /get_self /put_self /=.
  rewrite stamped_eq.
  set (s1 := with_number_of_buffered_events _ _).
  assert (coherent s → coherent s1) as Hcoh.
  { rewrite /coherent /s1 /= length_app /=. lia. }
  assert (accepted s1 w = accepted s w ++ [stamped s d]) as Hacc.
  { by rewrite /accepted /s1 /= app_assoc. }
  destruct (_ <? _).
  - destruct (_FlushEvents_books s1 w)
      as (r & s' & w' & new & Hrun & Hcoh' & Hacc' & Hposted & Hnew & Hl & Hf).
    rewrite Hrun. exists r, s', w', new. split; [done|].
    split_and!; try done.
    + by intros ?; apply Hcoh', Hcoh.
    + by rewrite Hacc'.
  - exists (Return tt), s1, w, []. rewrite app_nil_r. by split_and!.
Qed.

(** What any call does to the books. *)
Lemma perform_books (c : call) (s : SharedFluentBit.t) (w : world) :
  ∃ r s' w' new,
    perform c s w = (r, s', w')
    ∧ (coherent s → coherent s')
    ∧ accepted s' w' =
        accepted s w
        ++ match c with
           | CallWriteFieldValues d => [stamped s d]
           | _ => []
           end
    ∧ posted w' = posted w ++ new
    ∧ Forall (λ q, json q ≠ []) new
    ∧ _field_names s' = _field_names s.
Proof.
  destruct c; simpl perform;
    try (eexists (Return tt), _, _, [];
         split; [reflexivity|]; rewrite !app_nil_r; by split_and!).
  - rewrite /FluentBit.WriteHeader /_Connect /mbind /M_bind /get_self /=.
    destruct (_host s), (_port s);
      eexists _, _, _, []; (split; [reflexivity|]);
      rewrite !app_nil_r; by split_and!.
  - destruct (WriteFieldValues_books s w field_values)
      as (r & s' & w' & new & Hrun & ? & ? & ? & ? & ? & ?).
    exists r, s', w', new. by split_and!.
  - destruct (_FlushEvents_books s w)
      as (r & s' & w' & new & Hrun & ? & Hacc & ? & ? & ? & ?).
    exists r, s', w', new. rewrite app_nil_r. by split_and!.
Qed.

(** X1: in whatever order the public methods are called, and whether or
    not calls raise, the counter stays equal to the length of the buffer,
    no request is ever taken back and none is empty, and the requests and
    the buffer together hold exactly one document more per call of
    [WriteFieldValues]. *)
Theorem calls_keep_the_books (calls : list call) (s : SharedFluentBit.t)
    (w : world) :
  coherent s →
  ∃ s' w' docs new,
    perform_all calls s w = (s', w')
    ∧ coherent s'
    ∧ accepted s' w' = accepted s w ++ docs
    ∧ length docs = length (filter (λ c, is_write c = true) calls)
    ∧ posted w' = posted w ++ new
    ∧ Forall (λ q, json q ≠ []) new.
Proof.
  revert s w. induction calls as [|c rest IH]; intros s w Hcoh.
  - exists s, w, [], []. rewrite !app_nil_r. by split_and!.
  - destruct (perform_books c s w)
      as (r & s1 & w1 & new1 & Hrun & Hcoh1 & Hacc1 & Hposted1 & Hnew1 & _).
    destruct (IH s1 w1 (Hcoh1 Hcoh))
      as (s' & w' & docs & new & Hall & Hcoh' & Hacc & Hlen & Hposted & Hnew).
    simpl perform_all. rewrite Hrun.
    eexists s', w', (_ ++ docs), (new1 ++ new). split; [done|].
    split; [done|]. split; [by rewrite Hacc Hacc1 -app_assoc|].
    split_and!.
    + rewrite length_app Hlen. by destruct c.
    + by rewrite Hposted Hposted1 app_assoc.
    + by apply Forall_app.
Qed.

End SessionFacts.

(** ** More on buffering: the end of the stream and the edges *)

Module DeliveryFacts.
Import SharedFluentBit Spec EncodableFacts FlushFacts BufferFacts Session
  SessionFacts.

(** With the port set a call of [WriteFieldValues] with a document the
    encoder takes returns. *)
Lemma WriteFieldValues_returns (s : SharedFluentBit.t) (w : world)
    (d : document) (port : Z) :
  _port s = Some port →
  encodable (_event_documents s) →
  document_encodable d = true →
  ∃ s' w' new,
    FluentBit.WriteFieldValues d s w = (Return tt, s', w')
    ∧ (coherent s → coherent s')
    ∧ accepted s' w' = accepted s w ++ [stamped s d]
    ∧ posted w' = posted w ++ new
    ∧ _port s' = Some port
    ∧ _index_name s' = _index_name s
    ∧ _flush_interval s' = _flush_interval s
    ∧ lists w' = lists w
    ∧ encodable (_event_documents s').
Proof.
  intros Hport Hbuf Hd.
  destruct (decide (_number_of_buffered_events s + 1 ≤ _flush_interval s))
    as [Hle|Hgt].
  - rewrite WriteFieldValues_below //. eexists _, _, []. split; [done|].
    rewrite app_nil_r. split_and!; try done.
    + rewrite /coherent /= length_app /=. lia.
    + by rewrite /accepted /= app_assoc.
    + by apply encodable_snoc, document_encodable_stamped.
  - destruct (WriteFieldValues_above s w d port) as [entry Hrun];
      [done|lia|done|done|].
    rewrite Hrun. eexists _, _, [_]. split; [done|]. split_and!; try done.
    + by rewrite /accepted /= map_app concat_app /= !app_nil_r app_assoc.
    + constructor.
Qed.

Lemma write_all_returns (port : Z) (records : list document) :
  encodable records →
  ∀ (s : SharedFluentBit.t) (w : world),
    _port s = Some port →
    encodable (_event_documents s) →
    ∃ s' w' new,
      write_all records s w = (Return tt, s', w')
      ∧ (coherent s → coherent s')
      ∧ accepted s' w' = accepted s w ++ map (stamped s) records
      ∧ posted w' = posted w ++ new
      ∧ _port s' = Some port
      ∧ lists w' = lists w
      ∧ encodable (_event_documents s').
Proof.
  induction 1 as [|d rest Hd Hrest IH]; intros s w Hport Hbuf.
  - exists s, w, []. rewrite /= !app_nil_r. by split_and!.
  - destruct (WriteFieldValues_returns s w d port Hport Hbuf Hd)
      as (s1 & w1 & new1 & Hrun & Hcoh1 & Hacc1 & Hposted1 & Hport1 & Hidx
          & _ & Hl1 & Hbuf1).
    destruct (IH s1 w1 Hport1 Hbuf1)
      as (s' & w' & new & Hall & Hcoh & Hacc & Hposted & Hport' & Hl & Hbuf').
    exists s', w', (new1 ++ new). simpl write_all.
    rewrite /mbind /M_bind Hrun Hall.
    split; [done|]. split_and!; try done.
    + by intros ?; apply Hcoh, Hcoh1.
    + rewrite Hacc Hacc1 -app_assoc /=. do 2 f_equal.
      apply map_ext. intros d'. by rewrite /stamped Hidx.
    + by rewrite Hposted Hposted1 app_assoc.
    + by rewrite Hl.
Qed.

(** X2: on a sink with the port set, writing any records the JSON encoder
    takes and closing never raises and leaves the buffer empty and the
    counter at 0; the requests issued on the way hold what was buffered
    before and then one document per record, each exactly once and in
    order, whatever the flush interval is and whatever the network
    answers; closing once more does nothing. *)
Theorem write_then_close_posts_everything_once (port : Z)
    (records : list document) (s : SharedFluentBit.t) (w : world) :
  _port s = Some port →
  coherent s →
  Forall (λ d, document_encodable d = true) (_event_documents s) →
  Forall (λ d, document_encodable d = true) records →
  ∃ s' w' new,
    (write_all records;; Close) s w = (Return tt, s', w')
    ∧ _event_documents s' = []
    ∧ _number_of_buffered_events s' = 0
    ∧ posted w' = posted w ++ new
    ∧ concat (map json new) =
        _event_documents s ++ map (stamped s) records
    ∧ Close s' w' = (Return tt, s', w').
Proof.
  intros Hport Hcoh Hbuf Hrecords.
  destruct (write_all_returns port records Hrecords s w Hport Hbuf)
    as (s1 & w1 & new1 & Hall & Hcoh1 & Hacc1 & Hposted1 & Hport1 & _ & Hbuf1).
  rewrite /mbind /M_bind Hall.
  destruct (_event_documents s1) as [|d ds] eqn:Hdocs.
  - rewrite /Close _FlushEvents_empty //.
    exists s1, w1, new1. split; [done|]. split; [done|].
    split; [by rewrite (Hcoh1 Hcoh) Hdocs|]. split; [done|].
    split; [|by rewrite _FlushEvents_empty].
    revert Hacc1.
    rewrite /accepted Hdocs Hposted1 map_app concat_app app_nil_r -!app_assoc.
    by intros ?%app_inv_head.
  - destruct (_FlushEvents_run s1 w1 port Hport1) as (entry & Hrun & _);
      [by rewrite Hdocs|by rewrite Hdocs|].
    rewrite /Close Hrun. eexists _, _, (new1 ++ [_]).
    split; [done|]. split; [done|]. split; [done|].
    split; [by rewrite /= Hposted1 -app_assoc|].
    split; [|by rewrite _FlushEvents_empty].
    revert Hacc1.
    rewrite /accepted Hposted1 !map_app !concat_app /= app_nil_r -!app_assoc.
    by intros ?%app_inv_head.
Qed.

(** X3: with a flush interval of 0 or less nothing stays in the buffer:
    every call of [WriteFieldValues] with a document the JSON encoder takes
    issues a request of its own with that one document. *)
Theorem nonpositive_interval_posts_every_document (port : Z)
    (records : list document) (s : SharedFluentBit.t) (w : world) :
  _flush_interval s ≤ 0 →
  _port s = Some port →
  _event_documents s = [] →
  _number_of_buffered_events s = 0 →
  Forall (λ d, document_encodable d = true) records →
  ∃ s' w' new,
    write_all records s w = (Return tt, s', w')
    ∧ _event_documents s' = []
    ∧ _number_of_buffered_events s' = 0
    ∧ posted w' = posted w ++ new
    ∧ map json new = map (λ d, [stamped s d]) records.
Proof.
  intros Hint Hport Hdocs Hcount Hrecords. revert s w Hint Hport Hdocs Hcount.
  induction Hrecords as [|d rest Hd Hrest IH];
    intros s w Hint Hport Hdocs Hcount.
  - exists s, w, []. rewrite app_nil_r. by split_and!.
  - destruct (WriteFieldValues_above s w d port) as [entry Hrun];
      [done|lia|by rewrite Hdocs; constructor|done|].
    set (q := {| url := _ |}) in Hrun.
    destruct (IH (reset_buffer s) (after_post w q entry))
      as (s' & w' & new & Hall & Hdocs' & Hcount' & Hposted & Hjson);
      try done.
    exists s', w', (q :: new). simpl write_all.
    rewrite /mbind /M_bind Hrun Hall. split; [done|].
    split_and!; try done.
    + by rewrite Hposted /= -app_assoc.
    + by rewrite /= Hjson Hdocs.
Qed.

(** X4: a call of [WriteFieldValues] that has to flush while the port is
    not set raises [TypeError] without issuing a request, but the document
    is in the buffer; once the server information is set, [Close] sends
    the whole buffer in one request, provided the JSON encoder takes the
    documents. *)
Theorem unset_port_keeps_the_documents (s : SharedFluentBit.t) (w : world)
    (d : document) :
  _port s = None →
  _flush_interval s < _number_of_buffered_events s + 1 →
  ∃ s1,
    FluentBit.WriteFieldValues d s w = (Raise TypeError, s1, w)
    ∧ _event_documents s1 = _event_documents s ++ [stamped s d]
    ∧ (Forall (λ d, document_encodable d = true) (_event_documents s) →
       document_encodable d = true →
       ∀ server port, ∃ s2 w2 q,
         (SetServerInformation server port;; Close) s1 w = (Return tt, s2, w2)
         ∧ posted w2 = posted w ++ [q]
         ∧ json q = _event_documents s ++ [stamped s d]
         ∧ _event_documents s2 = []).
Proof.
  intros Hport Hlt.
  rewrite /FluentBit.WriteFieldValues /mbind /M_bind /get_self /put_self /=.
  rewrite stamped_eq.
  destruct (Z.ltb_spec (_flush_interval s) (_number_of_buffered_events s + 1));
    [|lia].
  set (s1 := with_number_of_buffered_events _ _).
  rewrite _FlushEvents_no_port //.
  { rewrite /s1 /=. by destruct (_event_documents s). }
  exists s1. split; [done|]. split; [done|].
  intros Hbuf Hd server port.
  rewrite /SetServerInformation /mbind /M_bind /get_self /put_self /log /=.
  set (s2 := with_server _ _ _). set (w2 := {| lists := _ |}).
  destruct (_FlushEvents_run s2 w2 port) as (entry & Hrun & _); [done| | |].
  { rewrite /s2 /=. by destruct (_event_documents s). }
  { rewrite /s2 /=. by apply encodable_snoc, document_encodable_stamped. }
  rewrite /Close Hrun. by eexists _, _, _.
Qed.

(** X5: [WriteHeader] opens no connection: with host and port set it only
    logs the configured server at debug level, otherwise it raises
    [TypeError]; in both cases the sink is left as it is and no request is
    issued. *)
Theorem WriteHeader_only_logs (s : SharedFluentBit.t) (w : world) :
  (∀ host port, _host s = Some host → _port s = Some port →
     FluentBit.WriteHeader s w =
       (Return tt, s,
        after_logging w
          [{| levelname := DEBUG;
              msg := "Configured Fluent Bit server: " +:+ host +:+ " port: "
                     +:+ pretty port |}]))
  ∧ (_host s = None ∨ _port s = None →
     FluentBit.WriteHeader s w = (Raise TypeError, s, w)).
Proof.
  rewrite /FluentBit.WriteHeader /_Connect /mbind /M_bind /get_self /=.
  split.
  - by intros host port -> ->.
  - intros [->| ->]; [done|]. by destruct (_host s).
Qed.

(** X6: the document [WriteFieldValues] takes agrees with the one it was
    given on every key but [__ts_searchindex], and is the very same
    document when no index name is set. *)
Theorem WriteFieldValues_changes_reserved_key_only (s : SharedFluentBit.t)
    (w : world) (d : document) :
  ∃ r s' w' d',
    FluentBit.WriteFieldValues d s w = (r, s', w')
    ∧ accepted s' w' = accepted s w ++ [d']
    ∧ (∀ k, k ≠ "__ts_searchindex" → PyDict.get k d' = PyDict.get k d)
    ∧ (∀ k, k ∈ PyDict.keys d → k ∈ PyDict.keys d')
    ∧ (truthy_str (_index_name s) = false → d' = d).
Proof.
  destruct (WriteFieldValues_books s w d)
    as (r & s' & w' & new & Hrun & _ & Hacc & _).
  exists r, s', w', (stamped s d). split; [done|]. split; [done|].
  rewrite /stamped. destruct (_index_name s) as [[|a n]|]; split_and!; try done.
  - intros k Hne. by rewrite PyDictFacts.get_set_ne.
  - intros k Hin. apply PyDictFacts.elem_of_keys_set. by right.
Qed.

End DeliveryFacts.

(** ** A document the JSON encoder refuses *)

Module RefusedDocumentFacts.
Import SharedFluentBit Spec EncodableFacts FlushFacts BufferFacts Session.





End RefusedDocumentFacts.

(** ** More on the Timesketch variant *)

Module TimesketchBufferFacts.
Import SharedFluentBit Spec EncodableFacts FlushFacts BufferFacts Session.
Import FluentBitTimesketch.

Lemma WriteFieldValues_as_inherited
    (s : FluentBitTimesketch.t) (w : world) (d : document) :
  WriteFieldValues d s w =
  inherited (FluentBit.WriteFieldValues (with_timeline s d)) s w.
Proof.
  rewrite /WriteFieldValues /FluentBit.WriteFieldValues /inherited /lift
    /with_timeline /mbind /M_bind /get_self /put_self /=.
  destruct (_ <? _); [|done].
  by destruct (_FlushEvents _ w) as [[r b] w'].
Qed.

(** X7: the Timesketch [WriteFieldValues] is the [WriteFieldValues] of
    [FluentBitOutputModule] run on the shared part of the sink with the
    document that has the timeline identifier set: same result, same
    buffer, same requests, same log; the timeline identifier of the sink
    is not touched. *)
Theorem timesketch_write_is_base_write_after_stamp
    (s : FluentBitTimesketch.t) (w : world) (d : document) :
  ∃ r b' w',
    FluentBit.WriteFieldValues
      (PyDict.set "__ts_timeline_id"
         (match _timeline_identifier s with
          | Some identifier => VInt identifier
          | None => VNone
          end) d) (shared s) w = (r, b', w')
    ∧ WriteFieldValues d s w =
        (r, {| shared := b'; _timeline_identifier := _timeline_identifier s |},
         w').
Proof.
  rewrite WriteFieldValues_as_inherited /inherited /lift /with_timeline.
  destruct (FluentBit.WriteFieldValues _ (shared s) w) as [[r b'] w'].
  by exists r, b', w'.
Qed.

Lemma write_all_ts_is_write_all (records : list document) :
  ∀ (s : FluentBitTimesketch.t) (w : world),
    write_all_ts records s w =
    inherited (write_all (map (with_timeline s) records)) s w.
Proof.
  induction records as [|d rest IH]; intros s w.
  - by destruct s.
  - simpl write_all_ts. simpl write_all.
    rewrite /mbind /M_bind WriteFieldValues_as_inherited.
    rewrite /inherited /lift.
    destruct (FluentBit.WriteFieldValues (with_timeline s d) (shared s) w)
      as [[[[]|e] b1] w1]; [|done].
    rewrite IH /inherited /lift /=.
    by destruct (write_all _ b1 w1) as [[r b2] w2].
Qed.

(** X8: the buffer law holds for the Timesketch sink as well: with a flush
    interval [N >= 1], the port set, an empty buffer and records the JSON
    encoder takes, after the k-th record the buffer holds [k mod (N+1)]
    documents, every request carries [N+1] documents, no call raises, the
    timeline identifier is not touched, and requests and buffer hold the
    stamped records in order. *)
Theorem timesketch_flush_when_count_exceeds_interval
    (N port : Z) (records : list document) (s : FluentBitTimesketch.t)
    (w : world) :
  1 ≤ N →
  _flush_interval (shared s) = N →
  _port (shared s) = Some port →
  _event_documents (shared s) = [] →
  _number_of_buffered_events (shared s) = 0 →
  Forall (λ d, document_encodable d = true) records →
  ∃ s' w' batches,
    write_all_ts records s w = (Return tt, s', w')
    ∧ _timeline_identifier s' = _timeline_identifier s
    ∧ Z.of_nat (length (_event_documents (shared s'))) =
        Z.of_nat (length records) `mod` (N + 1)
    ∧ _number_of_buffered_events (shared s') =
        Z.of_nat (length (_event_documents (shared s')))
    ∧ posted w' = posted w ++ batches
    ∧ Z.of_nat (length batches) = Z.of_nat (length records) `div` (N + 1)
    ∧ Forall (λ q, Z.of_nat (length (json q)) = N + 1) batches
    ∧ concat (map json batches) ++ _event_documents (shared s') =
        map (λ d, stamped (shared s) (with_timeline s d)) records.
Proof.
  intros HN Hint Hport Hdocs Hcount Hrecords.
  assert (encodable (map (with_timeline s) records)) as Hstamped.
  { apply Forall_map. eapply Forall_impl; [exact Hrecords|].
    intros d Hd. apply document_encodable_set; [|done].
    by destruct (_timeline_identifier s). }
  destruct (write_all_run N port (map (with_timeline s) records) ltac:(lia)
              Hstamped (shared s) w)
    as (b' & w' & batches & Hrun & _ & Hcoh & Hmod & Hposted & Hdiv & Hall
        & Hacc); try done.
  { by rewrite /coherent Hdocs Hcount. }
  { rewrite Hdocs /=. lia. }
  { rewrite Hdocs. constructor. }
  rewrite Hdocs length_map /= ?Z.add_0_l in Hmod Hdiv Hacc.
  exists (with_shared b' s), w', batches.
  rewrite write_all_ts_is_write_all /inherited /lift Hrun.
  split; [done|]. split_and!; try done.
  by rewrite Hacc map_map.
Qed.

End TimesketchBufferFacts.

(** ** More on the field-name list *)

Module FieldNamesFacts.
Import SharedFluentBit Spec Session SessionFacts.

Lemma list_content_alter (w : world) (l l' : loc) (names : list string) :
  ∃ added,
    default [] (alter (λ old, old ++ names) l' (lists w) !! l)
    = list_content w l ++ added.
Proof.
  rewrite /list_content lookup_alter.
  destruct (decide (l' = l)) as [->|Hne].
  - destruct (lists w !! l) as [old|]; simpl.
    + by exists names.
    + by exists [].
  - exists []. by rewrite app_nil_r.
Qed.

Lemma perform_lists (c : call) (s : SharedFluentBit.t) (w : world) (l : loc) :
  ∃ r s' w' added,
    perform c s w = (r, s', w')
    ∧ _field_names s' = _field_names s
    ∧ list_content w' l = list_content w l ++ added.
Proof.
  destruct c; simpl perform;
    try (eexists (Return tt), _, _, [];
         split; [reflexivity|]; rewrite app_nil_r; by split).
  - destruct (list_content_alter w l (_field_names s) field_names)
      as [added Hadded].
    eexists (Return tt), _, _, added. split; [reflexivity|]. by split.
  - destruct (list_content_alter w l (_field_names s)
                (PyDict.keys (PyDict.of_pairs field_names_and_values)))
      as [added Hadded].
    eexists (Return tt), _, _, added. split; [reflexivity|]. by split.
  - rewrite /FluentBit.WriteHeader /_Connect /mbind /M_bind /get_self /=.
    destruct (_host s), (_port s);
      eexists _, _, _, []; (split; [reflexivity|]);
      rewrite app_nil_r; by split.
  - destruct (WriteFieldValues_books s w field_values)
      as (r & s' & w' & new & Hrun & _ & _ & _ & _ & Hl & Hf).
    exists r, s', w', []. rewrite app_nil_r /list_content Hl. by split_and!.
  - destruct (_FlushEvents_books s w)
      as (r & s' & w' & new & Hrun & _ & _ & _ & _ & Hl & Hf).
    exists r, s', w', []. rewrite app_nil_r /list_content Hl. by split_and!.
Qed.

(** X9: no call removes, replaces or reorders a field name: after any
    calls the sink still refers to the same list object, and every list in
    the store is what it was with names added at the end; in particular
    the eight default names stay the first eight field names of a sink
    made in the initial world. *)
Theorem field_names_only_grow (calls : list call) (s : SharedFluentBit.t)
    (w : world) :
  ∃ s' w',
    perform_all calls s w = (s', w')
    ∧ _field_names s' = _field_names s
    ∧ (∀ l, ∃ added, list_content w' l = list_content w l ++ added)
    ∧ (list_content w (_field_names s) = default_field_names →
       take 8 (list_content w' (_field_names s')) = default_field_names).
Proof.
  assert (∃ s' w',
            perform_all calls s w = (s', w')
            ∧ _field_names s' = _field_names s
            ∧ (∀ l, ∃ added, list_content w' l = list_content w l ++ added))
    as (s' & w' & Hrun & Hf & Hl).
  { revert s w. induction calls as [|c rest IH]; intros s w.
    - exists s, w. split; [done|]. split; [done|].
      intros l. exists []. by rewrite app_nil_r.
    - simpl perform_all.
      destruct (perform c s w) as [[r s1] w1] eqn:Hperf.
      destruct (IH s1 w1) as (s' & w' & Hrun & Hf & Hl).
      exists s', w'. split; [done|].
      destruct (perform_lists c s w (_field_names s))
        as (r0 & s0 & w0 & _ & Hperf0 & Hf0 & _).
      rewrite Hperf in Hperf0. injection Hperf0 as <- <- <-.
      split; [by rewrite Hf Hf0|].
      intros l. destruct (Hl l) as [added2 Hadded2].
      destruct (perform_lists c s w l) as (r0 & s0 & w0 & added1 & Hperf0 & _ & H1).
      rewrite Hperf in Hperf0. injection Hperf0 as <- <- <-.
      exists (added1 ++ added2). by rewrite Hadded2 H1 app_assoc. }
  exists s', w'. split; [done|]. split; [done|]. split; [done|].
  intros Hdefault. destruct (Hl (_field_names s)) as [added Hadded].
  by rewrite Hf Hadded Hdefault.
Qed.

End FieldNamesFacts.

(** ** More on the field resolver *)

Module ResolverMoreFacts.
Section facts.
Import SharedFluentBit Spec Resolver ResolverSpec SanitizeFacts ResolverFacts.
Context {OutputMediator EventObject EventTag : Type}.
Variable GetFormattedField :
  OutputMediator -> string -> EventObject -> option EventData ->
  option EventDataStream -> option EventTag -> value.
Variable WriteSerialized : value -> option string.

Local Arguments String.eqb : simpl never.
Local Arguments _SanitizeField : simpl never.
Local Arguments substitute : simpl never.
Local Arguments sanitized : simpl never.
Local Arguments resolved_value : simpl never.

Lemma _SanitizeField_warns (dt name : string) (field : value)
    (s : SharedFluentBit.t) (w : world) :
  ∃ entries,
    _SanitizeField dt name field s w =
      (Return (sanitized field), s, after_logging w entries)
    ∧ Forall (λ entry, levelname entry = WARNING) entries.
Proof.
  destruct field;
    try (exists []; split; [by rewrite after_logging_nil|constructor]).
  eexists [_]. split; [reflexivity|]. by repeat constructor.
Qed.

Lemma resolve_fields_frame (om : OutputMediator) (event : EventObject)
    (event_data : option EventData) (eds : option EventDataStream)
    (tag : option EventTag) (s : SharedFluentBit.t)
    (items : list (string * value)) :
  ∀ (fv : document) (w : world),
    ∃ r entries,
      resolve_fields GetFormattedField WriteSerialized om event event_data
        eds tag items fv s w = (r, s, after_logging w entries)
      ∧ Forall (λ entry, levelname entry = WARNING) entries.
Proof.
  induction items as [|[name v] rest IH]; intros fv w.
  - exists (Return fv), []. split; [by rewrite after_logging_nil|constructor].
  - assert (∀ field_value,
              ∃ r entries,
                (self ← get_self;
                 data_type ← match event_data with
                             | Some event_data => mret (data_type event_data)
                             | None => raise AttributeError
                             end;
                 sanitized ← _SanitizeField data_type name
                   (substitute (_custom_fields self) name field_value);
                 resolve_fields GetFormattedField WriteSerialized om event
                   event_data eds tag rest (PyDict.set name sanitized fv)) s w
                = (r, s, after_logging w entries)
                ∧ Forall (λ entry, levelname entry = WARNING) entries)
      as Hstore.
    { intros field_value.
      rewrite /mbind /M_bind /get_self /mret /M_ret /raise. cbv beta iota.
      destruct event_data as [ed|].
      - destruct (_SanitizeField_warns (data_type ed) name
                    (substitute (_custom_fields s) name field_value) s w)
          as (e0 & Hsan & He0).
        rewrite Hsan.
        destruct (IH (PyDict.set name
                        (sanitized (substitute (_custom_fields s) name
                                      field_value)) fv) (after_logging w e0))
          as (r & e1 & Hrun & He1).
        exists r, (e0 ++ e1). rewrite Hrun after_logging_app.
        split; [done|]. by apply Forall_app.
      - exists (Raise AttributeError), [].
        split; [by rewrite after_logging_nil|constructor]. }
    simpl. destruct (String.eqb name "path_spec").
    + destruct (WriteSerialized v) as [ser|]; [apply Hstore|apply IH].
    + apply Hstore.
Qed.

(** X10: [GetFieldValues] only reads: for every record, with or without
    event data, whether it returns or raises, the sink is left as it is,
    the store of field names and the requests are untouched, and all it
    adds to the log are warnings. *)
Theorem GetFieldValues_only_reads (om : OutputMediator) (event : EventObject)
    (event_data : option EventData) (eds : option EventDataStream)
    (tag : option EventTag) (s : SharedFluentBit.t) (w : world) :
  ∃ r entries,
    GetFieldValues GetFormattedField WriteSerialized om event event_data eds
      tag s w = (r, s, after_logging w entries)
    ∧ Forall (λ entry, levelname entry = WARNING) entries
    ∧ posted (after_logging w entries) = posted w
    ∧ lists (after_logging w entries) = lists w.
Proof.
  rewrite /GetFieldValues /mbind /M_bind /get_self /get_world /of_outcome.
  cbv beta iota.
  destruct (event_values_of _ event_data eds) as [ev|e].
  - destruct (resolve_fields_frame om event event_data eds tag s
                (PyDict.items ev) PyDict.empty w) as (r & entries & Hrun & Hw).
    exists r, entries. by rewrite Hrun.
  - exists (Raise e), []. rewrite after_logging_nil.
    split; [done|]. split; [constructor|done].
Qed.

(** X11: for a record with event data, no value of the returned document
    is [None] and none is a bytes value. *)
Theorem document_values_are_not_None_nor_bytes (om : OutputMediator)
    (event : EventObject) (ed : EventData) (eds : option EventDataStream)
    (tag : option EventTag) (s : SharedFluentBit.t) (w : world) :
  Forall (λ kv, kv.1 ≠ "") (attributes ed) →
  ∃ doc w',
    GetFieldValues GetFormattedField WriteSerialized om event (Some ed) eds
      tag s w = (Return doc, s, w')
    ∧ ∀ k v, PyDict.get k doc = Some v →
             is_None v = false ∧ is_bytes v = false.
Proof.
  intros Hnames.
  destruct (GetFieldValues_run GetFormattedField WriteSerialized om event ed
              eds tag s w Hnames)
    as (ev & doc & entries & _ & Hrun & _ & Hget).
  exists doc, (after_logging w entries). split; [done|].
  intros k v. rewrite Hget.
  assert (∀ x, is_None (sanitized (substitute (_custom_fields s) k x)) = false
               ∧ is_bytes (sanitized (substitute (_custom_fields s) k x))
                 = false) as Hsub.
  { intros x. rewrite /substitute.
    destruct (is_None x && PyDict.mem k (_custom_fields s)).
    - by destruct (default VNone (PyDict.get k (_custom_fields s))).
    - by destruct x. }
  destruct (PyDict.get k ev) as [v0|]; [|done].
  rewrite /resolved_value. destruct (String.eqb k "path_spec").
  - destruct (WriteSerialized v0); [|done]. intros [= <-]. apply Hsub.
  - intros [= <-]. apply Hsub.
Qed.

Lemma get_collect_stream_not_in (k : string) (attrs : list (string * value)) :
  k ∉ map fst attrs →
  ∀ ev : PyDict.t value,
    PyDict.get k (collect_stream attrs ev) = PyDict.get k ev.
Proof.
  induction attrs as [|[name v] rest IH]; [done|].
  rewrite /= not_elem_of_cons. intros [Hne Hnin] ev.
  rewrite /collect_stream /= in IH |- *.
  by rewrite IH // PyDictFacts.get_set_ne.
Qed.

Lemma get_fill_missing (k : string) (names : list string) :
  ∀ (ev : PyDict.t value) (v : value),
    PyDict.get k ev = Some v →
    PyDict.get k (fill_missing names ev) = Some v.
Proof.
  induction names as [|name rest IH]; [done|].
  intros ev v Hget. rewrite /fill_missing /= in IH |- *.
  destruct (PyDict.mem name ev) eqn:Hmem; [by apply IH|].
  apply IH. rewrite PyDictFacts.get_set_ne //.
  intros ->. by rewrite /PyDict.mem Hget in Hmem.
Qed.

(** X12: when the event data stream has a [path_spec] attribute, the
    [path_spec] of the document is the serialization of that attribute,
    whatever [path_spec] the event data has, and there is none when that
    serialization fails. *)
Theorem path_spec_is_the_one_of_the_stream (om : OutputMediator)
    (event : EventObject) (ed : EventData) (st : EventDataStream)
    (tag : option EventTag) (s : SharedFluentBit.t) (w : world)
    (before after : list (string * value)) (path_spec : value) :
  Forall (λ kv, kv.1 ≠ "") (attributes ed) →
  stream_attributes st = before ++ ("path_spec", path_spec) :: after →
  "path_spec" ∉ map fst after →
  ∃ doc w',
    GetFieldValues GetFormattedField WriteSerialized om event (Some ed)
      (Some st) tag s w = (Return doc, s, w')
    ∧ PyDict.get "path_spec" doc = VStr <$> WriteSerialized path_spec.
Proof.
  intros Hnames Hattrs Hlast.
  destruct (GetFieldValues_run GetFormattedField WriteSerialized om event ed
              (Some st) tag s w Hnames)
    as (ev & doc & entries & Hev & Hrun & _ & Hget).
  exists doc, (after_logging w entries). split; [done|].
  rewrite Hget.
  assert (PyDict.get "path_spec" ev = Some path_spec) as ->.
  { revert Hev. rewrite /event_values_of.
    destruct (collect_event_data (attributes ed) PyDict.empty) as [ev1|];
      [|done].
    intros [= <-]. apply get_fill_missing.
    rewrite Hattrs /collect_stream fold_left_app /=.
    fold (collect_stream after
            (PyDict.set "path_spec" path_spec
               (fold_left (λ d kv, PyDict.set kv.1 kv.2 d) before ev1))).
    by rewrite get_collect_stream_not_in // PyDictFacts.get_set_eq. }
  rewrite /resolved_value /=. by destruct (WriteSerialized path_spec).
Qed.

End facts.
End ResolverMoreFacts.

(** ** More on the sanitizer *)

Module SanitizeMoreFacts.
Import SharedFluentBit Spec.

(** X13: a bytes value is always reported with one warning that names the
    attribute and the data type, also when nothing is lost; what comes
    back is text, and for well-formed UTF-8 it is the text with exactly
    those bytes. *)
Theorem sanitize_bytes_warns_and_keeps_well_formed (dt name : string)
    (bs : list byte) (s : SharedFluentBit.t) (w : world) :
  ∃ text,
    _SanitizeField dt name (VBytes bs) s w =
      (Return (VStr text), s,
       after_logging w
         [{| levelname := WARNING;
             msg := "Found bytes value for attribute: " +:+ name
                    +:+ " of data type: " +:+ dt
                    +:+ ". Value was converted to UTF-8: "
                    +:+ dquote +:+ text +:+ dquote |}])
    ∧ Utf8.well_formed (Utf8.encode text) = true
    ∧ (Utf8.well_formed bs = true → Utf8.encode text = bs).
Proof.
  exists (Utf8.decode_replace bs). split; [reflexivity|]. split.
  - apply Utf8Facts.decode_replace_well_formed.
  - apply Utf8Facts.decode_replace_of_well_formed.
Qed.

End SanitizeMoreFacts.

(** ** The command line helpers *)

Module ArgumentsHelperFacts.
Section facts.
Import SharedFluentBit Spec ArgumentsHelper.
Context {Options : Type}.
Variable _ParseStringOption : Options -> string -> result (option string).
Variable _ParseNumericOption : Options -> string -> result (option Z).
Variable _ParseStringOption_default :
  Options -> string -> string -> result string.
Variable _ParseNumericOption_default : Options -> string -> Z -> result Z.

Abbreviation ParseOptions :=
  (ParseOptions _ParseStringOption _ParseStringOption_default
     _ParseNumericOption_default).
Abbreviation ParseOptions_ts :=
  (ParseOptions_ts _ParseStringOption _ParseNumericOption
     _ParseStringOption_default _ParseNumericOption_default).

(** The shared part of the module after the setters of [ParseOptions]. *)
Lemma ParseOptions_run (options : Options) (om : output_module) (w : world)
    (s : SharedFluentBit.t) (index_name prefix : option string)
    (flush_interval port : Z) (server : string) :
  shared_of om = Some s →
  _ParseStringOption options "index_name" = Done index_name →
  _ParseNumericOption_default options "flush_interval" 1000
    = Done flush_interval →
  _ParseStringOption options "fluentbit_url_prefix" = Done prefix →
  _ParseStringOption_default options "server" "localhost" = Done server →
  _ParseNumericOption_default options "port" 9880 = Done port →
  ∃ om' entries,
    ParseOptions options om w = (Done tt, om', after_logging w entries)
    ∧ shared_of om' =
        Some (let s1 :=
                with_url_prefix prefix
                  (with_flush_interval flush_interval
                     (with_server (Some server) (Some port) s)) in
              if truthy_str index_name then with_index_name index_name s1
              else s1)
    ∧ timeline_identifier_of om' = timeline_identifier_of om
    ∧ is_fluentbit_timesketch om' = is_fluentbit_timesketch om
    ∧ Forall (λ entry, levelname entry = DEBUG) entries.
Proof.
  intros Hs Hindex Hflush Hprefix Hserver Hport.
  rewrite /ArgumentsHelper.ParseOptions /mbind /C_bind /get_module /of_result
    /_DEFAULT_FLUSH_INTERVAL /_DEFAULT_SERVER /_DEFAULT_PORT.
  cbv beta iota.
  destruct om as [sink|sink|name]; [| |done]; injection Hs as <-;
    rewrite /= Hindex Hflush Hprefix Hserver Hport /=;
    (destruct index_name as [[|a n]|];
     [eexists _, [_; _; _]|eexists _, [_; _; _; _]|eexists _, [_; _; _]]);
    (split; [rewrite /after_logging /call_shared /= -?app_assoc /=; reflexivity|]);
    split_and!; try done; by repeat constructor.
Qed.

(** X14: a helper handed a module of the wrong class raises
    [BadConfigObject] and leaves the module and the world as they are; the
    Timesketch helper does so for a plain Fluent Bit module as well, which
    is then not configured at all. *)
Theorem wrong_module_is_rejected_untouched (options : Options)
    (om : output_module) (w : world) :
  (is_shared_fluentbit om = false →
   ParseOptions options om w =
     (Failed (BadConfigObject
                "Output module is not an instance of SharedFluentBitOutputModule"),
      om, w))
  ∧ (is_fluentbit_timesketch om = false →
     ParseOptions_ts options om w =
       (Failed (BadConfigObject
                  "Output module is not an instance of FluentBitTimesketchOutputModule"),
        om, w)).
Proof.
  rewrite /ArgumentsHelper.ParseOptions /ArgumentsHelper.ParseOptions_ts
    /mbind /C_bind /get_module /=.
  split; by intros ->.
Qed.

(** X15: when the five options are valid, [ParseOptions] returns and the
    sink has the server, port, flush interval and URL prefix of the
    options; the index name is set only when the option is a non-empty
    string and is otherwise left as it was; the buffer, the counter, the
    field names and the custom fields are not touched, no request is
    issued and only debug records are logged. *)
Theorem ParseOptions_configures_the_sink (options : Options)
    (om : output_module) (w : world)
    (s : SharedFluentBit.t) (index_name prefix : option string)
    (flush_interval port : Z) (server : string) :
  shared_of om = Some s →
  _ParseStringOption options "index_name" = Done index_name →
  _ParseNumericOption_default options "flush_interval" 1000
    = Done flush_interval →
  _ParseStringOption options "fluentbit_url_prefix" = Done prefix →
  _ParseStringOption_default options "server" "localhost" = Done server →
  _ParseNumericOption_default options "port" 9880 = Done port →
  ∃ om' s' w',
    ParseOptions options om w = (Done tt, om', w')
    ∧ shared_of om' = Some s'
    ∧ _host s' = Some server
    ∧ _port s' = Some port
    ∧ _flush_interval s' = flush_interval
    ∧ _url_prefix s' = prefix
    ∧ _index_name s' =
        match index_name with
        | Some (String a n) => Some (String a n)
        | _ => _index_name s
        end
    ∧ _event_documents s' = _event_documents s
    ∧ _number_of_buffered_events s' = _number_of_buffered_events s
    ∧ _field_names s' = _field_names s
    ∧ _custom_fields s' = _custom_fields s
    ∧ posted w' = posted w
    ∧ lists w' = lists w
    ∧ Forall (λ entry, levelname entry = DEBUG) (drop (length (logged w)) (logged w')).
Proof.
  intros Hs Hindex Hflush Hprefix Hserver Hport.
  destruct (ParseOptions_run options om w s index_name prefix flush_interval
              port server Hs Hindex Hflush Hprefix Hserver Hport)
    as (om' & entries & Hrun & Hs' & _ & _ & Hdebug).
  eexists om', _, _. split; [exact Hrun|]. split; [exact Hs'|].
  rewrite /= drop_app_length.
  destruct index_name as [[|a n]|]; by split_and!.
Qed.

(** The setters never fail on a Fluent Bit module. *)
Lemma ParseOptions_fails_early (options : Options) (om om' : output_module)
    (w w' : world) (e : config_error) :
  ParseOptions options om w = (Failed e, om', w') → om' = om ∧ w' = w.
Proof.
  rewrite /ArgumentsHelper.ParseOptions /mbind /C_bind /get_module /of_result.
  cbv beta iota.
  destruct (is_shared_fluentbit om) eqn:Hom; simpl; [|by intros [= _ <- <-]].
  destruct (_ParseStringOption options "index_name") as [index_name|];
    [|by intros [= _ <- <-]].
  destruct (_ParseNumericOption_default options "flush_interval" _)
    as [flush_interval|]; [|by intros [= _ <- <-]].
  destruct (_ParseStringOption options "fluentbit_url_prefix") as [prefix|];
    [|by intros [= _ <- <-]].
  destruct (_ParseStringOption_default options "server" _) as [server|];
    [|by intros [= _ <- <-]].
  destruct (_ParseNumericOption_default options "port" _) as [port|];
    [|by intros [= _ <- <-]].
  destruct om as [sink|sink|name]; [| |done];
    by destruct index_name as [[|a n]|].
Qed.

(** X16: [ParseOptions] validates before it configures: whenever it
    raises, for a wrong module or for an option that does not validate,
    the module and the world are exactly as before the call. *)
Theorem ParseOptions_is_all_or_nothing (options : Options)
    (om om' : output_module) (w w' : world) (e : config_error) :
  ParseOptions options om w = (Failed e, om', w') →
  om' = om ∧ w' = w
  ∧ (is_shared_fluentbit om = false
     ∨ _ParseStringOption options "index_name" = Failed e
     ∨ _ParseNumericOption_default options "flush_interval" 1000 = Failed e
     ∨ _ParseStringOption options "fluentbit_url_prefix" = Failed e
     ∨ _ParseStringOption_default options "server" "localhost" = Failed e
     ∨ _ParseNumericOption_default options "port" 9880 = Failed e).
Proof.
  intros Hfail.
  destruct (ParseOptions_fails_early options om om' w w' e Hfail) as [-> ->].
  split; [done|]. split; [done|]. revert Hfail.
  rewrite /ArgumentsHelper.ParseOptions /mbind /C_bind /get_module /of_result
    /_DEFAULT_FLUSH_INTERVAL /_DEFAULT_SERVER /_DEFAULT_PORT.
  cbv beta iota.
  destruct (is_shared_fluentbit om) eqn:Hom; simpl; [|by left].
  destruct (_ParseStringOption options "index_name") as [index_name|];
    [|intros [= ->]; by right; left].
  destruct (_ParseNumericOption_default options "flush_interval" 1000)
    as [flush_interval|]; [|intros [= ->]; by right; right; left].
  destruct (_ParseStringOption options "fluentbit_url_prefix") as [prefix|];
    [|intros [= ->]; by right; right; right; left].
  destruct (_ParseStringOption_default options "server" "localhost")
    as [server|]; [|intros [= ->]; by right; right; right; right; left].
  destruct (_ParseNumericOption_default options "port" 9880) as [port|];
    [|intros [= ->]; by right; right; right; right; right].
  destruct om as [sink|sink|name]; [| |done];
    by destruct index_name as [[|a n]|].
Qed.

(** X17: the Timesketch helper configures the shared options first: when
    they are valid and [timeline_id] does not validate, it raises with the
    server, port, flush interval and URL prefix already set on the sink
    and the timeline identifier as it was. *)
Theorem ParseOptions_ts_fails_after_the_shared_options (options : Options)
    (sink : FluentBitTimesketch.t) (w : world)
    (index_name prefix : option string)
    (flush_interval port : Z) (server : string) (e : config_error) :
  _ParseStringOption options "index_name" = Done index_name →
  _ParseNumericOption_default options "flush_interval" 1000
    = Done flush_interval →
  _ParseStringOption options "fluentbit_url_prefix" = Done prefix →
  _ParseStringOption_default options "server" "localhost" = Done server →
  _ParseNumericOption_default options "port" 9880 = Done port →
  _ParseNumericOption options "timeline_id" = Failed e →
  ∃ sink' w',
    ParseOptions_ts options (FluentBitTimesketchOutputModule sink) w
      = (Failed e, FluentBitTimesketchOutputModule sink', w')
    ∧ _host (FluentBitTimesketch.shared sink') = Some server
    ∧ _port (FluentBitTimesketch.shared sink') = Some port
    ∧ _flush_interval (FluentBitTimesketch.shared sink') = flush_interval
    ∧ _url_prefix (FluentBitTimesketch.shared sink') = prefix
    ∧ FluentBitTimesketch._timeline_identifier sink' =
        FluentBitTimesketch._timeline_identifier sink.
Proof.
  intros Hindex Hflush Hprefix Hserver Hport Htimeline.
  destruct (ParseOptions_run options (FluentBitTimesketchOutputModule sink) w
              (FluentBitTimesketch.shared sink) index_name prefix
              flush_interval port server)
    as (om' & entries & Hrun & Hs' & Htid & Hts & _); try done.
  destruct om' as [?|sink'|?]; try done.
  rewrite /ArgumentsHelper.ParseOptions_ts /mbind /C_bind /get_module /of_result.
  change (is_fluentbit_timesketch (FluentBitTimesketchOutputModule sink))
    with true.
  change (negb true) with false. cbv beta iota. rewrite Hrun Htimeline.
  exists sink', (after_logging w entries). split; [done|].
  injection Hs' as Hs'. simpl in Htid. rewrite Hs' Htid.
  destruct index_name as [[|a n]|]; by split_and!.
Qed.

(** X18: after the Timesketch helper has parsed valid options, the sink
    has the timeline identifier of the options when that is an integer
    other than 0, and keeps the one it had otherwise; so
    [GetMissingArguments] on a new sink then returns the empty list exactly
    when [timeline_id] was given and is not 0, and [['timeline_id']] when
    the option is missing or 0. *)
Theorem ParseOptions_ts_then_GetMissingArguments (options : Options)
    (sink : FluentBitTimesketch.t) (w : world)
    (index_name prefix : option string)
    (flush_interval port : Z) (server : string) (timeline_id : option Z) :
  _ParseStringOption options "index_name" = Done index_name →
  _ParseNumericOption_default options "flush_interval" 1000
    = Done flush_interval →
  _ParseStringOption options "fluentbit_url_prefix" = Done prefix →
  _ParseStringOption_default options "server" "localhost" = Done server →
  _ParseNumericOption_default options "port" 9880 = Done port →
  _ParseNumericOption options "timeline_id" = Done timeline_id →
  ∃ sink' w',
    ParseOptions_ts options (FluentBitTimesketchOutputModule sink) w
      = (Done tt, FluentBitTimesketchOutputModule sink', w')
    ∧ FluentBitTimesketch._timeline_identifier sink' =
        (if truthy_int timeline_id then timeline_id
         else FluentBitTimesketch._timeline_identifier sink)
    ∧ _port (FluentBitTimesketch.shared sink') = Some port
    ∧ (FluentBitTimesketch._timeline_identifier sink = None →
       FluentBitTimesketch.GetMissingArguments sink' w' =
         (Return (if truthy_int timeline_id then [] else ["timeline_id"]),
          sink', w')).
Proof.
  intros Hindex Hflush Hprefix Hserver Hport Htimeline.
  destruct (ParseOptions_run options (FluentBitTimesketchOutputModule sink) w
              (FluentBitTimesketch.shared sink) index_name prefix
              flush_interval port server)
    as (om' & entries & Hrun & Hs' & Htid & Hts & _); try done.
  destruct om' as [?|sink1|?]; try done.
  injection Hs' as Hs'. simpl in Htid.
  rewrite /ArgumentsHelper.ParseOptions_ts /mbind /C_bind /get_module /of_result.
  change (is_fluentbit_timesketch (FluentBitTimesketchOutputModule sink))
    with true.
  change (negb true) with false. cbv beta iota. rewrite Hrun Htimeline.
  assert (_port (FluentBitTimesketch.shared sink1) = Some port) as Hport1.
  { rewrite Hs'. by destruct index_name as [[|a n]|]. }
  destruct timeline_id as [identifier|]; simpl.
  - destruct (Z.eqb_spec identifier 0) as [->|Hne]; simpl.
    + eexists _, _. split; [done|]. split; [done|]. split; [done|].
      intros Hnone.
      by rewrite /FluentBitTimesketch.GetMissingArguments /mbind /M_bind
           /get_self /= Htid Hnone.
    + eexists _, _. split; [done|]. split; [done|]. split; [done|].
      intros _.
      rewrite /FluentBitTimesketch.GetMissingArguments /mbind /M_bind
        /get_self /=.
      by destruct (Z.eqb_spec identifier 0).
  - eexists _, _. split; [done|]. split; [done|]. split; [done|].
    intros Hnone.
    by rewrite /FluentBitTimesketch.GetMissingArguments /mbind /M_bind
         /get_self /= Htid Hnone.
Qed.

(** X19: a Fluent Bit sink configured by [ParseOptions] with valid
    options takes any records the JSON encoder takes, and [Close], without
    raising, whatever the network answers. *)
Theorem configured_sink_never_raises (options : Options)
    (sink : FluentBit.t) (w : world)
    (index_name prefix : option string)
    (flush_interval port : Z) (server : string) :
  _ParseStringOption options "index_name" = Done index_name →
  _ParseNumericOption_default options "flush_interval" 1000
    = Done flush_interval →
  _ParseStringOption options "fluentbit_url_prefix" = Done prefix →
  _ParseStringOption_default options "server" "localhost" = Done server →
  _ParseNumericOption_default options "port" 9880 = Done port →
  Forall (λ d, document_encodable d = true) (_event_documents sink) →
  ∃ sink' w',
    ParseOptions options (FluentBitOutputModule sink) w
      = (Done tt, FluentBitOutputModule sink', w')
    ∧ ∀ records,
        Forall (λ d, document_encodable d = true) records →
        ∃ sink'' w'',
          (write_all records;; Close) sink' w' = (Return tt, sink'', w'')
          ∧ _event_documents sink'' = [].
Proof.
  intros Hindex Hflush Hprefix Hserver Hport Hbuf.
  destruct (ParseOptions_run options (FluentBitOutputModule sink) w
              sink index_name prefix flush_interval port server)
    as (om' & entries & Hrun & Hs' & _ & Hts & _); try done.
  destruct om' as [sink'|?|?]; try done. injection Hs' as Hs'.
  exists sink', (after_logging w entries). split; [done|].
  assert (_port sink' = Some port) as Hport'.
  { rewrite Hs'. by destruct index_name as [[|a n]|]. }
  assert (encodable (_event_documents sink')) as Hbuf'.
  { rewrite Hs'. by destruct index_name as [[|a n]|]. }
  intros records Hrecords.
  destruct (DeliveryFacts.write_all_returns port records Hrecords sink'
              (after_logging w entries) Hport' Hbuf')
    as (s1 & w1 & new & Hall & _ & _ & _ & Hport1 & _ & Hbuf1).
  rewrite /mbind /M_bind Hall.
  destruct (_event_documents s1) as [|d ds] eqn:Hdocs.
  - rewrite /Close FlushFacts._FlushEvents_empty //. by eexists _, _.
  - destruct (FlushFacts._FlushEvents_run s1 w1 port Hport1)
      as (entry & Hflushed & _); [by rewrite Hdocs|by rewrite Hdocs|].
    rewrite /Close Hflushed. by eexists _, _.
Qed.

End facts.
End ArgumentsHelperFacts.

(** ** The further properties at sample inputs *)

Module MoreSampleFacts.
Import SharedFluentBit Spec Sample Session ArgumentsHelper SampleOptions.

Lemma calls_keep_the_books_witness :
  coherent SharedFluentBit.__init__
  ∧ ∃ s' w' docs,
      perform_all
        [CallSetFlushInterval 0; CallWriteFieldValues record1;
         CallSetServerInformation "localhost" 9880;
         CallWriteFieldValues record2; CallClose]
        SharedFluentBit.__init__ (initial_world unreachable) = (s', w')
      ∧ coherent s'
      ∧ accepted s' w' =
          accepted SharedFluentBit.__init__ (initial_world unreachable) ++ docs
      ∧ length docs = 2%nat.
Proof.
  assert (coherent SharedFluentBit.__init__) as Hcoh by reflexivity.
  split; [exact Hcoh|].
  destruct (SessionFacts.calls_keep_the_books
              [CallSetFlushInterval 0; CallWriteFieldValues record1;
               CallSetServerInformation "localhost" 9880;
               CallWriteFieldValues record2; CallClose]
              SharedFluentBit.__init__ (initial_world unreachable) Hcoh)
    as (s' & w' & docs & new & Hrun & Hcoh' & Hacc & Hlen & _).
  exists s', w', docs.
  split; [exact Hrun|]. split; [exact Hcoh'|]. split; [exact Hacc|exact Hlen].
Defined.

Lemma write_then_close_posts_everything_once_witness :
  _port (configured 2) = Some 9880
  ∧ coherent (configured 2)
  ∧ Forall (λ d, document_encodable d = true)
      [record1; record2; record3; record1]
  ∧ ∃ s' w' new,
      (write_all [record1; record2; record3; record1];; Close) (configured 2)
        (initial_world unreachable) = (Return tt, s', w')
      ∧ _event_documents s' = []
      ∧ concat (map json new) = [record1; record2; record3; record1].
Proof.
  assert (coherent (configured 2)) as Hcoh by reflexivity.
  assert (Forall (λ d, document_encodable d = true)
            [record1; record2; record3; record1]) as Henc
    by (repeat constructor).
  split; [reflexivity|]. split; [exact Hcoh|]. split; [exact Henc|].
  destruct (DeliveryFacts.write_then_close_posts_everything_once 9880
              [record1; record2; record3; record1] (configured 2)
              (initial_world unreachable) eq_refl Hcoh)
    as (s' & w' & new & Hrun & Hdocs & _ & _ & Hall & _);
    [constructor|exact Henc|].
  exists s', w', new. split; [exact Hrun|]. split; [exact Hdocs|exact Hall].
Defined.

Lemma nonpositive_interval_posts_every_document_witness :
  _flush_interval (configured 0) ≤ 0
  ∧ _port (configured 0) = Some 9880
  ∧ ∃ s' w' new,
      write_all [record1; record2] (configured 0) (initial_world accepting)
        = (Return tt, s', w')
      ∧ _event_documents s' = []
      ∧ map json new = [[record1]; [record2]].
Proof.
  split; [discriminate|]. split; [reflexivity|].
  destruct (DeliveryFacts.nonpositive_interval_posts_every_document 9880
              [record1; record2] (configured 0) (initial_world accepting))
    as (s' & w' & new & Hrun & Hdocs & _ & _ & Hjson);
    [discriminate|reflexivity|reflexivity|reflexivity|repeat constructor|].
  exists s', w', new. split; [exact Hrun|]. split; [exact Hdocs|exact Hjson].
Defined.

Lemma unset_port_keeps_the_documents_witness :
  _port (with_flush_interval 0 SharedFluentBit.__init__) = None
  ∧ ∃ s1,
      FluentBit.WriteFieldValues record1
        (with_flush_interval 0 SharedFluentBit.__init__)
        (initial_world accepting)
      = (Raise TypeError, s1, initial_world accepting)
      ∧ _event_documents s1 = [record1]
      ∧ ∃ s2 w2 q,
          (SetServerInformation "localhost" 9880;; Close) s1
            (initial_world accepting) = (Return tt, s2, w2)
          ∧ posted w2 = [q]
          ∧ json q = [record1]
          ∧ _event_documents s2 = [].
Proof.
  split; [reflexivity|].
  destruct (DeliveryFacts.unset_port_keeps_the_documents
              (with_flush_interval 0 SharedFluentBit.__init__)
              (initial_world accepting) record1)
    as (s1 & Hrun & Hdocs & Hclose); [reflexivity|reflexivity|].
  exists s1. split; [exact Hrun|]. split; [exact Hdocs|].
  apply Hclose; [constructor|reflexivity].
Defined.

Lemma timesketch_flush_when_count_exceeds_interval_witness :
  1 ≤ 2
  ∧ ∃ s' w' batches,
      write_all_ts [record1; record2; record3]
        {| FluentBitTimesketch.shared := configured 2;
           FluentBitTimesketch._timeline_identifier := Some 42 |}
        (initial_world accepting) = (Return tt, s', w')
      ∧ FluentBitTimesketch._timeline_identifier s' = Some 42
      ∧ posted w' = posted (initial_world accepting) ++ batches
      ∧ Z.of_nat (length batches) = 3 `div` (2 + 1).
Proof.
  split; [lia|].
  destruct (TimesketchBufferFacts.timesketch_flush_when_count_exceeds_interval
              2 9880 [record1; record2; record3]
              {| FluentBitTimesketch.shared := configured 2;
                 FluentBitTimesketch._timeline_identifier := Some 42 |}
              (initial_world accepting))
    as (s' & w' & batches & Hrun & Htid & _ & _ & Hposted & Hdiv & _);
    [lia|reflexivity|reflexivity|reflexivity|reflexivity|repeat constructor|].
  exists s', w', batches.
  split; [exact Hrun|]. split; [exact Htid|]. split; [exact Hposted|exact Hdiv].
Defined.

Lemma document_values_are_not_None_nor_bytes_witness :
  Forall (λ kv, kv.1 ≠ "") (attributes file_stat)
  ∧ ∃ doc w',
      Resolver.GetFieldValues message_only path_specs_only tt tt
        (Some file_stat) (Some file_stream) None SharedFluentBit.__init__
        (initial_world accepting) = (Return doc, SharedFluentBit.__init__, w')
      ∧ ∀ k v, PyDict.get k doc = Some v →
               is_None v = false ∧ is_bytes v = false.
Proof.
  assert (Forall (λ kv : string * value, kv.1 ≠ "") (attributes file_stat))
    as Hnames by (repeat constructor; discriminate).
  split; [exact Hnames|].
  exact (ResolverMoreFacts.document_values_are_not_None_nor_bytes
           message_only path_specs_only tt tt file_stat (Some file_stream)
           None SharedFluentBit.__init__ (initial_world accepting) Hnames).
Defined.

Lemma path_spec_is_the_one_of_the_stream_witness :
  Forall (λ kv, kv.1 ≠ "") (attributes file_stat)
  ∧ stream_attributes file_stream =
      [] ++ ("path_spec", VPathSpec "/etc/passwd") :: []
  ∧ ∃ doc w',
      Resolver.GetFieldValues message_only path_specs_only tt tt
        (Some file_stat) (Some file_stream) None SharedFluentBit.__init__
        (initial_world accepting) = (Return doc, SharedFluentBit.__init__, w')
      ∧ PyDict.get "path_spec" doc = Some (VStr "{location: /etc/passwd}").
Proof.
  assert (Forall (λ kv : string * value, kv.1 ≠ "") (attributes file_stat))
    as Hnames by (repeat constructor; discriminate).
  split; [exact Hnames|]. split; [reflexivity|].
  destruct (ResolverMoreFacts.path_spec_is_the_one_of_the_stream
              message_only path_specs_only tt tt file_stat file_stream None
              SharedFluentBit.__init__ (initial_world accepting)
              [] [] (VPathSpec "/etc/passwd") Hnames eq_refl)
    as (doc & w' & Hrun & Hget); [apply not_elem_of_nil|].
  exists doc, w'. split; [exact Hrun|exact Hget].
Defined.

Lemma ParseOptions_configures_the_sink_witness :
  parse_string given "index_name" = Done (Some "caseA")
  ∧ parse_numeric_default given "port" 9880 = Done 9880
  ∧ ∃ om' s' w',
      ParseOptions parse_string parse_string_default parse_numeric_default
        given (FluentBitOutputModule SharedFluentBit.__init__)
        (initial_world accepting) = (Done tt, om', w')
      ∧ shared_of om' = Some s'
      ∧ _port s' = Some 9880
      ∧ _flush_interval s' = 2
      ∧ _index_name s' = Some "caseA".
Proof.
  split; [reflexivity|]. split; [reflexivity|].
  destruct (ArgumentsHelperFacts.ParseOptions_configures_the_sink
              parse_string parse_string_default parse_numeric_default
              given (FluentBitOutputModule SharedFluentBit.__init__)
              (initial_world accepting) SharedFluentBit.__init__
              (Some "caseA") None 2 9880 "localhost")
    as (om' & s' & w' & Hrun & Hs & _ & Hport & Hflush & _ & Hindex & _);
    [reflexivity..|].
  exists om', s', w'. split; [exact Hrun|]. split; [exact Hs|].
  split; [exact Hport|]. split; [exact Hflush|exact Hindex].
Defined.

Lemma ParseOptions_is_all_or_nothing_witness :
  ParseOptions parse_string parse_string_default parse_numeric_default
    bad_port (FluentBitOutputModule SharedFluentBit.__init__)
    (initial_world accepting)
  = (Failed (BadConfigOption "Unsupported option: port integer type required."),
     FluentBitOutputModule SharedFluentBit.__init__, initial_world accepting)
  ∧ parse_numeric_default bad_port "port" 9880
    = Failed (BadConfigOption "Unsupported option: port integer type required.").
Proof.
  assert (ParseOptions parse_string parse_string_default parse_numeric_default
            bad_port (FluentBitOutputModule SharedFluentBit.__init__)
            (initial_world accepting)
          = (Failed (BadConfigOption
                       "Unsupported option: port integer type required."),
             FluentBitOutputModule SharedFluentBit.__init__,
             initial_world accepting)) as Hfail by reflexivity.
  split; [exact Hfail|].
  destruct (ArgumentsHelperFacts.ParseOptions_is_all_or_nothing
              parse_string parse_string_default parse_numeric_default
              bad_port _ _ _ _ _ Hfail)
    as (_ & _ & [H|[H|[H|[H|[H|H]]]]]); try discriminate H.
  exact H.
Defined.

Lemma ParseOptions_ts_fails_after_the_shared_options_witness :
  parse_numeric bad_timeline "timeline_id"
  = Failed (BadConfigOption
              "Unsupported option: timeline_id integer type required.")
  ∧ ∃ sink' w',
      ParseOptions_ts parse_string parse_numeric parse_string_default
        parse_numeric_default bad_timeline
        (FluentBitTimesketchOutputModule FluentBitTimesketch.__init__)
        (initial_world accepting)
      = (Failed (BadConfigOption
                   "Unsupported option: timeline_id integer type required."),
         FluentBitTimesketchOutputModule sink', w')
      ∧ _port (FluentBitTimesketch.shared sink') = Some 9880
      ∧ FluentBitTimesketch._timeline_identifier sink' = None.
Proof.
  split; [reflexivity|].
  destruct (ArgumentsHelperFacts.ParseOptions_ts_fails_after_the_shared_options
              parse_string parse_numeric parse_string_default
              parse_numeric_default bad_timeline FluentBitTimesketch.__init__
              (initial_world accepting) (Some "caseA") None 2 9880 "localhost"
              (BadConfigOption
                 "Unsupported option: timeline_id integer type required."))
    as (sink' & w' & Hrun & _ & Hport & _ & _ & Htid); [reflexivity..|].
  exists sink', w'. split; [exact Hrun|]. split; [exact Hport|exact Htid].
Defined.

Lemma ParseOptions_ts_then_GetMissingArguments_witness :
  parse_numeric given "timeline_id" = Done (Some 42)
  ∧ ∃ sink' w',
      ParseOptions_ts parse_string parse_numeric parse_string_default
        parse_numeric_default given
        (FluentBitTimesketchOutputModule FluentBitTimesketch.__init__)
        (initial_world accepting)
      = (Done tt, FluentBitTimesketchOutputModule sink', w')
      ∧ FluentBitTimesketch._timeline_identifier sink' = Some 42
      ∧ FluentBitTimesketch.GetMissingArguments sink' w'
        = (Return [], sink', w').
Proof.
  split; [reflexivity|].
  destruct (ArgumentsHelperFacts.ParseOptions_ts_then_GetMissingArguments
              parse_string parse_numeric parse_string_default
              parse_numeric_default given FluentBitTimesketch.__init__
              (initial_world accepting) (Some "caseA") None 2 9880 "localhost"
              (Some 42))
    as (sink' & w' & Hrun & Htid & _ & Hmissing); [reflexivity..|].
  exists sink', w'. split; [exact Hrun|]. split; [exact Htid|].
  apply Hmissing. reflexivity.
Defined.

Lemma configured_sink_never_raises_witness :
  parse_numeric_default given "flush_interval" 1000 = Done 2
  ∧ ∃ sink' w',
      ParseOptions parse_string parse_string_default parse_numeric_default
        given (FluentBitOutputModule SharedFluentBit.__init__)
        (initial_world unreachable)
      = (Done tt, FluentBitOutputModule sink', w')
      ∧ ∃ sink'' w'',
          (write_all [record1; record2; record3];; Close) sink' w'
          = (Return tt, sink'', w'')
          ∧ _event_documents sink'' = [].
Proof.
  split; [reflexivity|].
  destruct (ArgumentsHelperFacts.configured_sink_never_raises
              parse_string parse_string_default parse_numeric_default
              given SharedFluentBit.__init__ (initial_world unreachable)
              (Some "caseA") None 2 9880 "localhost")
    as (sink' & w' & Hrun & Hall);
    [reflexivity|reflexivity|reflexivity|reflexivity|reflexivity|constructor|].
  exists sink', w'. split; [exact Hrun|].
  apply (Hall [record1; record2; record3]). repeat constructor.
Defined.

(** The options of the sample, parsed for a Timesketch sink, and three
    records written and closed. *)
Example timesketch_session :
  ∃ sink w sink' w',
    ParseOptions_ts parse_string parse_numeric parse_string_default
      parse_numeric_default given
      (FluentBitTimesketchOutputModule FluentBitTimesketch.__init__)
      (initial_world accepting)
    = (Done tt, FluentBitTimesketchOutputModule sink, w)
    ∧ (write_all_ts [record1; record2; record3];;
       FluentBitTimesketch.inherited Close) sink w = (Return tt, sink', w')
    ∧ map url (posted w') = ["http://localhost:9880"]
    ∧ map (λ q, length (json q)) (posted w') = [3%nat]
    ∧ _event_documents (FluentBitTimesketch.shared sink') = [].
Proof. eexists _, _, _, _. split_and!; vm_compute; reflexivity. Qed.


End MoreSampleFacts.
